(** * py_utils.housekeeper: age- and count-based directory cleanup

    A shallow embedding of [src/py_utils/housekeeper.py].  The two static
    methods of [class Housekeeper] and the module-level function
    [cleanup_directory] are written in a small state-and-exception monad
    over a [world]: the file system, the clock and the time zone of the
    host, the lines waiting on standard input, and a chronological log of
    every call made to the operating system and the console.

    Conventions of the model:
    - [datetime.now()] is a naive local date and time: the reading of the
      wall clock, counted in microseconds, the resolution of [datetime].
      Subtracting [timedelta(days=n)] from it is exact calendar
      arithmetic on that reading, [n * us_per_day] microseconds, whatever
      the time zone does in between;
    - [datetime.timestamp()] turns such a reading into a POSIX time stamp,
      a float.  The conversion belongs to the host (its time zone rules,
      the rounding to a float); it is a component of the world,
      [timestamp], and nothing is assumed of it;
    - [st_mtime] and the results of [timestamp] are floats.  The module
      only compares them, so a float is represented by an integer, in an
      order-preserving way.  In the examples the host keeps UTC and a
      float is written as the number of microseconds it stands for;
    - [days_old] and the cutoff are within the range of [timedelta] and
      [datetime]; beyond it line 26 raises [OverflowError], which is not
      modelled;
    - a path is its list of components; [path_str] renders it;
    - the file system is the list of its nodes in the order in which
      [Path.rglob] enumerates them; a node carries a flag telling whether
      the operating system refuses to unlink it;
    - strings are byte strings and [str.lower] maps the letters A-Z. *)

From stdpp Require Import base list sorting strings pretty gmap.
From Stdlib Require Import ZArith Lia.

Open Scope Z_scope.

(** ** Python builtins used by the module *)

Module Py.

Definition lower_ascii (c : Ascii.ascii) : Ascii.ascii :=
  let n := Ascii.N_of_ascii c in
  if ((65 <=? n) && (n <=? 90))%N then Ascii.ascii_of_N (n + 32) else c.

(** [str.lower] *)
Fixpoint lower (s : string) : string :=
  match s with
  | EmptyString => EmptyString
  | String c s' => String (lower_ascii c) (lower s')
  end.

(** [len(l)] as a Python integer *)
Definition len {A} (l : list A) : Z := Z.of_nat (length l).

(** [l[k:]]: a negative [k] counts from the end, and the start is
    clipped to the list. *)
Definition slice_from {A} (k : Z) (l : list A) : list A :=
  if 0 <=? k then drop (Z.to_nat k) l
  else drop (Z.to_nat (len l + k)) l.

(** [l[:k]] *)
Definition slice_to {A} (k : Z) (l : list A) : list A :=
  if 0 <=? k then take (Z.to_nat k) l
  else take (Z.to_nat (len l + k)) l.

(** [list.sort(key=..., reverse=True)].  Python's sort is stable, also
    under [reverse=True]: elements with equal keys keep their original
    order.  The result of a stable sort is determined by its input; it is
    computed here by insertion from the right, an element going in front
    of the first one whose key is not larger. *)
Section Sort.
Context {A : Type} (key : A → Z).

Fixpoint insert_desc (x : A) (l : list A) : list A :=
  match l with
  | [] => [x]
  | y :: l' => if key y <=? key x then x :: y :: l' else y :: insert_desc x l'
  end.

Fixpoint sort_desc (l : list A) : list A :=
  match l with
  | [] => []
  | x :: l' => insert_desc x (sort_desc l')
  end.
End Sort.

End Py.

(** ** The world: file system, clock, console *)

Definition path := list string.

(** [str(path)] *)
Fixpoint path_str (p : path) : string :=
  match p with
  | [] => ""
  | c :: p' => "/" +:+ c +:+ path_str p'
  end.

Inductive kind := RegularFile | Directory.

Record node := Node {
  n_path : path;
  n_kind : kind;
  st_mtime : Z;      (* modification time, a POSIX time stamp *)
  n_locked : bool    (* os.remove on it is refused *)
}.

Inductive exn_class :=
  FileNotFoundError | PermissionError | IsADirectoryError | EOFError.

(** Every class above derives from [Exception]. *)
Record exn := Exn { exn_cls : exn_class; exn_str : string }.

(** One entry per call to a collaborator, with its outcome. *)
Inductive event :=
| Exists (p : path) (r : bool)
| Now (t : Z)
| Rglob (p : path)
| Remove (p : path) (ok : bool)
| Print (line : string)
| Input (prompt : string) (response : option string).

Record world := World {
  fs : list node;
  clock : Z;             (* the wall clock: what [datetime.now()] reads *)
  timestamp : Z → Z;     (* [datetime.timestamp()] on this host *)
  stdin : list string;
  log : list event
}.

Inductive result (A : Type) :=
| Return (a : A)
| Raise (e : exn).
Arguments Return {A} a.
Arguments Raise {A} e.

Definition M (A : Type) : Type := world → result A * world.

Definition ret {A} (a : A) : M A := λ w, (Return a, w).

Definition bind {A B} (m : M A) (k : A → M B) : M B := λ w,
  match m w with
  | (Return a, w') => k a w'
  | (Raise e, w') => (Raise e, w')
  end.

Definition raise {A} (e : exn) : M A := λ w, (Raise e, w).

(** [try: m  except Exception as e: h e] *)
Definition try_except {A} (m : M A) (h : exn → M A) : M A := λ w,
  match m w with
  | (Return a, w') => (Return a, w')
  | (Raise e, w') => h e w'
  end.

Declare Scope py_scope.
Delimit Scope py_scope with py.
Notation "x <- m ;; k" := (bind m (λ x, k))
  (at level 100, m at next level, right associativity) : py_scope.
Notation "m ;;; k" := (bind m (λ _, k))
  (at level 100, right associativity) : py_scope.
Open Scope py_scope.

Definition emit (e : event) (w : world) : world :=
  World (fs w) (clock w) (timestamp w) (stdin w) (log w ++ [e]).

(** The node a path resolves to: the first one carrying it. *)
Fixpoint find_node (p : path) (l : list node) : option node :=
  match l with
  | [] => None
  | n :: l' => if decide (n_path n = p) then Some n else find_node p l'
  end.

Definition is_file (n : node) : Prop := n_kind n = RegularFile.
Global Instance is_file_dec n : Decision (is_file n).
Proof. unfold is_file. destruct (n_kind n); [left | right]; congruence. Defined.

(** [p] lies strictly below [d]. *)
Definition below (d p : path) : Prop := d `prefix_of` p ∧ p ≠ d.

Module OS.

(** [os.path.exists] *)
Definition path_exists (p : path) : M bool := λ w,
  let r := bool_decide (is_Some (find_node p (fs w))) in
  (Return r, emit (Exists p r) w).

(** [datetime.now()] *)
Definition now : M Z := λ w, (Return (clock w), emit (Now (clock w)) w).

(** [t.timestamp()] for a naive [t] *)
Definition to_timestamp (t : Z) : M Z := λ w, (Return (timestamp w t), w).

(** What [Path(d).rglob('*')] yields: every entry below [d], and nothing
    when [d] is not a directory. *)
Definition entries (d : path) (l : list node) : list node :=
  match find_node d l with
  | Some (Node _ Directory _ _) => filter (λ n, below d (n_path n)) l
  | _ => []
  end.

Definition rglob (d : path) : M (list node) := λ w,
  (Return (entries d (fs w)), emit (Rglob d) w).

Definition unlink (p : path) (l : list node) : list node :=
  filter (λ n, n_path n ≠ p) l.

(** [os.remove] *)
Definition remove (p : path) : M unit := λ w,
  match find_node p (fs w) with
  | None =>
      (Raise (Exn FileNotFoundError
                ("[Errno 2] No such file or directory: '" +:+ path_str p +:+ "'")),
       emit (Remove p false) w)
  | Some (Node _ Directory _ _) =>
      (Raise (Exn IsADirectoryError
                ("[Errno 21] Is a directory: '" +:+ path_str p +:+ "'")),
       emit (Remove p false) w)
  | Some (Node _ RegularFile _ true) =>
      (Raise (Exn PermissionError
                ("[Errno 13] Permission denied: '" +:+ path_str p +:+ "'")),
       emit (Remove p false) w)
  | Some (Node _ RegularFile _ false) =>
      (Return (), emit (Remove p true)
                    (World (unlink p (fs w)) (clock w) (timestamp w) (stdin w) (log w)))
  end.

(** [print] *)
Definition print (line : string) : M unit := λ w,
  (Return (), emit (Print line) w).

(** [input]: the prompt is written, then one line is read; at end of
    input [EOFError] is raised. *)
Definition input (prompt : string) : M string := λ w,
  match stdin w with
  | [] => (Raise (Exn EOFError "EOF when reading a line"),
           emit (Input prompt None) w)
  | r :: rest =>
      (Return r, emit (Input prompt (Some r))
                   (World (fs w) (clock w) (timestamp w) rest (log w)))
  end.

End OS.

Definition us_per_day : Z := 86400 * 1000000.
Definition us_per_hour : Z := 3600 * 1000000.

(** ** class Housekeeper *)

Module Housekeeper.

(** The deletion loop shared by both methods:
    [for file_path in files: try: os.remove(file_path); deleted_count += 1
     except Exception as e: print(...)]. *)
Fixpoint delete_loop (files : list path) (deleted_count : Z) : M Z :=
  match files with
  | [] => ret deleted_count
  | file_path :: rest =>
      c <- try_except
             (OS.remove file_path ;;; ret (deleted_count + 1))
             (λ e, OS.print ("Error deleting " +:+ path_str file_path
                              +:+ ": " +:+ exn_str e) ;;;
                   ret deleted_count) ;;
      delete_loop rest c
  end.

Fixpoint print_each (lines : list string) : M unit :=
  match lines with
  | [] => ret ()
  | l :: rest => OS.print l ;;; print_each rest
  end.

(** The selection loop of [housekeep_by_age]. *)
Definition older_than (cutoff_timestamp : Z) (entries : list node) : list node :=
  filter (λ n, is_file n ∧ st_mtime n < cutoff_timestamp) entries.

Definition housekeep_by_age (directory : path) (days_old : Z) (confirm : bool) : M Z :=
  ex <- OS.path_exists directory ;;
  if negb ex then
    raise (Exn FileNotFoundError
             ("Directory " +:+ path_str directory +:+ " does not exist"))
  else
    now <- OS.now ;;
    let cutoff_time := now - days_old * us_per_day in
    cutoff_timestamp <- OS.to_timestamp cutoff_time ;;
    entries <- OS.rglob directory ;;
    let files_to_delete := n_path <$> older_than cutoff_timestamp entries in
    match files_to_delete with
    | [] =>
        OS.print ("No files older than " +:+ pretty days_old +:+ " days found.") ;;;
        ret 0
    | _ :: _ =>
        if confirm then
          OS.print ("Will delete " +:+ pretty (Py.len files_to_delete)
                    +:+ " files older than " +:+ pretty days_old +:+ " days:") ;;;
          print_each ((λ file, "  " +:+ path_str file) <$> Py.slice_to 5 files_to_delete) ;;;
          (if 5 <? Py.len files_to_delete then
             OS.print ("  ... and " +:+ pretty (Py.len files_to_delete - 5) +:+ " more")
           else ret ()) ;;;
          response <- OS.input "Proceed? (y/N): " ;;
          if bool_decide (Py.lower response ≠ "y") then
            OS.print "Deletion cancelled." ;;;
            ret 0
          else delete_loop files_to_delete 0
        else delete_loop files_to_delete 0
    end.

(** The enumeration loop of [housekeep_by_count]: the regular files with
    their modification times. *)
Definition files_with_mtime (entries : list node) : list (path * Z) :=
  (λ n, (n_path n, st_mtime n)) <$> filter is_file entries.

Definition housekeep_by_count (directory : path) (keep_count : Z) (confirm : bool) : M Z :=
  ex <- OS.path_exists directory ;;
  if negb ex then
    raise (Exn FileNotFoundError
             ("Directory " +:+ path_str directory +:+ " does not exist"))
  else
    entries <- OS.rglob directory ;;
    let files := files_with_mtime entries in
    if Py.len files <=? keep_count then
      OS.print ("Only " +:+ pretty (Py.len files) +:+ " files found, no deletion needed.") ;;;
      ret 0
    else
      let files := Py.sort_desc snd files in
      let files_to_delete := Py.slice_from keep_count files in
      if confirm then
        OS.print ("Will delete " +:+ pretty (Py.len files_to_delete)
                  +:+ " files, keeping " +:+ pretty keep_count +:+ " newest.") ;;;
        response <- OS.input "Proceed? (y/N): " ;;
        if bool_decide (Py.lower response ≠ "y") then
          OS.print "Deletion cancelled." ;;;
          ret 0
        else delete_loop (fst <$> files_to_delete) 0
      else delete_loop (fst <$> files_to_delete) 0.

End Housekeeper.

(** ** Convenience function *)

(** [days_old] and [keep_count] are [Optional[int]] defaulting to [None];
    the two calls leave [confirm] at its default, [True]. *)
Definition cleanup_directory (directory : path)
    (days_old : option Z) (keep_count : option Z) : M Z :=
  match days_old with
  | Some days_old => Housekeeper.housekeep_by_age directory days_old true
  | None =>
      match keep_count with
      | Some keep_count => Housekeeper.housekeep_by_count directory keep_count true
      | None => OS.print "Specify days_old or keep_count" ;;; ret 0
      end
  end.

(** ** Observations on a run *)

Definition removes (l : list event) : list (path * bool) :=
  omap (λ e, match e with Remove p ok => Some (p, ok) | _ => None end) l.

Definition printed (l : list event) : list string :=
  omap (λ e, match e with Print s => Some s | _ => None end) l.

Definition prompts (l : list event) : list string :=
  omap (λ e, match e with Input p _ => Some p | _ => None end) l.

Definition enumerations (l : list event) : list path :=
  omap (λ e, match e with Rglob p => Some p | _ => None end) l.

(** A small tree used in the examples: [/data] with three files, one of
    them in a subdirectory. *)
Definition d_data : path := ["data"].
Definition demo_fs : list node :=
  [ Node ["data"] Directory 0 false;
    Node ["data"; "a.log"] RegularFile 100 false;
    Node ["data"; "sub"] Directory 0 false;
    Node ["data"; "sub"; "b.log"] RegularFile 200 true;
    Node ["data"; "c.log"] RegularFile 300 false ].
(** A host that keeps UTC: the wall clock reads POSIX time. *)
Definition utc : Z → Z := λ t, t.

Definition demo_world (now : Z) (answers : list string) : world :=
  World demo_fs now utc answers [].

(** The order [sort_desc] establishes: the larger key comes first. *)
Definition newer_first {A} (key : A → Z) (a b : A) : Prop := key b <= key a.

(** A tree in which one file is old and two were modified at time 100. *)
Definition aging_fs : list node :=
  [ Node ["data"] Directory 0 false;
    Node ["data"; "old.log"] RegularFile 0 false;
    Node ["data"; "new1.log"] RegularFile 100 false;
    Node ["data"; "new2.log"] RegularFile 100 false ].

(** The directory of the seven-file scenario: file [i] was modified [i]
    hours before [now], and the files are enumerated in that order. *)
Definition hourly_file (now : Z) (name : string) (i : Z) : node :=
  Node ["data"; name] RegularFile (now - i * us_per_hour) false.

Definition hourly_fs (now : Z) : list node :=
  [ Node ["data"] Directory now false;
    hourly_file now "file_0.txt" 0; hourly_file now "file_1.txt" 1;
    hourly_file now "file_2.txt" 2; hourly_file now "file_3.txt" 3;
    hourly_file now "file_4.txt" 4; hourly_file now "file_5.txt" 5;
    hourly_file now "file_6.txt" 6 ].

(** The conversion on a host that keeps the time of Europe/Berlin, for
    wall-clock readings from 29 October 2023, 03:00, to 27 October 2024,
    03:00: the clock is one hour ahead of UTC until it is put forward on
    31 March 2024, and two hours ahead from 03:00 on that day.  Readings
    are counted in microseconds from 1 January 1970, 00:00, on the wall
    clock. *)
Definition berlin : Z → Z := λ t,
  if t <? 1711854000 * 1000000 then t - 3600 * 1000000 else t - 7200 * 1000000.

(** A directory with one file, modified on 30 March 2024 at 10:30 UTC. *)
Definition berlin_file : node :=
  Node ["data"; "a.log"] RegularFile (1711794600 * 1000000) false.

Definition berlin_fs : list node :=
  [ Node ["data"] Directory 0 false; berlin_file ].

(** That host on 31 March 2024 at noon on its wall clock, which is 10:00
    UTC: the file was modified 23 hours and a half ago. *)
Definition berlin_world : world :=
  World berlin_fs (1711886400 * 1000000) berlin [] [].

(** The conversion on a host whose zone is set to
    [TZ=AAA12BBB-14,M3.5.0,M10.5.0], for wall-clock readings of spring
    2024: twelve hours behind UTC, and fourteen ahead from 1 April 2024,
    04:00. *)
Definition wide_zone : Z → Z := λ t,
  if t <? 1711944000 * 1000000 then t + 43200 * 1000000 else t - 50400 * 1000000.

(** That host on 2 April 2024 at noon on its wall clock, with one file
    modified at 1711926000 seconds POSIX time. *)
Definition wide_zone_world : world :=
  World [ Node ["data"] Directory 0 false;
          Node ["data"; "a.log"] RegularFile (1711926000 * 1000000) false ]
        (1712059200 * 1000000) wide_zone [] [].

(** The calls in which line 26 is defined: [timedelta(days=days_old)]
    takes at most 999999999 days either way, and the reading [days_old]
    days before the present one has to lie between the first instant of
    the year 1 and the last of the year 9999.  Outside, the subtraction
    raises [OverflowError]. *)
Definition datetime_min : Z := -62135596800 * 1000000.
Definition datetime_max : Z := 253402300800 * 1000000 - 1.

Definition in_datetime_range (days_old : Z) (w : world) : Prop :=
  -999999999 <= days_old <= 999999999
  ∧ datetime_min <= clock w - days_old * us_per_day <= datetime_max.

(** The conversion keeps the order of two wall-clock readings that are
    one day apart. *)
Definition keeps_day_order (w : world) : Prop :=
  ∀ t, timestamp w (t - us_per_day) <= timestamp w t.

(** Number of successful [os.remove] calls among the recorded ones. *)
Definition successes (l : list (path * bool)) : Z :=
  Py.len (filter (λ pr, pr.2 = true) l).

(** Effect of one recorded [os.remove] on the file system. *)
Definition apply_remove (l : list node) (pr : path * bool) : list node :=
  if pr.2 then OS.unlink pr.1 l else l.

(** The cutoff [housekeep_by_age] computes in world [w]: the time stamp of
    the wall-clock reading [days_old] days before the present one. *)
Definition cutoff (days_old : Z) (w : world) : Z :=
  timestamp w (clock w - days_old * us_per_day).

(** The candidates [housekeep_by_age] selects in world [w]. *)
Definition eligible_by_age (d : path) (days_old : Z) (w : world) : list node :=
  Housekeeper.older_than (cutoff days_old w) (OS.entries d (fs w)).

(** The files [housekeep_by_count] discovers, and its candidates. *)
Definition discovered (d : path) (w : world) : list (path * Z) :=
  Housekeeper.files_with_mtime (OS.entries d (fs w)).

Definition eligible_by_count (d : path) (keep_count : Z) (w : world) : list (path * Z) :=
  Py.slice_from keep_count (Py.sort_desc snd (discovered d w)).

(** The files [housekeep_by_count] keeps: the first [keep_count] in
    descending order of modification time. *)
Definition retained_by_count (d : path) (keep_count : Z) (w : world) : list (path * Z) :=
  Py.slice_to keep_count (Py.sort_desc snd (discovered d w)).


(** Either no confirmation is asked, or the waiting answer is a yes. *)
Definition proceeds (confirm : bool) (w : world) : Prop :=
  confirm = false ∨ ∃ r rest, stdin w = r :: rest ∧ Py.lower r = "y".

(** The world once the directory has been checked and enumerated. *)
Definition scanned_age (d : path) (w : world) : world :=
  emit (Rglob d) (emit (Now (clock w)) (emit (Exists d true) w)).

Definition scanned_count (d : path) (w : world) : world :=
  emit (Rglob d) (emit (Exists d true) w).

(** The messages shown before the question is asked. *)
Definition age_preview (days : Z) (files : list path) : list event :=
  Print ("Will delete " +:+ pretty (Py.len files)
         +:+ " files older than " +:+ pretty days +:+ " days:")
  :: (Print <$> ((λ file, "  " +:+ path_str file) <$> Py.slice_to 5 files))
  ++ (if 5 <? Py.len files
      then [Print ("  ... and " +:+ pretty (Py.len files - 5) +:+ " more")]
      else []).

(** The confirmation step as both methods write it: ask, and delete
    only on a yes. *)
Definition answer (files : list path) : M Z :=
  response <- OS.input "Proceed? (y/N): " ;;
  if bool_decide (Py.lower response ≠ "y") then
    OS.print "Deletion cancelled." ;;;
    ret 0
  else Housekeeper.delete_loop files 0.

(** The world in which [housekeep_by_age] asks its question. *)
Definition asking_age (d : path) (days : Z) (w : world) : world :=
  World (fs w) (clock w) (timestamp w) (stdin w)
    (log (scanned_age d w)
       ++ age_preview days (n_path <$> eligible_by_age d days w)).

(** The world in which [housekeep_by_count] asks its question. *)
Definition asking_count (d : path) (k : Z) (w : world) : world :=
  emit (Print ("Will delete " +:+ pretty (Py.len (eligible_by_count d k w))
               +:+ " files, keeping " +:+ pretty k +:+ " newest."))
       (scanned_count d w).

(** ** Outcomes of a call *)

(** The call raised [FileNotFoundError] having done nothing but the
    existence check. *)
Definition fails_untouched (d : path) (w : world) (out : result Z * world) : Prop :=
  ∃ e, out.1 = Raise e ∧ exn_cls e = FileNotFoundError
       ∧ fs out.2 = fs w ∧ log out.2 = log w ++ [Exists d false].

(** The call returned 0 after a cancellation message, without calling
    [os.remove]. *)
Definition cancelled (w : world) (out : result Z * world) : Prop :=
  out.1 = Return 0 ∧ fs out.2 = fs w
  ∧ removes (log out.2) = removes (log w)
  ∧ last (log out.2) = Some (Print "Deletion cancelled.").

(** The call returned 0 without asking and without calling [os.remove]. *)
Definition quiet (w : world) (out : result Z * world) : Prop :=
  out.1 = Return 0 ∧ fs out.2 = fs w ∧ stdin out.2 = stdin w
  ∧ prompts (log out.2) = prompts (log w)
  ∧ removes (log out.2) = removes (log w).

(** The call went past the existence check on [d] and on to the
    enumeration, and did not raise [FileNotFoundError]. *)
Definition passes_check (d : path) (w : world) (out : result Z * world) : Prop :=
  (∀ e, out.1 = Raise e → exn_cls e ≠ FileNotFoundError)
  ∧ ∃ evs, log out.2 = log w ++ Exists d true :: evs ∧ Rglob d ∈ evs.

(** The call attempted [os.remove] on exactly [files], in order, and
    returned the number of attempts that succeeded; the file system
    changed by those alone. *)
Definition attempts_all (files : list path) (w : world) (out : result Z * world) : Prop :=
  ∃ evs, log out.2 = log w ++ evs
         ∧ (removes evs).*1 = files
         ∧ out.1 = Return (successes (removes evs))
         ∧ fs out.2 = foldl apply_remove (fs w) (removes evs).

(** Every path resolves to at most one node. *)
Definition wf_fs (l : list node) : Prop := NoDup (n_path <$> l).

(** ** The deletion loop as a function of the file system *)

(** The exception [os.remove p] raises on a file system, if any. *)
Definition remove_error (p : path) (l : list node) : option exn :=
  match find_node p l with
  | None =>
      Some (Exn FileNotFoundError
              ("[Errno 2] No such file or directory: '" +:+ path_str p +:+ "'"))
  | Some (Node _ Directory _ _) =>
      Some (Exn IsADirectoryError
              ("[Errno 21] Is a directory: '" +:+ path_str p +:+ "'"))
  | Some (Node _ RegularFile _ true) =>
      Some (Exn PermissionError
              ("[Errno 13] Permission denied: '" +:+ path_str p +:+ "'"))
  | Some (Node _ RegularFile _ false) => None
  end.

(** What the deletion loop logs, the file system it leaves and the number
    of files it removes, from the file system it starts in. *)
Fixpoint loop_run (files : list path) (l : list node) : list event * list node * Z :=
  match files with
  | [] => ([], l, 0)
  | p :: rest =>
      match remove_error p l with
      | None =>
          let r := loop_run rest (OS.unlink p l) in
          (Remove p true :: r.1.1, r.1.2, r.2 + 1)
      | Some e =>
          let r := loop_run rest l in
          (Remove p false
           :: Print ("Error deleting " +:+ path_str p +:+ ": " +:+ exn_str e)
           :: r.1.1, r.1.2, r.2)
      end
  end.

(** The shape of the log of a deletion loop over [files]: per file, either
    one successful [os.remove], or a failed one followed at once by the
    error line that names the file. *)
Inductive loop_trace : list path → list event → Prop :=
| trace_done : loop_trace [] []
| trace_removed p files evs :
    loop_trace files evs → loop_trace (p :: files) (Remove p true :: evs)
| trace_failed p files msg evs :
    loop_trace files evs →
    loop_trace (p :: files)
      (Remove p false
       :: Print ("Error deleting " +:+ path_str p +:+ ": " +:+ msg) :: evs).

(** The call raised [EOFError] at the question, having removed nothing. *)
Definition aborted_on_eof (w : world) (out : result Z * world) : Prop :=
  (∃ e, out.1 = Raise e ∧ exn_cls e = EOFError)
  ∧ fs out.2 = fs w ∧ removes (log out.2) = removes (log w).

(** The call removed nothing but nodes whose path is in [files], and
    created or changed none. *)
Definition removes_only (files : list path) (w : world) (out : result Z * world) : Prop :=
  fs out.2 `sublist_of` fs w
  ∧ ∀ n, n ∈ fs w → n_path n ∉ files → n ∈ fs out.2.

(** The call returned a count between 0 and [bound], equal to the number
    of nodes that left the file system. *)
Definition counts_files_gone (bound : Z) (w : world) (out : result Z * world) : Prop :=
  ∀ k, out.1 = Return k →
       0 <= k <= bound ∧ Py.len (fs out.2) + k = Py.len (fs w).

(** Two calls agree on what they return, on the file system they leave
    and on the [os.remove] calls they make. *)
Definition same_deletions (w : world) (out1 out2 : result Z * world) : Prop :=
  out1.1 = out2.1 ∧ fs out1.2 = fs out2.2
  ∧ ∃ evs1 evs2, log out1.2 = log w ++ evs1 ∧ log out2.2 = log w ++ evs2
                 ∧ removes evs1 = removes evs2.

(** The log of the call ends with a deletion loop over [files], and no
    [os.remove] was called before it. *)
Definition ends_with_loop (files : list path) (w : world) (out : result Z * world) : Prop :=
  ∃ pre evs, log out.2 = log w ++ pre ++ evs
             ∧ removes pre = [] ∧ loop_trace files evs.

(** The call asked nothing and read nothing. *)
Definition silent (w : world) (out : result Z * world) : Prop :=
  stdin out.2 = stdin w ∧ prompts (log out.2) = prompts (log w).

(** The call asked at most one question and read at most one line (none
    at the end of input). *)
Definition asks_at_most_once (w : world) (out : result Z * world) : Prop :=
  silent w out
  ∨ (stdin out.2 = tail (stdin w)
     ∧ prompts (log out.2) = prompts (log w) ++ ["Proceed? (y/N): "]).

(** * py_utils.email_helper: sending mail through SMTP

    [smtplib] is the collaborator: a connection is opened by constructing
    [smtplib.SMTP] or [smtplib.SMTP_SSL], and [login], [sendmail] and [quit]
    are called on it.  Each of the four can raise; which of them do is a
    parameter of the network.  Every call is recorded with its outcome.
    The MIME message is kept as its headers and parts.  The [email]
    package refuses some messages, when a part is built by [MIMEText] or
    when the message is serialised by [as_string] (a header with a line
    break, a body that cannot be encoded); which messages it refuses, and
    with what error, is a parameter as well. *)

Module Smtp.

Inductive error_class :=
| LibraryError      (* raised by smtplib, ssl, the socket layer or email *)
| PlainException.   (* an instance of [Exception] itself *)

(** Both classes derive from [Exception]; [err_str] is [str(e)]. *)
Record error := Error { err_cls : error_class; err_str : string }.

Record message := Message {
  m_subject : string;
  m_from : string;
  m_to : string;
  m_parts : list (string * string)   (* subtype and payload, in order *)
}.

(** The handle [smtplib.SMTP(host, port)] or [smtplib.SMTP_SSL(host, port,
    context=...)] returns. *)
Record connection := Connection { c_host : string; c_port : Z; c_ssl : bool }.

Inductive call :=
| Connect (host : string) (port : Z) (ssl : bool) (ok : bool)
| Login (username password : string) (ok : bool)
| Sendmail (from_addr to_addr : string) (msg : message) (ok : bool)
| Quit (ok : bool).

(** The error each operation raises, if it does, and the error the
    [email] package raises on a message, if it does. *)
Record behaviour := Behaviour {
  connect_error : option string;
  login_error : option string;
  sendmail_error : option string;
  quit_error : option string;
  mime_error : message → option string
}.

Record net := Net { server : behaviour; calls : list call }.

Inductive outcome (A : Type) :=
| Ok (a : A)
| Err (e : error).
Arguments Ok {A} a.
Arguments Err {A} e.

Definition S (A : Type) : Type := net → outcome A * net.

Definition ret {A} (a : A) : S A := λ n, (Ok a, n).

Definition bind {A B} (m : S A) (k : A → S B) : S B := λ n,
  match m n with
  | (Ok a, n') => k a n'
  | (Err e, n') => (Err e, n')
  end.

Definition raise {A} (e : error) : S A := λ n, (Err e, n).

(** [try: m  except Exception as e: h e] *)
Definition try_except {A} (m : S A) (h : error → S A) : S A := λ n,
  match m n with
  | (Ok a, n') => (Ok a, n')
  | (Err e, n') => h e n'
  end.

(** [try: m  finally: f]: [f] runs whatever [m] did, and an exception of
    [f] replaces the outcome of [m]. *)
Definition try_finally {A} (m : S A) (f : S unit) : S A := λ n,
  match m n with
  | (r, n') =>
      match f n' with
      | (Ok _, n'') => (r, n'')
      | (Err e, n'') => (Err e, n'')
      end
  end.

Definition record (c : call) (n : net) : net := Net (server n) (calls n ++ [c]).

(** One operation of the collaborator: it raises the error the server is
    set to raise, and is recorded. *)
Definition operation {A} (failure : behaviour → option string) (c : bool → call)
    (a : A) : S A := λ n,
  match failure (server n) with
  | Some msg => (Err (Error LibraryError msg), record (c false) n)
  | None => (Ok a, record (c true) n)
  end.

(** [smtplib.SMTP(host, port)] *)
Definition SMTP (host : string) (port : Z) : S connection :=
  operation connect_error (Connect host port false) (Connection host port false).

(** [smtplib.SMTP_SSL(host, port, context=ssl.create_default_context())] *)
Definition SMTP_SSL (host : string) (port : Z) : S connection :=
  operation connect_error (Connect host port true) (Connection host port true).

Definition login (c : connection) (username password : string) : S unit :=
  operation login_error (Login username password) ().

Definition sendmail (c : connection) (from_addr to_addr : string) (msg : message) : S unit :=
  operation sendmail_error (Sendmail from_addr to_addr msg) ().

Definition quit (c : connection) : S unit :=
  operation quit_error Quit ().

(** Building the parts and [msg.as_string()]: no call to the server. *)
Definition as_string (msg : message) : S unit := λ n,
  match mime_error (server n) msg with
  | Some e => (Err (Error LibraryError e), n)
  | None => (Ok (), n)
  end.

End Smtp.

(** Truth value of an [Optional[str]]: [None] and the empty string are
    false. *)
Definition truthy (s : option string) : bool :=
  match s with
  | None | Some "" => false
  | Some _ => true
  end.

Declare Scope smtp_scope.
Delimit Scope smtp_scope with smtp.
Notation "x <- m ;; k" := (Smtp.bind m (λ x, k))
  (at level 100, m at next level, right associativity) : smtp_scope.
Notation "m ;;; k" := (Smtp.bind m (λ _, k))
  (at level 100, right associativity) : smtp_scope.

Module EmailHelper.

Definition setup_smtp (smtp_server : string) (port : Z)
    (username password : option string) (use_tls : bool) : Smtp.S Smtp.connection :=
  Smtp.try_except
    (if use_tls then
       (server <- Smtp.SMTP_SSL smtp_server port ;;
        Smtp.ret server)%smtp
     else
       (server <- Smtp.SMTP smtp_server port ;;
        (if truthy username && truthy password then
           Smtp.login server (default "" username) (default "" password)
         else Smtp.ret ()) ;;;
        Smtp.ret server)%smtp)
    (λ e, Smtp.raise (Smtp.Error Smtp.PlainException
                        ("Failed to setup SMTP connection: " +:+ Smtp.err_str e))).

(** The message [send_email] builds: a [multipart/alternative] with the
    plain body, then the HTML body when one is given. *)
Definition build_message (from_addr to_addr subject body : string)
    (html_body : option string) : Smtp.message :=
  Smtp.Message subject from_addr to_addr
    (("plain", body)
     :: (if truthy html_body then [("html", default "" html_body)] else [])).

Definition send_email (server : Smtp.connection)
    (from_addr to_addr subject body : string) (html_body : option string)
    : Smtp.S bool :=
  Smtp.try_except
    (let msg := build_message from_addr to_addr subject body html_body in
     (Smtp.as_string msg ;;;
      Smtp.sendmail server from_addr to_addr msg ;;;
      Smtp.ret true)%smtp)
    (λ e, Smtp.raise (Smtp.Error Smtp.PlainException
                        ("Failed to send email: " +:+ Smtp.err_str e))).

End EmailHelper.

(** [server] is [None] until [setup_smtp] has returned: when it raises,
    the [finally] clause has nothing to quit. *)
Definition send_quick_email (smtp_server from_addr to_addr subject body : string)
    (port : Z) (username password : option string) (use_tls : bool)
    (html_body : option string) : Smtp.S bool :=
  (server <- EmailHelper.setup_smtp smtp_server port username password use_tls ;;
   Smtp.try_finally
     (result <- EmailHelper.send_email server from_addr to_addr subject body html_body ;;
      Smtp.ret result)
     (Smtp.quit server))%smtp.

(** The calls of one kind among the recorded ones. *)
Definition logins (l : list Smtp.call) : list (string * string) :=
  omap (λ c, match c with Smtp.Login u p _ => Some (u, p) | _ => None end) l.

Definition sent (l : list Smtp.call) : list (Smtp.message * bool) :=
  omap (λ c, match c with Smtp.Sendmail _ _ m ok => Some (m, ok) | _ => None end) l.

Definition quits (l : list Smtp.call) : list bool :=
  omap (λ c, match c with Smtp.Quit ok => Some ok | _ => None end) l.

Definition connects (l : list Smtp.call) : list bool :=
  omap (λ c, match c with Smtp.Connect _ _ _ ok => Some ok | _ => None end) l.

(** A server on which everything works, with an [email] package that
    accepts every message. *)
Definition sound_server : Smtp.behaviour :=
  Smtp.Behaviour None None None None (λ _, None).

(** A subject of two lines. *)
Definition two_lines : string := "Hi" +:+ String (Ascii.ascii_of_nat 10) "there".

(** An [email] package that refuses that subject, as Python 3.11 does,
    and accepts the messages without it. *)
Definition strict_mime (msg : Smtp.message) : option string :=
  if bool_decide (Smtp.m_subject msg = two_lines)
  then Some "folded header contains newline: 'Subject: Hi\nthere\n'"
  else None.

(** * py_utils.logger: configuring a logger

    The collaborators are the [logging] library (a registry of loggers by
    name, each with a level and a list of handler objects), [os.path],
    the file system and the clock.  A handler object has an identity;
    [removeHandler] and the membership test of [addHandler] go by it. *)

Module OsPath.

Definition is_slash (c : Ascii.ascii) : bool := bool_decide (String c "" = "/").

(** [s.startswith('/')] *)
Definition starts_with_slash (s : string) : bool :=
  match s with
  | EmptyString => false
  | String c _ => is_slash c
  end.

(** [s.endswith('/')] *)
Fixpoint ends_with_slash (s : string) : bool :=
  match s with
  | EmptyString => false
  | String c s' =>
      match s' with
      | EmptyString => is_slash c
      | String _ _ => ends_with_slash s'
      end
  end.

(** One step of [posixpath.join]: an absolute component starts over,
    otherwise it is appended, with a separator unless the path so far is
    empty or ends in one. *)
Definition join2 (path b : string) : string :=
  if starts_with_slash b then b
  else if bool_decide (path = "") || ends_with_slash path then path +:+ b
  else path +:+ "/" +:+ b.

(** [os.path.join(a, b, c)] *)
Definition join (a b c : string) : string := join2 (join2 a b) c.

(** [p[:p.rfind('/') + 1]] *)
Fixpoint head_upto_slash (p : string) : string :=
  match p with
  | EmptyString => ""
  | String c p' =>
      match head_upto_slash p' with
      | EmptyString => if is_slash c then "/" else ""
      | h => String c h
      end
  end.

Fixpoint all_slashes (s : string) : bool :=
  match s with
  | EmptyString => true
  | String c s' => is_slash c && all_slashes s'
  end.

(** [s.rstrip('/')] *)
Fixpoint rstrip_slashes (s : string) : string :=
  match s with
  | EmptyString => ""
  | String c s' =>
      match rstrip_slashes s' with
      | EmptyString => if is_slash c then "" else String c ""
      | r => String c r
      end
  end.

(** [posixpath.dirname] *)
Definition dirname (p : string) : string :=
  let head := head_upto_slash p in
  if negb (bool_decide (head = "")) && negb (all_slashes head)
  then rstrip_slashes head
  else head.

End OsPath.

Module Logging.

Record handler := Handler {
  h_id : nat;                    (* the identity of the object *)
  h_stream : option string;      (* [None]: standard error; [Some f]: the file [f] *)
  h_formatter : option string    (* the format string of its formatter *)
}.

Record logger_state := LoggerState {
  l_level : Z;
  l_handlers : list handler
}.

Inductive error :=
| ValueError (fmt : string)     (* the format string that was refused *)
| OSError (path : string).

(** The library and its environment.  [accepts_format] tells which format
    strings [logging.Formatter] accepts, [denied] which paths the
    operating system refuses to create or open. *)
Record sys := Sys {
  registry : gmap string logger_state;
  next_id : nat;
  present : string → bool;
  denied : string → bool;
  accepts_format : string → bool;
  cwd : string;
  stamp : string     (* what [datetime.now().strftime("%Y%m%d")] gives *)
}.

Inductive outcome (A : Type) :=
| Done (a : A)
| Raised (e : error).
Arguments Done {A} a.
Arguments Raised {A} e.

Definition L (A : Type) : Type := sys → outcome A * sys.

Definition ret {A} (a : A) : L A := λ s, (Done a, s).

Definition bind {A B} (m : L A) (k : A → L B) : L B := λ s,
  match m s with
  | (Done a, s') => k a s'
  | (Raised e, s') => (Raised e, s')
  end.

Definition raise {A} (e : error) : L A := λ s, (Raised e, s).

Definition with_registry (f : gmap string logger_state → gmap string logger_state)
    (s : sys) : sys :=
  Sys (f (registry s)) (next_id s) (present s) (denied s) (accepts_format s)
      (cwd s) (stamp s).

Definition with_present (p : string) (s : sys) : sys :=
  Sys (registry s) (next_id s) (λ q, bool_decide (q = p) || present s q)
      (denied s) (accepts_format s) (cwd s) (stamp s).

(** The name under which a logger is registered: the empty name denotes
    the root logger. *)
Definition key (name : string) : string :=
  if bool_decide (name = "") then "root" else name.

(** A logger not yet in the registry is created without handlers, at
    level [NOTSET] ([WARNING] for the root logger). *)
Definition fresh_logger (k : string) : logger_state :=
  LoggerState (if bool_decide (k = "root") then 30 else 0) [].

(** [logging.getLogger(name)]; the logger is returned by reference, here
    by its key. *)
Definition getLogger (name : string) : L string := λ s,
  let k := key name in
  (Done k,
   match registry s !! k with
   | Some _ => s
   | None => with_registry (insert k (fresh_logger k)) s
   end).

(** [logger.setLevel(level)] *)
Definition setLevel (k : string) (level : Z) : L unit := λ s,
  (Done (),
   with_registry (alter (λ l, LoggerState level (l_handlers l)) k) s).

(** [logger.handlers[:]] *)
Definition handlers_copy (k : string) : L (list handler) := λ s,
  (Done (default [] (l_handlers <$> registry s !! k)), s).

Fixpoint remove_first (i : nat) (l : list handler) : list handler :=
  match l with
  | [] => []
  | h :: l' => if decide (h_id h = i) then l' else h :: remove_first i l'
  end.

(** [logger.removeHandler(hdlr)] *)
Definition removeHandler (k : string) (hdlr : handler) : L unit := λ s,
  (Done (),
   with_registry
     (alter (λ l, LoggerState (l_level l) (remove_first (h_id hdlr) (l_handlers l))) k) s).

(** [logger.addHandler(hdlr)]: appended unless that object is there. *)
Definition addHandler (k : string) (hdlr : handler) : L unit := λ s,
  (Done (),
   with_registry
     (alter (λ l, if bool_decide (h_id hdlr ∈ h_id <$> l_handlers l)
                  then l
                  else LoggerState (l_level l) (l_handlers l ++ [hdlr])) k) s).

(** [logging.Formatter(fmt)]: the format string is validated. *)
Definition Formatter (fmt : string) : L string := λ s,
  if accepts_format s fmt then (Done fmt, s)
  else (Raised (ValueError fmt), s).

Definition new_handler (stream : option string) (s : sys) : handler * sys :=
  (Handler (next_id s) stream None,
   Sys (registry s) (Datatypes.S (next_id s)) (present s) (denied s) (accepts_format s)
       (cwd s) (stamp s)).

(** [logging.StreamHandler()]: a new handler on standard error. *)
Definition StreamHandler : L handler := λ s,
  let (h, s') := new_handler None s in (Done h, s').

(** [logging.FileHandler(filename)]: the file is opened, and created if
    it is not there. *)
Definition FileHandler (filename : string) : L handler := λ s,
  if denied s filename then (Raised (OSError filename), s)
  else let (h, s') := new_handler (Some filename) (with_present filename s) in
       (Done h, s').

(** [handler.setFormatter(formatter)]; the handler is not yet shared. *)
Definition setFormatter (h : handler) (formatter : string) : handler :=
  Handler (h_id h) (h_stream h) (Some formatter).

(** [os.path.exists] *)
Definition path_exists (p : string) : L bool := λ s, (Done (present s p), s).

(** [os.makedirs] *)
Definition makedirs (p : string) : L unit := λ s,
  if denied s p then (Raised (OSError p), s)
  else (Done (), with_present p s).

(** [os.getcwd()] *)
Definition getcwd : L string := λ s, (Done (cwd s), s).

(** [datetime.now().strftime("%Y%m%d")] *)
Definition today : L string := λ s, (Done (stamp s), s).

End Logging.

Declare Scope logging_scope.
Delimit Scope logging_scope with logging.
Notation "x <- m ;; k" := (Logging.bind m (λ x, k))
  (at level 100, m at next level, right associativity) : logging_scope.
Notation "m ;;; k" := (Logging.bind m (λ _, k))
  (at level 100, right associativity) : logging_scope.

(** [logging.INFO] *)
Definition INFO : Z := 20.

Definition default_format : string :=
  "%(asctime)s - %(name)s - %(levelname)s - %(filename)s:%(lineno)d - %(message)s".

Module Logger.

(** [for handler in handlers: logger.removeHandler(handler)] *)
Fixpoint remove_each (logger : string) (handlers : list Logging.handler)
    : Logging.L unit :=
  match handlers with
  | [] => Logging.ret ()
  | handler :: rest =>
      (Logging.removeHandler logger handler ;;;
       remove_each logger rest)%logging
  end.

Definition setup_logger (name : string) (level : Z) (log_file : option string)
    (format_string : string) : Logging.L string :=
  (logger <- Logging.getLogger name ;;
   Logging.setLevel logger level ;;;
   handlers <- Logging.handlers_copy logger ;;
   remove_each logger handlers ;;;
   formatter <- Logging.Formatter format_string ;;
   console_handler <- Logging.StreamHandler ;;
   let console_handler := Logging.setFormatter console_handler formatter in
   Logging.addHandler logger console_handler ;;;
   (if truthy log_file then
      let log_file := default "" log_file in
      let log_dir := OsPath.dirname log_file in
      there <- Logging.path_exists log_dir ;;
      (if negb (bool_decide (log_dir = "")) && negb there
       then Logging.makedirs log_dir
       else Logging.ret ()) ;;;
      file_handler <- Logging.FileHandler log_file ;;
      let file_handler := Logging.setFormatter file_handler formatter in
      Logging.addHandler logger file_handler
    else Logging.ret ()) ;;;
   Logging.ret logger)%logging.

Definition get_default_log_file (base_dir : option string) : Logging.L string :=
  (base_dir <- match base_dir with
               | None => Logging.getcwd
               | Some b => Logging.ret b
               end ;;
   timestamp <- Logging.today ;;
   Logging.ret (OsPath.join base_dir "logs" ("app_" +:+ timestamp +:+ ".log")))%logging.

End Logger.

(** [setup_logger] is called with [name] and [log_file] only: the level is
    [logging.INFO] and the format the default one. *)
Definition get_logger (name : string) (log_file : option string) : Logging.L string :=
  (log_file <- match log_file with
               | None => Logger.get_default_log_file None
               | Some f => Logging.ret f
               end ;;
   Logger.setup_logger name INFO (Some log_file) default_format)%logging.

(** What is left of [acc] when the handlers [hs] have been removed from it
    one after the other. *)
Definition strip (hs acc : list Logging.handler) : list Logging.handler :=
  foldl (λ acc h, Logging.remove_first (Logging.h_id h) acc) acc hs.

(** What a handler is, apart from its identity. *)
Definition handler_shape (h : Logging.handler) : option string * option string :=
  (Logging.h_stream h, Logging.h_formatter h).

(** The handlers of the logger registered under [k], without their
    identities; [None] when there is no such logger. *)
Definition handler_shapes (k : string) (s : Logging.sys)
    : option (list (option string * option string)) :=
  (λ l, handler_shape <$> Logging.l_handlers l) <$> Logging.registry s !! k.

Definition level_of (k : string) (s : Logging.sys) : option Z :=
  Logging.l_level <$> Logging.registry s !! k.

(** The handlers [setup_logger] installs: the console handler, then the
    file handler when a log file is given. *)
Definition installed (log_file : option string) (format_string : string)
    : list (option string * option string) :=
  (None, Some format_string)
  :: (if truthy log_file then [(log_file, Some format_string)] else []).

(** A system with one logger that already has two handlers. *)
Definition demo_sys : Logging.sys :=
  Logging.Sys
    {[ "app" := Logging.LoggerState 10
                  [Logging.Handler 0 None (Some "%(message)s");
                   Logging.Handler 1 (Some "old.log") (Some "%(message)s")];
       "other" := Logging.LoggerState 40 [Logging.Handler 2 None None] ]}
    3
    (λ p, bool_decide (p = "old.log"))
    (λ p, bool_decide (p = "/root/secret"))
    (λ f, bool_decide (f ≠ "plain"))
    "/srv/app" "20240131".

(** Whether a string contains the path separator. *)
Fixpoint has_slash (s : string) : bool :=
  match s with
  | EmptyString => false
  | String c s' => OsPath.is_slash c || has_slash s'
  end.

(** The name [get_default_log_file] gives the file of the day. *)
Definition default_name (s : Logging.sys) : string :=
  "app_" +:+ Logging.stamp s +:+ ".log".

Example demo_age :
  Housekeeper.housekeep_by_age d_data 1 false (demo_world (250 + us_per_day) []) =
  (Return 1,
   World [ Node ["data"] Directory 0 false;
           Node ["data"; "sub"] Directory 0 false;
           Node ["data"; "sub"; "b.log"] RegularFile 200 true;
           Node ["data"; "c.log"] RegularFile 300 false ]
         (250 + us_per_day) utc []
         [ Exists ["data"] true; Now (250 + us_per_day); Rglob ["data"];
           Remove ["data"; "a.log"] true;
           Remove ["data"; "sub"; "b.log"] false;
           Print "Error deleting /data/sub/b.log: [Errno 13] Permission denied: '/data/sub/b.log'" ]).
Proof. vm_compute. reflexivity. Qed.

(** ** Basic facts about the world *)


Lemma find_node_None p l : find_node p l = None ↔ p ∉ n_path <$> l.
Proof.
  induction l as [|m l IH]; simpl.
  - split; [intros _; apply not_elem_of_nil | done].
  - destruct (decide (n_path m = p)) as [E|E].
    + split; [discriminate|]. intros H. exfalso. apply H. rewrite E. left.
    + rewrite IH, not_elem_of_cons.
      split; [intros ?; split; [congruence | done] | by intros [_ ?]].
Qed.

Lemma find_node_unlink_ne p q l :
  p ≠ q → find_node q (OS.unlink p l) = find_node q l.
Proof.
  intros Hpq. unfold OS.unlink.
  induction l as [|m l IH]; [done|].
  rewrite filter_cons. simpl.
  destruct (decide (n_path m ≠ p)) as [E|E]; simpl.
  - destruct (decide (n_path m = q)); [done | apply IH].
  - destruct (decide (n_path m = q)) as [E'|E']; [|apply IH].
    destruct E. congruence.
Qed.

Lemma find_node_unlink_eq p l : find_node p (OS.unlink p l) = None.
Proof.
  apply find_node_None. unfold OS.unlink.
  rewrite list_elem_of_fmap. intros (n & -> & Hn).
  apply list_elem_of_filter in Hn as [Hn _]. by apply Hn.
Qed.

Lemma removes_app l1 l2 : removes (l1 ++ l2) = removes l1 ++ removes l2.
Proof. apply omap_app. Qed.

Lemma prompts_app l1 l2 : prompts (l1 ++ l2) = prompts l1 ++ prompts l2.
Proof. apply omap_app. Qed.

Lemma enumerations_app l1 l2 :
  enumerations (l1 ++ l2) = enumerations l1 ++ enumerations l2.
Proof. apply omap_app. Qed.

Lemma successes_cons p ok l :
  successes ((p, ok) :: l) = (if ok then 1 else 0) + successes l.
Proof.
  unfold successes, Py.len. rewrite filter_cons.
  destruct (decide ((p, ok).2 = true)) as [E|E]; simpl in E.
  - subst ok. rewrite length_cons. lia.
  - destruct ok; [done | lia].
Qed.

(** ** Sorting *)

Section SortFacts.
Context {A : Type} (key : A → Z).

Lemma insert_desc_perm x l : Py.insert_desc key x l ≡ₚ x :: l.
Proof.
  induction l as [|y l IH]; simpl; [done|].
  destruct (key y <=? key x); [done|].
  rewrite IH. apply Permutation_swap.
Qed.

Lemma sort_desc_perm l : Py.sort_desc key l ≡ₚ l.
Proof.
  induction l as [|x l IH]; simpl; [done|].
  by rewrite insert_desc_perm, IH.
Qed.

Lemma len_sort_desc l : Py.len (Py.sort_desc key l) = Py.len l.
Proof. unfold Py.len. by rewrite sort_desc_perm. Qed.

Lemma insert_desc_sorted x l :
  StronglySorted (newer_first key) l →
  StronglySorted (newer_first key) (Py.insert_desc key x l).
Proof.
  induction 1 as [|y l Hs IH Hy]; simpl.
  - repeat constructor.
  - destruct (Z.leb_spec (key y) (key x)) as [Hle|Hgt].
    + constructor; [by constructor|].
      constructor; [exact Hle|].
      eapply Forall_impl; [exact Hy|]. unfold newer_first. intros; lia.
    + constructor; [exact IH|].
      rewrite insert_desc_perm. constructor; [unfold newer_first; lia | exact Hy].
Qed.

Lemma sort_desc_sorted l : StronglySorted (newer_first key) (Py.sort_desc key l).
Proof.
  induction l as [|x l IH]; simpl; [constructor|].
  by apply insert_desc_sorted.
Qed.

(** A list already in descending order is left as it is. *)
Lemma sort_desc_id l :
  Sorted (newer_first key) l → Py.sort_desc key l = l.
Proof.
  induction 1 as [|x l Hs IH Hx]; simpl; [done|].
  rewrite IH. destruct Hx as [|y l Hxy]; simpl; [done|].
  unfold newer_first in Hxy. by destruct (Z.leb_spec (key y) (key x)); [|lia].
Qed.
End SortFacts.

(** ** The deletion loop *)

(** The loop never raises: it calls [os.remove] once on every file, in
    order, and returns the number of calls that succeeded. *)
Lemma delete_loop_spec files : ∀ c w,
  ∃ evs,
    Housekeeper.delete_loop files c w =
      (Return (c + successes (removes evs)),
       World (foldl apply_remove (fs w) (removes evs))
             (clock w) (timestamp w) (stdin w) (log w ++ evs))
    ∧ (removes evs).*1 = files
    ∧ prompts evs = [] ∧ enumerations evs = []
    ∧ (length (printed evs) + length (filter (λ pr, pr.2 = true) (removes evs))
       = length files)%nat.
Proof.
  induction files as [|p rest IH]; intros c w.
  - exists []. simpl. unfold ret. rewrite app_nil_r, Z.add_0_r.
    destruct w; done.
  - simpl. unfold bind at 1. unfold try_except, bind at 1, OS.remove.
    destruct (find_node p (fs w)) as [[np [] mt []]|] eqn:Hf; simpl.
    all: unfold OS.print, ret, bind, emit; simpl.
    all: match goal with
         | |- context [Housekeeper.delete_loop _ ?c' ?w'] =>
             destruct (IH c' w') as (evs & Hrun & Hp & Hpr & Hen & Hlen)
         end; simpl in Hrun; rewrite Hrun; clear Hrun.
    2: eexists (Remove _ true :: evs).
    1,3,4,5: eexists (Remove _ false :: Print _ :: evs).
    all: simpl; rewrite successes_cons, <- ?app_assoc; simpl.
    all: rewrite ?filter_cons; simpl.
    all: repeat split; try done; try (f_equal; done); try (f_equal; f_equal; lia).
Qed.

Lemma print_each_spec lines : ∀ w,
  Housekeeper.print_each lines w =
    (Return (), World (fs w) (clock w) (timestamp w) (stdin w) (log w ++ (Print <$> lines))).
Proof.
  induction lines as [|l lines IH]; intros w; simpl.
  - unfold ret. rewrite app_nil_r. by destruct w.
  - unfold bind, OS.print. rewrite IH. simpl. by rewrite <- app_assoc.
Qed.

(** ** The paths through [housekeep_by_age] *)

Lemma match_nonempty {A B} (l : list A) (a b : B) :
  l ≠ [] → match l with [] => a | _ :: _ => b end = b.
Proof. by destruct l. Qed.

(** Running a sequence whose first action returns. *)
Lemma run_bind {A B} (m : M A) (k : A → M B) w a w' :
  m w = (Return a, w') → bind m k w = k a w'.
Proof. intros H. unfold bind. by rewrite H. Qed.

Lemma run_bind_raise {A B} (m : M A) (k : A → M B) w e w' :
  m w = (Raise e, w') → bind m k w = (Raise e, w').
Proof. intros H. unfold bind. by rewrite H. Qed.

Lemma run_exists_true d w :
  is_Some (find_node d (fs w)) →
  OS.path_exists d w = (Return true, emit (Exists d true) w).
Proof. intros H. unfold OS.path_exists. by rewrite bool_decide_true. Qed.

Lemma run_exists_false d w :
  find_node d (fs w) = None →
  OS.path_exists d w = (Return false, emit (Exists d false) w).
Proof.
  intros H. unfold OS.path_exists. rewrite H.
  by rewrite bool_decide_false by (by apply is_Some_None).
Qed.

Lemma fs_emit e w : fs (emit e w) = fs w.
Proof. reflexivity. Qed.
Lemma clock_emit e w : clock (emit e w) = clock w.
Proof. reflexivity. Qed.
Lemma stdin_emit e w : stdin (emit e w) = stdin w.
Proof. reflexivity. Qed.
Lemma timestamp_emit e w : timestamp (emit e w) = timestamp w.
Proof. reflexivity. Qed.

(** Membership in an explicit list. *)
Ltac in_list := solve [repeat first [left | right]].

Ltac run_step :=
  first
    [ erewrite run_bind by (apply run_exists_true; eassumption)
    | erewrite run_bind by (apply run_exists_false; eassumption)
    | erewrite run_bind by (apply print_each_spec)
    | erewrite run_bind by reflexivity ];
  cbn [negb]; rewrite ?fs_emit, ?clock_emit, ?stdin_emit, ?timestamp_emit.

Lemma by_age_missing d days c w :
  find_node d (fs w) = None →
  Housekeeper.housekeep_by_age d days c w =
    (Raise (Exn FileNotFoundError ("Directory " +:+ path_str d +:+ " does not exist")),
     emit (Exists d false) w).
Proof.
  intros Hd. unfold Housekeeper.housekeep_by_age. run_step. reflexivity.
Qed.

Lemma by_age_nothing d days c w :
  is_Some (find_node d (fs w)) →
  eligible_by_age d days w = [] →
  Housekeeper.housekeep_by_age d days c w =
    (Return 0,
     emit (Print ("No files older than " +:+ pretty days +:+ " days found."))
          (scanned_age d w)).
Proof.
  intros Hd He. unfold Housekeeper.housekeep_by_age. do 4 run_step.
  unfold eligible_by_age, cutoff in He. rewrite He. rewrite fmap_nil.
  run_step. reflexivity.
Qed.

Lemma by_age_unconfirmed d days w :
  is_Some (find_node d (fs w)) →
  eligible_by_age d days w ≠ [] →
  Housekeeper.housekeep_by_age d days false w =
    Housekeeper.delete_loop (n_path <$> eligible_by_age d days w) 0 (scanned_age d w).
Proof.
  intros Hd He. unfold Housekeeper.housekeep_by_age. do 4 run_step.
  fold (cutoff days w). fold (eligible_by_age d days w).
  rewrite match_nonempty; [done|]. intros E. by apply fmap_nil_inv in E.
Qed.

Lemma by_age_asks d days w :
  is_Some (find_node d (fs w)) →
  eligible_by_age d days w ≠ [] →
  Housekeeper.housekeep_by_age d days true w =
    answer (n_path <$> eligible_by_age d days w) (asking_age d days w).
Proof.
  intros Hd He. unfold Housekeeper.housekeep_by_age. do 4 run_step.
  fold (cutoff days w). fold (eligible_by_age d days w).
  rewrite match_nonempty by (intros E; by apply fmap_nil_inv in E).
  do 2 run_step. fold (answer (n_path <$> eligible_by_age d days w)).
  unfold asking_age, age_preview.
  destruct (5 <? Py.len _); run_step; f_equal;
    unfold emit; simpl; rewrite <- ?app_assoc, ?app_nil_r; reflexivity.
Qed.

(** What the confirmation step does, by the line waiting on standard
    input. *)
Lemma answer_spec files w :
  answer files w =
    match stdin w with
    | [] => (Raise (Exn EOFError "EOF when reading a line"),
             emit (Input "Proceed? (y/N): " None) w)
    | r :: rest =>
        let asked := emit (Input "Proceed? (y/N): " (Some r))
                          (World (fs w) (clock w) (timestamp w) rest (log w)) in
        if decide (Py.lower r = "y")
        then Housekeeper.delete_loop files 0 asked
        else (Return 0, emit (Print "Deletion cancelled.") asked)
    end.
Proof.
  unfold answer. destruct (stdin w) as [|r rest] eqn:Hin.
  - erewrite run_bind_raise; [reflexivity|].
    unfold OS.input. by rewrite Hin.
  - erewrite run_bind by (unfold OS.input; rewrite Hin; reflexivity).
    cbv zeta. destruct (decide (Py.lower r = "y")) as [E|E].
    + rewrite bool_decide_false by (intros ?; done). reflexivity.
    + rewrite bool_decide_true by done. run_step. reflexivity.
Qed.

(** ** The paths through [housekeep_by_count] *)

Lemma by_count_missing d k c w :
  find_node d (fs w) = None →
  Housekeeper.housekeep_by_count d k c w =
    (Raise (Exn FileNotFoundError ("Directory " +:+ path_str d +:+ " does not exist")),
     emit (Exists d false) w).
Proof.
  intros Hd. unfold Housekeeper.housekeep_by_count. run_step. reflexivity.
Qed.

Lemma by_count_nothing d k c w :
  is_Some (find_node d (fs w)) →
  Py.len (discovered d w) <= k →
  Housekeeper.housekeep_by_count d k c w =
    (Return 0,
     emit (Print ("Only " +:+ pretty (Py.len (discovered d w))
                  +:+ " files found, no deletion needed."))
          (scanned_count d w)).
Proof.
  intros Hd Hk. unfold Housekeeper.housekeep_by_count. do 2 run_step.
  fold (discovered d w).
  destruct (Z.leb_spec (Py.len (discovered d w)) k); [|lia].
  run_step. reflexivity.
Qed.

Lemma by_count_unconfirmed d k w :
  is_Some (find_node d (fs w)) →
  k < Py.len (discovered d w) →
  Housekeeper.housekeep_by_count d k false w =
    Housekeeper.delete_loop (eligible_by_count d k w).*1 0 (scanned_count d w).
Proof.
  intros Hd Hk. unfold Housekeeper.housekeep_by_count. do 2 run_step.
  fold (discovered d w).
  destruct (Z.leb_spec (Py.len (discovered d w)) k); [lia|].
  reflexivity.
Qed.

Lemma by_count_asks d k w :
  is_Some (find_node d (fs w)) →
  k < Py.len (discovered d w) →
  Housekeeper.housekeep_by_count d k true w =
    answer (eligible_by_count d k w).*1 (asking_count d k w).
Proof.
  intros Hd Hk. unfold Housekeeper.housekeep_by_count. do 2 run_step.
  fold (discovered d w).
  destruct (Z.leb_spec (Py.len (discovered d w)) k); [lia|].
  fold (eligible_by_count d k w). run_step. reflexivity.
Qed.

Lemma answer_asks files w :
  ∃ evs, log (answer files w).2
         = log w ++ Input "Proceed? (y/N): " (head (stdin w)) :: evs.
Proof.
  rewrite answer_spec. destruct (stdin w) as [|r rest]; simpl.
  - by exists [].
  - destruct (decide (Py.lower r = "y")).
    + edestruct (delete_loop_spec files 0) as (evs & -> & _).
      exists evs. simpl. by rewrite <- app_assoc.
    + exists [Print "Deletion cancelled."]. simpl. by rewrite <- app_assoc.
Qed.

Lemma answer_raises files w e :
  (answer files w).1 = Raise e → exn_cls e = EOFError.
Proof.
  rewrite answer_spec. destruct (stdin w) as [|r rest]; simpl.
  - by intros [= <-].
  - destruct (decide (Py.lower r = "y")); [|done].
    edestruct (delete_loop_spec files 0) as (evs & -> & _). done.
Qed.

Lemma entries_of_file d n l :
  find_node d l = Some n → n_kind n = RegularFile → OS.entries d l = [].
Proof.
  intros Hd Hk. unfold OS.entries. rewrite Hd.
  destruct n as [? [] ? ?]; done.
Qed.

Lemma removes_prints lines : removes (Print <$> lines) = [].
Proof. induction lines; simpl; done. Qed.

Lemma removes_age_preview days files : removes (age_preview days files) = [].
Proof.
  unfold age_preview. simpl. rewrite removes_app, removes_prints.
  by destruct (5 <? Py.len files).
Qed.



(** A refused confirmation: nothing is removed. *)
Lemma answer_refused files w r rest :
  stdin w = r :: rest → Py.lower r ≠ "y" → cancelled w (answer files w).
Proof.
  intros Hin Hr. rewrite answer_spec, Hin. cbv zeta.
  rewrite decide_False by done. unfold cancelled. simpl.
  split_and!; try done.
  - rewrite !removes_app. simpl. by rewrite !app_nil_r.
  - apply last_snoc.
Qed.

Lemma slice_from_nonempty {A} (k : Z) (l : list A) :
  Py.slice_from k l ≠ [] → k < Py.len l.
Proof.
  unfold Py.slice_from, Py.len. destruct (Z.leb_spec 0 k) as [Hk|Hk]; [|lia].
  intros H. destruct (Z.lt_ge_cases k (Z.of_nat (length l))) as [?|Hge]; [done|].
  destruct H. apply drop_ge. lia.
Qed.

(** ** The dispatcher *)

(** C9: called with neither [days_old] nor [keep_count], [cleanup_directory]
    prints the usage hint and returns 0; it raises nothing and makes no call
    to the file system, whether or not the directory exists: the only
    change to the world is the printed line. *)
Theorem cleanup_directory_no_policy (d : path) (w : world) :
  cleanup_directory d None None w =
    (Return 0, emit (Print "Specify days_old or keep_count") w)
  ∧ fs (cleanup_directory d None None w).2 = fs w
  ∧ log (cleanup_directory d None None w).2
    = log w ++ [Print "Specify days_old or keep_count"].
Proof. done. Qed.

(** C1, as the code has it: [cleanup_directory] passes only the directory
    and the number, so the delegate runs with its default [confirm = True].
    With [days_old] given (whatever [keep_count] is) the call is
    [housekeep_by_age directory days_old] with confirmation on; with only
    [keep_count] given it is [housekeep_by_count directory keep_count] with
    confirmation on; the delegate's outcome is returned unchanged.  In an
    existing directory with candidates, the question is therefore asked. *)
Theorem cleanup_directory_delegates (d : path) (w : world) :
  (∀ days keep,
     cleanup_directory d (Some days) keep w
     = Housekeeper.housekeep_by_age d days true w)
  ∧ (∀ keep,
       cleanup_directory d None (Some keep) w
       = Housekeeper.housekeep_by_count d keep true w)
  ∧ (∀ days keep,
       is_Some (find_node d (fs w)) →
       eligible_by_age d days w ≠ [] →
       Input "Proceed? (y/N): " (head (stdin w))
       ∈ log (cleanup_directory d (Some days) keep w).2)
  ∧ (∀ keep,
       is_Some (find_node d (fs w)) →
       keep < Py.len (discovered d w) →
       Input "Proceed? (y/N): " (head (stdin w))
       ∈ log (cleanup_directory d None (Some keep) w).2).
Proof.
  split_and!; try done.
  - intros days keep Hd He. simpl. rewrite by_age_asks by done.
    destruct (answer_asks (n_path <$> eligible_by_age d days w) (asking_age d days w))
      as (evs & ->).
    apply elem_of_app. right. left.
  - intros keep Hd He. simpl. rewrite by_count_asks by done.
    destruct (answer_asks (eligible_by_count d keep w).*1 (asking_count d keep w))
      as (evs & ->).
    apply elem_of_app. right. left.
Qed.

Lemma cleanup_directory_delegates_witness :
  is_Some (find_node d_data (fs (demo_world (250 + us_per_day) ["n"])))
  ∧ eligible_by_age d_data 1 (demo_world (250 + us_per_day) ["n"]) ≠ []
  ∧ Input "Proceed? (y/N): " (Some "n")
    ∈ log (cleanup_directory d_data (Some 1) (Some 2)
             (demo_world (250 + us_per_day) ["n"])).2.
Proof.
  assert (H1 : is_Some (find_node d_data (fs (demo_world (250 + us_per_day) ["n"]))))
    by (vm_compute; eauto).
  assert (H2 : eligible_by_age d_data 1 (demo_world (250 + us_per_day) ["n"]) ≠ [])
    by (vm_compute; discriminate).
  split_and!; [exact H1 | exact H2 |].
  exact (proj1 (proj2 (proj2
           (cleanup_directory_delegates d_data (demo_world (250 + us_per_day) ["n"]))))
           1 (Some 2) H1 H2).
Defined.

(** C1 as stated fails: with a candidate present and a "n" waiting on
    standard input, the dispatcher asks, is refused and deletes nothing,
    where a delegate run with [confirm = False] deletes without asking.
    The same holds on the count branch. *)
Lemma cleanup_directory_suppresses_counterexample :
  let w := demo_world (250 + us_per_day) ["n"] in
  (cleanup_directory d_data (Some 1) None w).1 = Return 0
  ∧ prompts (log (cleanup_directory d_data (Some 1) None w).2) = ["Proceed? (y/N): "]
  ∧ removes (log (cleanup_directory d_data (Some 1) None w).2) = []
  ∧ (Housekeeper.housekeep_by_age d_data 1 false w).1 = Return 1
  ∧ prompts (log (Housekeeper.housekeep_by_age d_data 1 false w).2) = []
  ∧ cleanup_directory d_data (Some 1) None w
    ≠ Housekeeper.housekeep_by_age d_data 1 false w
  ∧ (cleanup_directory d_data None (Some 1) w).1 = Return 0
  ∧ prompts (log (cleanup_directory d_data None (Some 1) w).2) = ["Proceed? (y/N): "]
  ∧ (Housekeeper.housekeep_by_count d_data 1 false w).1 = Return 1
  ∧ cleanup_directory d_data None (Some 1) w
    ≠ Housekeeper.housekeep_by_count d_data 1 false w.
Proof.
  cbv zeta. split_and!; try (vm_compute; reflexivity).
  - intros H. apply (f_equal fst) in H. vm_compute in H. discriminate.
  - intros H. apply (f_equal fst) in H. vm_compute in H. discriminate.
Qed.

(** ** Precondition: the directory must exist *)

(** C3: when the directory does not exist, both methods raise
    [FileNotFoundError]; the existence check is the only call made (no
    enumeration, no [os.remove]) and the file system is unchanged. *)
Theorem missing_directory_raises (d : path) (days keep : Z) (confirm : bool) (w : world) :
  find_node d (fs w) = None →
  fails_untouched d w (Housekeeper.housekeep_by_age d days confirm w)
  ∧ fails_untouched d w (Housekeeper.housekeep_by_count d keep confirm w)
  ∧ enumerations (log (Housekeeper.housekeep_by_age d days confirm w).2)
    = enumerations (log w)
  ∧ removes (log (Housekeeper.housekeep_by_age d days confirm w).2)
    = removes (log w)
  ∧ enumerations (log (Housekeeper.housekeep_by_count d keep confirm w).2)
    = enumerations (log w)
  ∧ removes (log (Housekeeper.housekeep_by_count d keep confirm w).2)
    = removes (log w).
Proof.
  intros Hd. rewrite by_age_missing, by_count_missing by done.
  split_and!; try (eexists; split_and!; done).
  all: simpl; rewrite ?enumerations_app, ?removes_app; simpl; by rewrite app_nil_r.
Qed.

Lemma missing_directory_raises_witness :
  find_node ["nowhere"] (fs (demo_world 0 [])) = None
  ∧ fails_untouched ["nowhere"] (demo_world 0 [])
      (Housekeeper.housekeep_by_age ["nowhere"] 7 true (demo_world 0 []))
  ∧ fails_untouched ["nowhere"] (demo_world 0 [])
      (Housekeeper.housekeep_by_count ["nowhere"] 5 true (demo_world 0 [])).
Proof.
  assert (H : find_node ["nowhere"] (fs (demo_world 0 [])) = None) by reflexivity.
  pose proof (missing_directory_raises ["nowhere"] 7 5 true (demo_world 0 []) H)
    as (Ha & Hc & _).
  split_and!; [exact H | exact Ha | exact Hc].
Defined.

(** C10: the precondition tests existence only.  When the path resolves to
    a regular file, neither method raises [FileNotFoundError]: both go on to
    the enumeration, which yields nothing; [housekeep_by_age] then returns
    0, and so does [housekeep_by_count] for a non-negative [keep_count]. *)
Theorem regular_file_passes_check (d : path) (n : node) (days keep : Z)
    (confirm : bool) (w : world) :
  find_node d (fs w) = Some n →
  n_kind n = RegularFile →
  passes_check d w (Housekeeper.housekeep_by_age d days confirm w)
  ∧ passes_check d w (Housekeeper.housekeep_by_count d keep confirm w)
  ∧ (Housekeeper.housekeep_by_age d days confirm w).1 = Return 0
  ∧ (0 <= keep → (Housekeeper.housekeep_by_count d keep confirm w).1 = Return 0).
Proof.
  intros Hd Hk.
  assert (Hs : is_Some (find_node d (fs w))) by (by rewrite Hd).
  assert (He : OS.entries d (fs w) = []) by eauto using entries_of_file.
  assert (Ha : eligible_by_age d days w = []).
  { unfold eligible_by_age. by rewrite He. }
  assert (Hf : discovered d w = []).
  { unfold discovered. by rewrite He. }
  assert (Hc : 0 <= keep →
               Housekeeper.housekeep_by_count d keep confirm w =
               (Return 0,
                emit (Print ("Only " +:+ pretty (Py.len (discovered d w))
                             +:+ " files found, no deletion needed."))
                     (scanned_count d w))).
  { intros Hk0. apply by_count_nothing; [done|]. rewrite Hf. exact Hk0. }
  rewrite (by_age_nothing d days confirm w Hs Ha).
  split_and!; try done.
  - split; [done|]. eexists [Now _; Rglob d; Print _]. split.
    + simpl. by rewrite <- !app_assoc.
    + in_list.
  - destruct (Z.le_gt_cases 0 keep) as [Hk0|Hk0].
    { rewrite (Hc Hk0). split; [done|]. eexists [Rglob d; Print _]. split.
      + simpl. by rewrite <- !app_assoc.
      + in_list. }
    assert (Hlt : keep < Py.len (discovered d w)) by (rewrite Hf; simpl; unfold Py.len; simpl; lia).
    destruct confirm.
    + rewrite by_count_asks by done. split.
      * intros e He'. apply answer_raises in He'. by rewrite He'.
      * destruct (answer_asks (eligible_by_count d keep w).*1 (asking_count d keep w))
          as (evs & ->).
        eexists (Rglob d :: Print _ :: Input _ _ :: evs). split.
        -- simpl. by rewrite <- !app_assoc.
        -- in_list.
    + rewrite by_count_unconfirmed by done.
      edestruct (delete_loop_spec (eligible_by_count d keep w).*1 0) as (evs & -> & _).
      split; [done|]. exists (Rglob d :: evs). split.
      * simpl. by rewrite <- !app_assoc.
      * in_list.
  - intros Hk0. by rewrite (Hc Hk0).
Qed.

Lemma regular_file_passes_check_witness :
  find_node ["data"; "a.log"] (fs (demo_world 0 []))
  = Some (Node ["data"; "a.log"] RegularFile 100 false)
  ∧ passes_check ["data"; "a.log"] (demo_world 0 [])
      (Housekeeper.housekeep_by_age ["data"; "a.log"] 7 true (demo_world 0 []))
  ∧ passes_check ["data"; "a.log"] (demo_world 0 [])
      (Housekeeper.housekeep_by_count ["data"; "a.log"] 5 true (demo_world 0 [])).
Proof.
  assert (H : find_node ["data"; "a.log"] (fs (demo_world 0 []))
              = Some (Node ["data"; "a.log"] RegularFile 100 false)) by reflexivity.
  pose proof (regular_file_passes_check ["data"; "a.log"] _ 7 5 true
                (demo_world 0 []) H eq_refl) as (Ha & Hc & _).
  split_and!; [exact H | exact Ha | exact Hc].
Defined.

(** ** Confirmation *)

(** C4: with [confirm = True], candidates present and a waiting answer
    whose lower-case form is not "y", both methods return 0, end on the
    message "Deletion cancelled.", never call [os.remove] and leave the file
    system as it was. *)
Theorem refusal_cancels (d : path) (days keep : Z) (w : world) (r : string)
    (rest : list string) :
  is_Some (find_node d (fs w)) →
  stdin w = r :: rest →
  Py.lower r ≠ "y" →
  (eligible_by_age d days w ≠ [] →
   cancelled w (Housekeeper.housekeep_by_age d days true w))
  ∧ (eligible_by_count d keep w ≠ [] →
     cancelled w (Housekeeper.housekeep_by_count d keep true w)).
Proof.
  intros Hd Hin Hr. split; intros He.
  - rewrite by_age_asks by done.
    destruct (answer_refused (n_path <$> eligible_by_age d days w)
                (asking_age d days w) r rest Hin Hr) as (H1 & H2 & H3 & H4).
    split_and!; try done.
    rewrite H3. simpl. rewrite !removes_app, removes_age_preview. simpl.
    by rewrite !app_nil_r.
  - pose proof He as Hlt. unfold eligible_by_count in Hlt.
    apply slice_from_nonempty in Hlt.
    unfold eligible_by_count in Hlt. rewrite len_sort_desc in Hlt.
    rewrite by_count_asks by done.
    destruct (answer_refused (eligible_by_count d keep w).*1
                (asking_count d keep w) r rest Hin Hr) as (H1 & H2 & H3 & H4).
    split_and!; try done.
    rewrite H3. simpl. rewrite !removes_app. simpl. by rewrite !app_nil_r.
Qed.

Lemma refusal_cancels_witness :
  let w := demo_world (250 + us_per_day) ["no"] in
  (is_Some (find_node d_data (fs w)) ∧ stdin w = ["no"] ∧ Py.lower "no" ≠ "y"
   ∧ eligible_by_age d_data 1 w ≠ [] ∧ eligible_by_count d_data 1 w ≠ [])
  ∧ cancelled w (Housekeeper.housekeep_by_age d_data 1 true w)
  ∧ cancelled w (Housekeeper.housekeep_by_count d_data 1 true w).
Proof.
  cbv zeta.
  assert (H1 : is_Some (find_node d_data (fs (demo_world (250 + us_per_day) ["no"]))))
    by (vm_compute; eauto).
  assert (H2 : Py.lower "no" ≠ "y") by (vm_compute; discriminate).
  assert (H3 : eligible_by_age d_data 1 (demo_world (250 + us_per_day) ["no"]) ≠ [])
    by (vm_compute; discriminate).
  assert (H4 : eligible_by_count d_data 1 (demo_world (250 + us_per_day) ["no"]) ≠ [])
    by (vm_compute; discriminate).
  pose proof (refusal_cancels d_data 1 1 (demo_world (250 + us_per_day) ["no"])
                "no" [] H1 eq_refl H2) as [Ha Hc].
  split_and!; [exact H1 | reflexivity | exact H2 | exact H3 | exact H4
              | exact (Ha H3) | exact (Hc H4)].
Defined.

(** The answers named in the specification, and two more that are not a
    yes either. *)
Example not_affirmative :
  Forall (λ r, Py.lower r ≠ "y") ["n"; ""; "no"; "N"; "yes"; " y"]
  ∧ Forall (λ r, Py.lower r = "y") ["y"; "Y"].
Proof. split; repeat constructor; vm_compute; congruence. Qed.

(** ** Nothing to do *)

(** C6: in an existing directory, when no file is older than the cutoff
    ([housekeep_by_age]) or the files found number at most [keep_count]
    ([housekeep_by_count]), the method returns 0 whatever [confirm] is: it
    reads nothing from standard input, asks no question, calls [os.remove]
    not once and leaves the file system as it was. *)
Theorem nothing_to_delete (d : path) (days keep : Z) (confirm : bool) (w : world) :
  is_Some (find_node d (fs w)) →
  (eligible_by_age d days w = [] →
   quiet w (Housekeeper.housekeep_by_age d days confirm w))
  ∧ (Py.len (discovered d w) <= keep →
     quiet w (Housekeeper.housekeep_by_count d keep confirm w)).
Proof.
  intros Hd. split; intros He.
  - rewrite by_age_nothing by done. unfold quiet. simpl.
    rewrite !prompts_app, !removes_app. simpl. by rewrite !app_nil_r.
  - rewrite by_count_nothing by done. unfold quiet. simpl.
    rewrite !prompts_app, !removes_app. simpl. by rewrite !app_nil_r.
Qed.

Lemma nothing_to_delete_witness :
  let w := demo_world 250 ["y"] in
  (is_Some (find_node d_data (fs w)) ∧ eligible_by_age d_data 1 w = []
   ∧ Py.len (discovered d_data w) <= 3)
  ∧ quiet w (Housekeeper.housekeep_by_age d_data 1 true w)
  ∧ quiet w (Housekeeper.housekeep_by_count d_data 3 true w).
Proof.
  cbv zeta.
  assert (H1 : is_Some (find_node d_data (fs (demo_world 250 ["y"]))))
    by (vm_compute; eauto).
  assert (H2 : eligible_by_age d_data 1 (demo_world 250 ["y"]) = []) by reflexivity.
  assert (H3 : Py.len (discovered d_data (demo_world 250 ["y"])) <= 3)
    by (vm_compute; discriminate).
  pose proof (nothing_to_delete d_data 1 3 true (demo_world 250 ["y"]) H1) as [Ha Hc].
  split_and!; [exact H1 | exact H2 | exact H3 | exact (Ha H2) | exact (Hc H3)].
Defined.

(** ** Selection by age *)

Lemma by_age_attempts d days confirm w :
  is_Some (find_node d (fs w)) →
  proceeds confirm w →
  attempts_all (n_path <$> eligible_by_age d days w) w
    (Housekeeper.housekeep_by_age d days confirm w).
Proof.
  intros Hd Hgo.
  destruct (decide (eligible_by_age d days w = [])) as [He|He].
  { rewrite by_age_nothing by done. rewrite He. eexists [_; _; _; _]. simpl.
    split_and!; [by rewrite <- !app_assoc | done..]. }
  destruct Hgo as [-> | (r & rest & Hin & Hr)].
  - rewrite by_age_unconfirmed by done.
    edestruct (delete_loop_spec (n_path <$> eligible_by_age d days w) 0)
      as (evs & -> & Hp & _).
    exists ([Exists d true; Now (clock w); Rglob d] ++ evs). simpl.
    split_and!; [by rewrite <- !app_assoc | done..].
  - assert (confirm = true ∨ confirm = false) as [-> | ->] by (destruct confirm; auto).
    2: { rewrite by_age_unconfirmed by done.
         edestruct (delete_loop_spec (n_path <$> eligible_by_age d days w) 0)
           as (evs & -> & Hp & _).
         exists ([Exists d true; Now (clock w); Rglob d] ++ evs). simpl.
         split_and!; [by rewrite <- !app_assoc | done..]. }
    rewrite by_age_asks, answer_spec by done. simpl stdin. rewrite Hin. cbv zeta.
    rewrite decide_True by done.
    edestruct (delete_loop_spec (n_path <$> eligible_by_age d days w) 0)
      as (evs & -> & Hp & _).
    pose proof (removes_age_preview days (n_path <$> eligible_by_age d days w)) as Hpv.
    unfold asking_age, scanned_age, emit. cbn [fst snd log fs stdin clock].
    generalize dependent (age_preview days (n_path <$> eligible_by_age d days w)).
    intros pv Hpv.
    exists ([Exists d true; Now (clock w); Rglob d]
            ++ pv ++ [Input "Proceed? (y/N): " (Some r)] ++ evs).
    rewrite !removes_app, Hpv. simpl.
    split_and!; [by rewrite <- !app_assoc | done..].
Qed.

(** C7, as amended: among the entries found below the directory,
    [housekeep_by_age] selects exactly the regular files whose
    modification time is strictly less than the cutoff; a file modified
    exactly at the cutoff is not selected.  The cutoff is the POSIX time
    stamp of the wall-clock reading [days_old] calendar days before the
    present reading, as the host converts it.  On a host whose wall clock
    is at a fixed distance from POSIX time this is the present time minus
    [days_old] times 24 hours.  The selected files are the ones the call
    goes on to remove.  The statement is about the calls in which the
    cutoff is defined. *)
Theorem age_selection_strict (d : path) (days : Z) (w : world) :
  is_Some (find_node d (fs w)) →
  in_datetime_range days w →
  (∀ n, n ∈ OS.entries d (fs w) → is_file n →
        (n ∈ eligible_by_age d days w
         ↔ st_mtime n < timestamp w (clock w - days * us_per_day)))
  ∧ (∀ n, n ∈ eligible_by_age d days w → n ∈ OS.entries d (fs w) ∧ is_file n)
  ∧ (∀ n, st_mtime n = timestamp w (clock w - days * us_per_day) →
          n ∉ eligible_by_age d days w)
  ∧ (∀ off, (∀ t, timestamp w t = t - off) →
            timestamp w (clock w - days * us_per_day)
            = timestamp w (clock w) - days * us_per_day)
  ∧ attempts_all (n_path <$> eligible_by_age d days w) w
      (Housekeeper.housekeep_by_age d days false w).
Proof.
  intros Hd _. unfold eligible_by_age, Housekeeper.older_than, cutoff. split_and!.
  - intros n Hn Hf. rewrite list_elem_of_filter. tauto.
  - intros n Hn. apply list_elem_of_filter in Hn. tauto.
  - intros n Hn Hin. apply list_elem_of_filter in Hin. lia.
  - intros off Hoff. rewrite !Hoff. lia.
  - apply by_age_attempts; [done | by left].
Qed.

Lemma age_selection_strict_witness :
  let w := demo_world (200 + us_per_day) [] in
  is_Some (find_node d_data (fs w))
  ∧ in_datetime_range 1 w
  ∧ eligible_by_age d_data 1 w = [Node ["data"; "a.log"] RegularFile 100 false]
  ∧ Node ["data"; "sub"; "b.log"] RegularFile 200 true ∉ eligible_by_age d_data 1 w.
Proof.
  cbv zeta.
  assert (H1 : is_Some (find_node d_data (fs (demo_world (200 + us_per_day) []))))
    by (vm_compute; eauto).
  assert (H2 : in_datetime_range 1 (demo_world (200 + us_per_day) [])).
  { unfold in_datetime_range, datetime_min, datetime_max, demo_world, us_per_day.
    cbn [clock]. lia. }
  pose proof (age_selection_strict d_data 1 (demo_world (200 + us_per_day) []) H1 H2)
    as (_ & _ & Hcut & _).
  split_and!; [exact H1 | exact H2 | reflexivity | apply Hcut; reflexivity].
Defined.

(** C7 as stated fails where the wall clock changes its distance from
    POSIX time between the two readings.  On a host in Europe/Berlin, at
    noon on the day the clock was put forward, the wall-clock reading of
    one day before is 23 hours back: with [days_old = 1] the file modified
    23 hours and a half ago is selected and removed, although its
    modification time is not less than the present time minus one day. *)
Lemma age_selection_elapsed_counterexample :
  let w := berlin_world in
  let out := Housekeeper.housekeep_by_age d_data 1 false w in
  in_datetime_range 1 w
  ∧ berlin_file ∈ OS.entries d_data (fs w)
  ∧ is_file berlin_file
  ∧ timestamp w (clock w) - 1 * us_per_day <= st_mtime berlin_file
  ∧ timestamp w (clock w) - st_mtime berlin_file < 1 * us_per_day
  ∧ eligible_by_age d_data 1 w = [berlin_file]
  ∧ out.1 = Return 1
  ∧ removes (log out.2) = [(["data"; "a.log"], true)]
  ∧ ¬ (berlin_file ∈ eligible_by_age d_data 1 w
       ↔ st_mtime berlin_file < timestamp w (clock w) - 1 * us_per_day).
Proof.
  cbv zeta.
  assert (He : eligible_by_age d_data 1 berlin_world = [berlin_file])
    by (vm_compute; reflexivity).
  split.
  { unfold in_datetime_range, datetime_min, datetime_max, berlin_world, us_per_day.
    cbn [clock]. lia. }
  split_and!.
  - vm_compute. left.
  - reflexivity.
  - vm_compute. discriminate.
  - reflexivity.
  - exact He.
  - vm_compute. reflexivity.
  - vm_compute. reflexivity.
  - rewrite He. intros [H _]. specialize (H ltac:(left)).
    vm_compute in H. discriminate.
Qed.

(** ** Partial failure *)

Lemma slice_from_empty {A} (k : Z) (l : list A) :
  Py.len l <= k → Py.slice_from k l = [].
Proof.
  unfold Py.slice_from, Py.len. intros H.
  destruct (Z.leb_spec 0 k) as [Hk|Hk]; [|lia]. apply drop_ge. lia.
Qed.

Lemma by_count_attempts d k confirm w :
  is_Some (find_node d (fs w)) →
  proceeds confirm w →
  attempts_all (eligible_by_count d k w).*1 w
    (Housekeeper.housekeep_by_count d k confirm w).
Proof.
  intros Hd Hgo.
  destruct (Z.le_gt_cases (Py.len (discovered d w)) k) as [He|He].
  { rewrite by_count_nothing by done. unfold eligible_by_count.
    rewrite slice_from_empty by (by rewrite len_sort_desc).
    eexists [_; _; _]. simpl.
    split_and!; [by rewrite <- !app_assoc | done..]. }
  assert (Hloop : Housekeeper.housekeep_by_count d k false w =
                  Housekeeper.delete_loop (eligible_by_count d k w).*1 0 (scanned_count d w))
    by (apply by_count_unconfirmed; [done | lia]).
  assert (Hno : attempts_all (eligible_by_count d k w).*1 w
                  (Housekeeper.housekeep_by_count d k false w)).
  { rewrite Hloop.
    edestruct (delete_loop_spec (eligible_by_count d k w).*1 0) as (evs & -> & Hp & _).
    exists ([Exists d true; Rglob d] ++ evs). simpl.
    split_and!; [by rewrite <- !app_assoc | done..]. }
  destruct confirm; [|exact Hno].
  destruct Hgo as [? | (r & rest & Hin & Hr)]; [done|].
  rewrite by_count_asks, answer_spec by (done || lia). simpl stdin. rewrite Hin. cbv zeta.
  rewrite decide_True by done.
  edestruct (delete_loop_spec (eligible_by_count d k w).*1 0) as (evs & -> & Hp & _).
  eexists ([Exists d true; Rglob d; Print _; Input "Proceed? (y/N): " (Some r)] ++ evs).
  unfold asking_count, scanned_count, emit. simpl.
  split_and!; [by rewrite <- !app_assoc | done..].
Qed.

(** C5: whenever the deletion phase is reached (no confirmation asked, or
    a yes given), each method calls [os.remove] on every one of its
    candidates, in order, whatever the outcome of the earlier calls; no
    exception of [os.remove] reaches the caller, and the value returned is
    the number of calls that succeeded. *)
Theorem deletion_failures_isolated (d : path) (days keep : Z) (confirm : bool)
    (w : world) :
  is_Some (find_node d (fs w)) →
  proceeds confirm w →
  attempts_all (n_path <$> eligible_by_age d days w) w
    (Housekeeper.housekeep_by_age d days confirm w)
  ∧ attempts_all (eligible_by_count d keep w).*1 w
      (Housekeeper.housekeep_by_count d keep confirm w).
Proof.
  intros Hd Hgo. split; [by apply by_age_attempts | by apply by_count_attempts].
Qed.

(** The three files of the example tree are all old enough; the second
    cannot be removed: all three are attempted and 2 is returned. *)
Lemma deletion_failures_isolated_witness :
  let w := demo_world (1000 + us_per_day) ["Y"] in
  (is_Some (find_node d_data (fs w)) ∧ proceeds true w)
  ∧ attempts_all [["data"; "a.log"]; ["data"; "sub"; "b.log"]; ["data"; "c.log"]] w
      (Housekeeper.housekeep_by_age d_data 1 true w)
  ∧ (Housekeeper.housekeep_by_age d_data 1 true w).1 = Return 2
  ∧ removes (log (Housekeeper.housekeep_by_age d_data 1 true w).2)
    = [(["data"; "a.log"], true); (["data"; "sub"; "b.log"], false);
       (["data"; "c.log"], true)].
Proof.
  cbv zeta.
  assert (H1 : is_Some (find_node d_data (fs (demo_world (1000 + us_per_day) ["Y"]))))
    by (vm_compute; eauto).
  assert (H2 : proceeds true (demo_world (1000 + us_per_day) ["Y"])).
  { right. exists "Y", []. split; reflexivity. }
  pose proof (deletion_failures_isolated d_data 1 0 true
                (demo_world (1000 + us_per_day) ["Y"]) H1 H2) as [Ha _].
  split_and!; [exact H1 | exact H2 | exact Ha | reflexivity | reflexivity].
Defined.

(** ** Two runs in succession *)


Lemma find_node_filter (Q : node → Prop) `{!∀ n, Decision (Q n)} d l :
  (∀ n, n_path n = d → Q n) → find_node d (filter Q l) = find_node d l.
Proof.
  intros HQ. induction l as [|m l IH]; [done|].
  rewrite filter_cons. simpl. destruct (decide (Q m)) as [Hm|Hm]; simpl.
  - by rewrite IH.
  - rewrite IH. destruct (decide (n_path m = d)) as [E|E]; [|done].
    destruct Hm. by apply HQ.
Qed.

Lemma entries_filter (Q : node → Prop) `{!∀ n, Decision (Q n)} d l :
  (∀ n, n_path n = d → Q n) →
  OS.entries d (filter Q l) = filter Q (OS.entries d l).
Proof.
  intros HQ. unfold OS.entries. rewrite find_node_filter by done.
  destruct (find_node d l) as [[? [] ? ?]|]; try done.
  rewrite !list_filter_filter. apply list_filter_iff. tauto.
Qed.

Lemma entries_below d l n : n ∈ OS.entries d l → n ∈ l ∧ n_path n ≠ d.
Proof.
  unfold OS.entries. destruct (find_node d l) as [[? [] ? ?]|].
  2: rewrite list_elem_of_filter; unfold below; tauto.
  all: by intros ?%elem_of_nil.
Qed.










(** ** Selection by count *)


Lemma find_node_NoDup l n :
  wf_fs l → n ∈ l → find_node (n_path n) l = Some n.
Proof.
  unfold wf_fs. induction l as [|m l IH]; simpl; [by intros _ ?%elem_of_nil|].
  rewrite NoDup_cons. intros [Hm Hl] Hn.
  destruct (decide (n_path m = n_path n)) as [E|E].
  - apply elem_of_cons in Hn as [-> | Hn]; [done|].
    destruct Hm. rewrite E. by apply list_elem_of_fmap_2.
  - apply elem_of_cons in Hn as [-> | Hn]; [done | by apply IH].
Qed.

Lemma entries_sublist d l : OS.entries d l `sublist_of` l.
Proof.
  unfold OS.entries. destruct (find_node d l) as [[? [] ? ?]|];
    auto using sublist_nil_l, sublist_filter.
Qed.

Lemma discovered_paths d w :
  (discovered d w).*1 = n_path <$> filter is_file (OS.entries d (fs w)).
Proof.
  unfold discovered, Housekeeper.files_with_mtime.
  rewrite <- list_fmap_compose. reflexivity.
Qed.

Lemma discovered_NoDup d w : wf_fs (fs w) → NoDup (discovered d w).*1.
Proof.
  intros Hwf. rewrite discovered_paths. eapply sublist_NoDup; [exact Hwf|].
  apply fmap_sublist. etransitivity; [apply sublist_filter | apply entries_sublist].
Qed.

Lemma elem_of_discovered d w x :
  x ∈ discovered d w ↔
  ∃ n, x = (n_path n, st_mtime n) ∧ is_file n ∧ n ∈ OS.entries d (fs w).
Proof.
  unfold discovered, Housekeeper.files_with_mtime.
  rewrite list_elem_of_fmap. setoid_rewrite list_elem_of_filter. naive_solver.
Qed.

(** When every file is there, regular and removable, the loop removes
    them all. *)
Lemma delete_loop_all_succeed files : ∀ c w,
  NoDup files →
  (∀ p, p ∈ files →
        ∃ n, find_node p (fs w) = Some n ∧ is_file n ∧ n_locked n = false) →
  Housekeeper.delete_loop files c w =
    (Return (c + Py.len files),
     World (filter (λ n, n_path n ∉ files) (fs w)) (clock w) (timestamp w) (stdin w)
           (log w ++ ((λ p, Remove p true) <$> files))).
Proof.
  induction files as [|p rest IH]; intros c w Hnd Hall.
  - simpl. unfold ret, Py.len. simpl. rewrite Z.add_0_r, app_nil_r.
    f_equal. destruct w as [l ? ? ?]. simpl. f_equal.
    clear. induction l as [|n l IHl]; [done|].
    rewrite filter_cons_True by apply not_elem_of_nil. by f_equal.
  - apply NoDup_cons in Hnd as [Hp Hnd].
    destruct (Hall p) as (n & Hf & Hk & Hl); [left|].
    destruct n as [np [] mt lk]; [|done]. simpl in Hl. subst lk.
    simpl. erewrite run_bind.
    2: { unfold try_except. erewrite run_bind.
         2: { unfold OS.remove. rewrite Hf. reflexivity. }
         reflexivity. }
    rewrite IH; [|done|].
    + simpl. f_equal.
      * f_equal. unfold Py.len. simpl length. lia.
      * f_equal.
        -- unfold OS.unlink. rewrite list_filter_filter. apply list_filter_iff.
           intros m. rewrite not_elem_of_cons. tauto.
        -- by rewrite <- app_assoc.
    + intros q Hq. simpl. rewrite find_node_unlink_ne by (intros ->; done).
      apply Hall. by right.
Qed.

Lemma removes_all_true (l : list (path * Z)) :
  removes ((λ p, Remove p true) <$> l.*1) = (λ x, (x.1, true)) <$> l.
Proof. induction l as [|x l IH]; simpl; [done | by f_equal]. Qed.

(** The count policy in an existing directory whose files have pairwise
    distinct modification times and can all be removed. *)
Lemma count_policy (d : path) (keep : Z) (w : world) :
  is_Some (find_node d (fs w)) →
  wf_fs (fs w) →
  NoDup (discovered d w).*2 →
  (∀ n, n ∈ fs w → n_path n ∈ (eligible_by_count d keep w).*1 → n_locked n = false) →
  0 <= keep < Py.len (discovered d w) →
  let out := Housekeeper.housekeep_by_count d keep false w in
  let deleted := eligible_by_count d keep w in
  let kept := retained_by_count d keep w in
  out.1 = Return (Py.len (discovered d w) - keep)
  ∧ removes (log out.2) = removes (log w) ++ ((λ x, (x.1, true)) <$> deleted)
  ∧ Py.len deleted = Py.len (discovered d w) - keep
  ∧ Py.len kept = keep
  ∧ discovered d w ≡ₚ kept ++ deleted
  ∧ (∀ x y, x ∈ deleted → y ∈ kept → x.2 < y.2)
  ∧ fs out.2 = filter (λ n, n_path n ∉ deleted.*1) (fs w)
  ∧ discovered d out.2 ≡ₚ kept.
Proof.
  intros Hd Hwf Hdist Hunl [Hk0 HkN]. cbv zeta.
  set (sorted := Py.sort_desc snd (discovered d w)).
  pose proof (sort_desc_perm snd (discovered d w)) as Hperm. fold sorted in Hperm.
  pose proof (sort_desc_sorted snd (discovered d w)) as Hsorted. fold sorted in Hsorted.
  assert (Hdel : eligible_by_count d keep w = drop (Z.to_nat keep) sorted).
  { unfold eligible_by_count, Py.slice_from. by destruct (Z.leb_spec 0 keep); [|lia]. }
  assert (Hkept : retained_by_count d keep w = take (Z.to_nat keep) sorted).
  { unfold retained_by_count, Py.slice_to. by destruct (Z.leb_spec 0 keep); [|lia]. }
  assert (Hsplit : sorted = retained_by_count d keep w ++ eligible_by_count d keep w).
  { by rewrite Hdel, Hkept, take_drop. }
  assert (Hlen : length sorted = length (discovered d w)) by (by rewrite Hperm).
  pose proof (discovered_NoDup d w Hwf) as Hnd1.
  assert (Hnds1 : NoDup (retained_by_count d keep w ++ eligible_by_count d keep w).*1)
    by (by rewrite <- Hsplit, Hperm).
  assert (Hnds2 : NoDup (retained_by_count d keep w ++ eligible_by_count d keep w).*2)
    by (by rewrite <- Hsplit, Hperm).
  rewrite fmap_app in Hnds1. rewrite fmap_app in Hnds2.
  apply NoDup_app in Hnds1 as (Hndk1 & Hdisj1 & Hndd1).
  apply NoDup_app in Hnds2 as (_ & Hdisj2 & _).
  set (deleted := eligible_by_count d keep w) in *.
  set (kept := retained_by_count d keep w) in *.
  assert (Hsub : ∀ x, x ∈ deleted → x ∈ discovered d w).
  { intros x Hx. rewrite <- Hperm, Hsplit. apply elem_of_app. by right. }
  assert (Hfound : ∀ p, p ∈ deleted.*1 →
            ∃ n, find_node p (fs (scanned_count d w)) = Some n
                 ∧ is_file n ∧ n_locked n = false).
  { intros p Hp. pose proof Hp as Hp'.
    apply list_elem_of_fmap in Hp as (x & -> & Hx).
    apply Hsub, elem_of_discovered in Hx as (n & -> & Hfile & Hn).
    apply entries_below in Hn as [Hn _].
    exists n. split_and!; [by apply find_node_NoDup | done | by apply Hunl]. }
  assert (Hnotd : ∀ n, n_path n = d → n_path n ∉ deleted.*1).
  { intros n Hn Hp. apply list_elem_of_fmap in Hp as (x & Hx1 & Hx).
    apply Hsub, elem_of_discovered in Hx as (m & -> & _ & Hm).
    apply entries_below in Hm as [_ Hm]. simpl in Hx1. congruence. }
  rewrite by_count_unconfirmed by done. fold deleted.
  rewrite delete_loop_all_succeed by done. cbn [fst snd fs log].
  split_and!.
  - f_equal. unfold Py.len. rewrite length_fmap, Hdel, length_drop.
    unfold Py.len in HkN. lia.
  - unfold scanned_count, emit. cbn [log]. rewrite !removes_app, removes_all_true.
    simpl. by rewrite !app_nil_r.
  - unfold Py.len. rewrite Hdel, length_drop.
    unfold Py.len in HkN. lia.
  - unfold Py.len. rewrite Hkept, length_take.
    unfold Py.len in HkN. lia.
  - by rewrite <- Hperm, Hsplit.
  - intros x y Hx Hy.
    assert (x.2 <= y.2) as Hle.
    { rewrite Hsplit in Hsorted.
      exact (StronglySorted_app_1_elem_of _ _ _ _ _ Hsorted Hy Hx). }
    assert (x.2 ≠ y.2); [|lia].
    intros E. apply (Hdisj2 y.2); [by apply list_elem_of_fmap_2|].
    rewrite <- E. by apply list_elem_of_fmap_2.
  - reflexivity.
  - apply NoDup_Permutation.
    + apply (NoDup_fmap_1 fst). apply discovered_NoDup. simpl.
      eapply sublist_NoDup; [exact Hwf|]. apply fmap_sublist, sublist_filter.
    + by apply (NoDup_fmap_1 fst).
    + intros x. unfold discovered at 1. cbn [fs].
      rewrite entries_filter by exact Hnotd.
      unfold Housekeeper.files_with_mtime. rewrite list_elem_of_fmap.
      split.
      * intros (n & -> & Hn).
        apply list_elem_of_filter in Hn as [Hfile Hn].
        apply list_elem_of_filter in Hn as [Hq Hn].
        assert (Hx : (n_path n, st_mtime n) ∈ sorted).
        { rewrite Hperm. apply elem_of_discovered. eauto. }
        rewrite Hsplit in Hx. apply elem_of_app in Hx as [Hx | Hx]; [done|].
        destruct Hq. by apply (list_elem_of_fmap_2 fst) in Hx.
      * intros Hx.
        assert (Hx' : x ∈ discovered d w).
        { rewrite <- Hperm, Hsplit. apply elem_of_app. by left. }
        apply elem_of_discovered in Hx' as (n & -> & Hfile & Hn).
        exists n. rewrite !list_elem_of_filter. split_and!; try done.
        apply (Hdisj1 (n_path n)). by apply (list_elem_of_fmap_2 fst) in Hx.
Qed.

(** The seven files modified 0 to 6 hours ago, three to keep: the four
    oldest are removed, oldest last in the enumeration order, and 4 is
    returned; the three newest stay. *)
Lemma seven_files_scenario (now : Z) :
  Housekeeper.housekeep_by_count d_data 3 false (World (hourly_fs now) now utc [] []) =
    (Return 4,
     World [ Node ["data"] Directory now false;
             hourly_file now "file_0.txt" 0; hourly_file now "file_1.txt" 1;
             hourly_file now "file_2.txt" 2 ]
           now utc []
           [ Exists d_data true; Rglob d_data;
             Remove ["data"; "file_3.txt"] true; Remove ["data"; "file_4.txt"] true;
             Remove ["data"; "file_5.txt"] true; Remove ["data"; "file_6.txt"] true ]).
Proof.
  assert (Hdisc : discovered d_data (World (hourly_fs now) now utc [] []) =
                  [ (["data"; "file_0.txt"], now - 0 * us_per_hour);
                    (["data"; "file_1.txt"], now - 1 * us_per_hour);
                    (["data"; "file_2.txt"], now - 2 * us_per_hour);
                    (["data"; "file_3.txt"], now - 3 * us_per_hour);
                    (["data"; "file_4.txt"], now - 4 * us_per_hour);
                    (["data"; "file_5.txt"], now - 5 * us_per_hour);
                    (["data"; "file_6.txt"], now - 6 * us_per_hour) ])
    by reflexivity.
  rewrite by_count_unconfirmed.
  - unfold eligible_by_count. rewrite Hdisc.
    rewrite sort_desc_id
      by (repeat constructor; unfold newer_first, us_per_hour; simpl; lia).
    reflexivity.
  - simpl. eauto.
  - rewrite Hdisc. reflexivity.
Qed.

(** C2: in an existing directory whose [N] files have pairwise distinct
    modification times and can all be removed, [housekeep_by_count] with
    [0 <= keep_count < N] and no confirmation removes [N - keep_count]
    files, every one of them strictly older than every file it keeps,
    keeps the other [keep_count], and returns [N - keep_count].  In
    particular, with seven files modified 0 to 6 hours ago and
    [keep_count = 3], it removes the four oldest and returns 4. *)
Theorem count_keeps_newest :
  (∀ (d : path) (keep : Z) (w : world),
     is_Some (find_node d (fs w)) →
     wf_fs (fs w) →
     NoDup (discovered d w).*2 →
     (∀ n, n ∈ fs w → n_path n ∈ (eligible_by_count d keep w).*1 → n_locked n = false) →
     0 <= keep < Py.len (discovered d w) →
     let out := Housekeeper.housekeep_by_count d keep false w in
     let deleted := eligible_by_count d keep w in
     let kept := retained_by_count d keep w in
     out.1 = Return (Py.len (discovered d w) - keep)
     ∧ removes (log out.2) = removes (log w) ++ ((λ x, (x.1, true)) <$> deleted)
     ∧ Py.len deleted = Py.len (discovered d w) - keep
     ∧ Py.len kept = keep
     ∧ discovered d w ≡ₚ kept ++ deleted
     ∧ (∀ x y, x ∈ deleted → y ∈ kept → x.2 < y.2)
     ∧ fs out.2 = filter (λ n, n_path n ∉ deleted.*1) (fs w)
     ∧ discovered d out.2 ≡ₚ kept)
  ∧ (∀ now : Z,
       let out := Housekeeper.housekeep_by_count d_data 3 false
                    (World (hourly_fs now) now utc [] []) in
       out.1 = Return 4
       ∧ removes (log out.2)
         = [ (["data"; "file_3.txt"], true); (["data"; "file_4.txt"], true);
             (["data"; "file_5.txt"], true); (["data"; "file_6.txt"], true) ]
       ∧ fs out.2
         = [ Node ["data"] Directory now false;
             hourly_file now "file_0.txt" 0; hourly_file now "file_1.txt" 1;
             hourly_file now "file_2.txt" 2 ]).
Proof.
  split.
  - intros d keep w. apply count_policy.
  - intros now. cbv zeta. rewrite seven_files_scenario. done.
Qed.

Lemma count_keeps_newest_witness :
  let w := World (hourly_fs 1000000000000) 1000000000000 utc [] [] in
  (is_Some (find_node d_data (fs w)) ∧ wf_fs (fs w) ∧ NoDup (discovered d_data w).*2
   ∧ 0 <= 3 < Py.len (discovered d_data w))
  ∧ (Housekeeper.housekeep_by_count d_data 3 false w).1
    = Return (Py.len (discovered d_data w) - 3)
  ∧ (eligible_by_count d_data 3 w).*1
    = [ ["data"; "file_3.txt"]; ["data"; "file_4.txt"];
        ["data"; "file_5.txt"]; ["data"; "file_6.txt"] ].
Proof.
  cbv zeta.
  assert (H1 : is_Some (find_node d_data
                 (fs (World (hourly_fs 1000000000000) 1000000000000 utc [] []))))
    by (vm_compute; eauto).
  assert (H2 : wf_fs (fs (World (hourly_fs 1000000000000) 1000000000000 utc [] [])))
    by (unfold wf_fs; apply (bool_decide_unpack _); vm_compute; exact I).
  assert (H3 : NoDup (discovered d_data
                 (World (hourly_fs 1000000000000) 1000000000000 utc [] [])).*2)
    by (apply (bool_decide_unpack _); vm_compute; exact I).
  assert (H4 : ∀ n, n ∈ fs (World (hourly_fs 1000000000000) 1000000000000 utc [] []) →
                 n_path n ∈ (eligible_by_count d_data 3
                   (World (hourly_fs 1000000000000) 1000000000000 utc [] [])).*1 →
                 n_locked n = false).
  { intros n Hn _. simpl in Hn. unfold hourly_fs in Hn.
    repeat (apply elem_of_cons in Hn as [-> | Hn]; [reflexivity|]).
    by apply elem_of_nil in Hn. }
  assert (H5 : 0 <= 3 < Py.len (discovered d_data
                 (World (hourly_fs 1000000000000) 1000000000000 utc [] [])))
    by (vm_compute; split; [discriminate | reflexivity]).
  pose proof (proj1 count_keeps_newest d_data 3
                (World (hourly_fs 1000000000000) 1000000000000 utc [] [])
                H1 H2 H3 H4 H5) as (Hret & _).
  split_and!; [exact H1 | exact H2 | exact H3 | apply H5 | apply H5 | exact Hret
              | reflexivity].
Defined.

(** A negative [keep_count] is outside the contract ("number of newest
    files to keep"); Python's slice then counts from the end, and the call
    removes only the [-keep_count] oldest files. *)
Example negative_keep_count :
  (Housekeeper.housekeep_by_count d_data (-1) false
     (World (hourly_fs 1000000000000) 1000000000000 utc [] [])).1 = Return 1
  ∧ removes (log (Housekeeper.housekeep_by_count d_data (-1) false
                    (World (hourly_fs 1000000000000) 1000000000000 utc [] [])).2)
    = [(["data"; "file_6.txt"], true)].
Proof. split; reflexivity. Qed.

(** * Further properties of the module *)

(** ** The deletion loop, from the file system alone *)

Lemma remove_run p w :
  OS.remove p w =
    match remove_error p (fs w) with
    | None => (Return (), emit (Remove p true)
                            (World (OS.unlink p (fs w)) (clock w) (timestamp w) (stdin w) (log w)))
    | Some e => (Raise e, emit (Remove p false) w)
    end.
Proof.
  unfold OS.remove, remove_error.
  by destruct (find_node p (fs w)) as [[? [] ? []]|].
Qed.

Lemma delete_loop_run files : ∀ c w,
  Housekeeper.delete_loop files c w =
    (Return (c + (loop_run files (fs w)).2),
     World (loop_run files (fs w)).1.2 (clock w) (timestamp w) (stdin w)
           (log w ++ (loop_run files (fs w)).1.1)).
Proof.
  induction files as [|p rest IH]; intros c w.
  - simpl. unfold ret. rewrite Z.add_0_r, app_nil_r. by destruct w.
  - cbn [Housekeeper.delete_loop loop_run].
    destruct (remove_error p (fs w)) as [e|] eqn:He.
    + erewrite run_bind.
      2: { unfold try_except. erewrite run_bind_raise by (rewrite remove_run, He; reflexivity).
           erewrite run_bind by reflexivity. reflexivity. }
      rewrite IH. cbn [fst snd fs clock stdin log emit].
      unfold emit. cbn [fs clock stdin log]. by rewrite <- !app_assoc.
    + erewrite run_bind.
      2: { unfold try_except. erewrite run_bind by (rewrite remove_run, He; reflexivity).
           reflexivity. }
      rewrite IH. unfold emit. cbn [fst snd fs clock stdin log].
      rewrite <- !app_assoc. do 2 f_equal. lia.
Qed.

Lemma loop_run_trace files : ∀ l, loop_trace files (loop_run files l).1.1.
Proof.
  induction files as [|p rest IH]; intros l; simpl; [constructor|].
  destruct (remove_error p l); simpl; constructor; apply IH.
Qed.

(** Both methods, once past the confirmation: the outcome is that of the
    loop run on the candidates from the initial file system. *)
Lemma by_age_deletes d days confirm w :
  is_Some (find_node d (fs w)) →
  proceeds confirm w →
  let out := Housekeeper.housekeep_by_age d days confirm w in
  let run := loop_run (n_path <$> eligible_by_age d days w) (fs w) in
  out.1 = Return run.2 ∧ fs out.2 = run.1.2
  ∧ ∃ pre, log out.2 = log w ++ pre ++ run.1.1 ∧ removes pre = [].
Proof.
  intros Hd Hgo. cbv zeta.
  destruct (decide (eligible_by_age d days w = [])) as [He|He].
  { rewrite by_age_nothing by done. rewrite He. simpl.
    split_and!; try done.
    eexists [Exists d true; Now (clock w); Rglob d; Print _].
    rewrite app_nil_r. split; [by rewrite <- !app_assoc | done]. }
  assert (Hno : Housekeeper.housekeep_by_age d days false w =
                Housekeeper.delete_loop (n_path <$> eligible_by_age d days w) 0
                  (scanned_age d w)) by (by apply by_age_unconfirmed).
  destruct confirm.
  - destruct Hgo as [? | (r & rest & Hin & Hr)]; [done|].
    rewrite by_age_asks, answer_spec by done. simpl stdin. rewrite Hin. cbv zeta.
    rewrite decide_True by done. rewrite delete_loop_run.
    cbn [fst snd fs clock stdin log emit asking_age].
    split_and!; try done.
    pose proof (removes_age_preview days (n_path <$> eligible_by_age d days w)) as Hpv.
    unfold asking_age, scanned_age, emit. cbn [log].
    revert Hpv. generalize (age_preview days (n_path <$> eligible_by_age d days w)).
    intros pv Hpv.
    exists ([Exists d true; Now (clock w); Rglob d] ++ pv
            ++ [Input "Proceed? (y/N): " (Some r)]).
    split; [by rewrite <- !app_assoc|].
    rewrite !removes_app, Hpv. done.
  - rewrite Hno, delete_loop_run. cbn [fst snd fs clock stdin log].
    split_and!; try done.
    exists [Exists d true; Now (clock w); Rglob d].
    split; [unfold scanned_age, emit; cbn [log]; by rewrite <- !app_assoc | done].
Qed.

Lemma by_count_deletes d keep confirm w :
  is_Some (find_node d (fs w)) →
  proceeds confirm w →
  let out := Housekeeper.housekeep_by_count d keep confirm w in
  let run := loop_run (eligible_by_count d keep w).*1 (fs w) in
  out.1 = Return run.2 ∧ fs out.2 = run.1.2
  ∧ ∃ pre, log out.2 = log w ++ pre ++ run.1.1 ∧ removes pre = [].
Proof.
  intros Hd Hgo. cbv zeta.
  destruct (Z.le_gt_cases (Py.len (discovered d w)) keep) as [He|He].
  { rewrite by_count_nothing by done. unfold eligible_by_count.
    rewrite slice_from_empty by (by rewrite len_sort_desc). simpl.
    split_and!; try done.
    eexists [Exists d true; Rglob d; Print _].
    rewrite app_nil_r. split; [by rewrite <- !app_assoc | done]. }
  assert (Hlt : keep < Py.len (discovered d w)) by lia.
  destruct confirm.
  - destruct Hgo as [? | (r & rest & Hin & Hr)]; [done|].
    rewrite by_count_asks, answer_spec by done. simpl stdin. rewrite Hin. cbv zeta.
    rewrite decide_True by done. rewrite delete_loop_run.
    cbn [fst snd fs clock stdin log emit asking_count scanned_count].
    split_and!; try done.
    eexists [Exists d true; Rglob d; Print _; Input "Proceed? (y/N): " (Some r)].
    split; [by rewrite <- !app_assoc | done].
  - rewrite by_count_unconfirmed, delete_loop_run by done.
    cbn [fst snd fs clock stdin log].
    split_and!; try done.
    exists [Exists d true; Rglob d].
    split; [unfold scanned_count, emit; cbn [log]; by rewrite <- !app_assoc | done].
Qed.

(** Both methods, when the deletion phase is not reached: the file system
    is left as it was. *)
Lemma by_age_idle d days confirm w :
  ¬ (is_Some (find_node d (fs w)) ∧ proceeds confirm w) →
  let out := Housekeeper.housekeep_by_age d days confirm w in
  fs out.2 = fs w ∧ removes (log out.2) = removes (log w)
  ∧ ∀ k, out.1 = Return k → k = 0.
Proof.
  intros Hnot. cbv zeta.
  destruct (find_node d (fs w)) as [nd|] eqn:Hd.
  2: { rewrite by_age_missing by done. simpl. rewrite removes_app. simpl.
       by rewrite app_nil_r. }
  assert (Hs : is_Some (find_node d (fs w))) by (by rewrite Hd).
  destruct (decide (eligible_by_age d days w = [])) as [He|He].
  { rewrite by_age_nothing by done. simpl. rewrite !removes_app. simpl.
    rewrite !app_nil_r. split_and!; try done. by intros k [= <-]. }
  destruct confirm; [|destruct Hnot; split; [done | by left]].
  rewrite by_age_asks, answer_spec by done. simpl stdin.
  destruct (stdin w) as [|r rest] eqn:Hin.
  - simpl. rewrite !removes_app, removes_age_preview. simpl. by rewrite !app_nil_r.
  - cbv zeta. destruct (decide (Py.lower r = "y")) as [Hy|Hy].
    { destruct Hnot. split; [done|]. right. eauto. }
    unfold emit. cbn [fst snd fs log asking_age].
    rewrite !removes_app. cbn [scanned_age emit log].
    rewrite !removes_app, removes_age_preview. simpl. rewrite !app_nil_r.
    split_and!; try done. by intros k [= <-].
Qed.

Lemma by_count_idle d keep confirm w :
  ¬ (is_Some (find_node d (fs w)) ∧ proceeds confirm w) →
  let out := Housekeeper.housekeep_by_count d keep confirm w in
  fs out.2 = fs w ∧ removes (log out.2) = removes (log w)
  ∧ ∀ k, out.1 = Return k → k = 0.
Proof.
  intros Hnot. cbv zeta.
  destruct (find_node d (fs w)) as [nd|] eqn:Hd.
  2: { rewrite by_count_missing by done. simpl. rewrite removes_app. simpl.
       by rewrite app_nil_r. }
  assert (Hs : is_Some (find_node d (fs w))) by (by rewrite Hd).
  destruct (Z.le_gt_cases (Py.len (discovered d w)) keep) as [He|He].
  { rewrite by_count_nothing by done. simpl. rewrite !removes_app. simpl.
    rewrite !app_nil_r. split_and!; try done. by intros k [= <-]. }
  destruct confirm; [|destruct Hnot; split; [done | by left]].
  rewrite by_count_asks, answer_spec by (done || lia). simpl stdin.
  destruct (stdin w) as [|r rest] eqn:Hin.
  - simpl. rewrite !removes_app. simpl. by rewrite !app_nil_r.
  - cbv zeta. destruct (decide (Py.lower r = "y")) as [Hy|Hy].
    { destruct Hnot. split; [done|]. right. eauto. }
    simpl. rewrite !removes_app. simpl. rewrite !app_nil_r.
    split_and!; try done. by intros k [= <-].
Qed.

Lemma proceeds_dec confirm w : proceeds confirm w ∨ ¬ proceeds confirm w.
Proof.
  unfold proceeds. destruct confirm; [|by left; left].
  destruct (stdin w) as [|r rest].
  - right. intros [? | (? & ? & ? & _)]; done.
  - destruct (decide (Py.lower r = "y")) as [Hy|Hy].
    + left. right. eauto.
    + right. intros [? | (? & ? & [= <- <-] & ?)]; done.
Qed.

Lemma unlink_sublist p l : OS.unlink p l `sublist_of` l.
Proof. apply sublist_filter. Qed.

Lemma unlink_wf p l : wf_fs l → wf_fs (OS.unlink p l).
Proof.
  unfold wf_fs. intros H. eapply sublist_NoDup; [exact H|].
  apply fmap_sublist, unlink_sublist.
Qed.

(** Under unique paths, a successful removal takes away exactly one node. *)
Lemma unlink_length p l :
  wf_fs l → remove_error p l = None → S (length (OS.unlink p l)) = length l.
Proof.
  unfold wf_fs, remove_error, OS.unlink. induction l as [|m l IH]; simpl; [done|].
  rewrite NoDup_cons. intros [Hm Hl] Hf. rewrite filter_cons.
  destruct (decide (n_path m = p)) as [E|E].
  - rewrite decide_False by (intros ?; done). f_equal.
    assert (Hall : filter (λ n, n_path n ≠ p) l = l); [|by rewrite Hall].
    clear IH Hf. induction l as [|x l IHl]; [done|].
    rewrite fmap_cons, not_elem_of_cons in Hm. destruct Hm as [Hx Hm].
    apply NoDup_cons in Hl as [_ Hl].
    rewrite filter_cons_True by congruence. f_equal. by apply IHl.
  - rewrite decide_True by done. simpl. f_equal. by apply IH.
Qed.

Lemma loop_run_sublist files : ∀ l, (loop_run files l).1.2 `sublist_of` l.
Proof.
  induction files as [|p rest IH]; intros l; simpl; [done|].
  destruct (remove_error p l); simpl; [apply IH|].
  etransitivity; [apply IH | apply unlink_sublist].
Qed.

Lemma loop_run_keeps files : ∀ l n,
  n ∈ l → n_path n ∉ files → n ∈ (loop_run files l).1.2.
Proof.
  induction files as [|p rest IH]; intros l n Hn Hp; simpl; [done|].
  apply not_elem_of_cons in Hp as [Hne Hp].
  destruct (remove_error p l); simpl; apply IH; try done.
  apply list_elem_of_filter. done.
Qed.

Lemma loop_run_count files : ∀ l,
  0 <= (loop_run files l).2 <= Py.len files
  ∧ (wf_fs l → Py.len (loop_run files l).1.2 + (loop_run files l).2 = Py.len l).
Proof.
  unfold Py.len. induction files as [|p rest IH]; intros l; simpl; [lia|].
  destruct (remove_error p l) eqn:He; simpl.
  - destruct (IH l) as [? ?]. split; [lia | done].
  - destruct (IH (OS.unlink p l)) as [? Hlen]. split; [lia|].
    intros Hwf. specialize (Hlen (unlink_wf _ _ Hwf)).
    pose proof (unlink_length p l Hwf He). lia.
Qed.

Lemma removes_loop_trace files evs :
  loop_trace files evs → (removes evs).*1 = files.
Proof. induction 1; simpl; by f_equal. Qed.

Lemma entries_strictly_below d l n : n ∈ OS.entries d l → below d (n_path n).
Proof.
  unfold OS.entries. destruct (find_node d l) as [[? [] ? ?]|].
  2: rewrite list_elem_of_filter; tauto.
  all: by intros ?%elem_of_nil.
Qed.

Lemma NoDup_fmap_inj {A B} (f : A → B) (l : list A) x y :
  NoDup (f <$> l) → x ∈ l → y ∈ l → f x = f y → x = y.
Proof.
  induction l as [|a l IH]; simpl; [by intros _ ?%elem_of_nil|].
  rewrite NoDup_cons. intros [Ha Hl] Hx Hy Hf.
  apply elem_of_cons in Hx as [-> | Hx]; apply elem_of_cons in Hy as [-> | Hy].
  - done.
  - destruct Ha. rewrite Hf. by apply list_elem_of_fmap_2.
  - destruct Ha. rewrite <- Hf. by apply list_elem_of_fmap_2.
  - by apply IH.
Qed.

Lemma slice_split {A} (k : Z) (l : list A) :
  Py.slice_to k l ++ Py.slice_from k l = l.
Proof.
  unfold Py.slice_to, Py.slice_from. destruct (0 <=? k); apply take_drop.
Qed.

Lemma by_age_outcome d days confirm w :
  let out := Housekeeper.housekeep_by_age d days confirm w in
  let run := loop_run (n_path <$> eligible_by_age d days w) (fs w) in
  (fs out.2 = fs w ∧ removes (log out.2) = removes (log w)
   ∧ ∀ k, out.1 = Return k → k = 0)
  ∨ (out.1 = Return run.2 ∧ fs out.2 = run.1.2
     ∧ ∃ pre, log out.2 = log w ++ pre ++ run.1.1 ∧ removes pre = []).
Proof.
  cbv zeta. destruct (decide (is_Some (find_node d (fs w)))) as [Hd|Hd].
  - destruct (proceeds_dec confirm w) as [Hgo|Hgo].
    + right. by apply by_age_deletes.
    + left. apply by_age_idle. tauto.
  - left. apply by_age_idle. tauto.
Qed.

Lemma by_count_outcome d keep confirm w :
  let out := Housekeeper.housekeep_by_count d keep confirm w in
  let run := loop_run (eligible_by_count d keep w).*1 (fs w) in
  (fs out.2 = fs w ∧ removes (log out.2) = removes (log w)
   ∧ ∀ k, out.1 = Return k → k = 0)
  ∨ (out.1 = Return run.2 ∧ fs out.2 = run.1.2
     ∧ ∃ pre, log out.2 = log w ++ pre ++ run.1.1 ∧ removes pre = []).
Proof.
  cbv zeta. destruct (decide (is_Some (find_node d (fs w)))) as [Hd|Hd].
  - destruct (proceeds_dec confirm w) as [Hgo|Hgo].
    + right. by apply by_count_deletes.
    + left. apply by_count_idle. tauto.
  - left. apply by_count_idle. tauto.
Qed.

Lemma outcome_removes_only files w (out : result Z * world) :
  fs out.2 = fs w ∨ fs out.2 = (loop_run files (fs w)).1.2 →
  removes_only files w out.
Proof.
  unfold removes_only. intros [H | H]; rewrite H; split; try done.
  - apply loop_run_sublist.
  - intros n Hn Hp. by apply loop_run_keeps.
Qed.

Lemma outcome_counts files w (out : result Z * world) :
  wf_fs (fs w) →
  (fs out.2 = fs w ∧ ∀ k, out.1 = Return k → k = 0)
  ∨ (out.1 = Return (loop_run files (fs w)).2 ∧ fs out.2 = (loop_run files (fs w)).1.2) →
  counts_files_gone (Py.len files) w out.
Proof.
  unfold counts_files_gone. intros Hwf [[Hfs Hk] | [Hr Hfs]] k Hret.
  - rewrite (Hk k Hret), Hfs. unfold Py.len. lia.
  - rewrite Hr in Hret. injection Hret as <-. rewrite Hfs.
    destruct (loop_run_count files (fs w)) as [? Hlen]. split; [done | by apply Hlen].
Qed.

(** ** What is never removed *)

(** X1: whatever the answers and failures, [housekeep_by_age] creates and
    changes nothing and removes nothing but its candidates: every node
    whose path is not a candidate's stays, in particular every node that
    does not lie below the directory (the directory itself included); and
    in a file system with unique paths every directory stays, and so
    does every file whose modification time is not less than the cutoff,
    the time stamp the host gives the wall-clock reading [days_old] days
    before the present one. *)
Theorem age_removes_only_candidates (d : path) (days : Z) (confirm : bool) (w : world) :
  let out := Housekeeper.housekeep_by_age d days confirm w in
  removes_only (n_path <$> eligible_by_age d days w) w out
  ∧ (∀ n, n ∈ fs w → ¬ below d (n_path n) → n ∈ fs out.2)
  ∧ (wf_fs (fs w) →
     ∀ n, n ∈ fs w →
          ¬ (is_file n ∧ st_mtime n < timestamp w (clock w - days * us_per_day)) →
          n ∈ fs out.2).
Proof.
  cbv zeta. fold (cutoff days w).
  assert (Hro : removes_only (n_path <$> eligible_by_age d days w) w
                  (Housekeeper.housekeep_by_age d days confirm w)).
  { apply outcome_removes_only.
    destruct (by_age_outcome d days confirm w) as [(? & _) | (_ & ? & _)]; auto. }
  split_and!; [exact Hro | |].
  - intros n Hn Hb. apply Hro; [done|]. intros Hp.
    apply list_elem_of_fmap in Hp as (m & Hm & Hel).
    apply list_elem_of_filter in Hel as [_ Hel].
    apply entries_strictly_below in Hel. by rewrite Hm in Hb.
  - intros Hwf n Hn Hnot. apply Hro; [done|]. intros Hp.
    apply list_elem_of_fmap in Hp as (m & Hm & Hel).
    assert (m ∈ fs w).
    { apply list_elem_of_filter in Hel as [_ Hel]. by apply entries_below in Hel as [? _]. }
    assert (n = m) as -> by (by eapply (NoDup_fmap_inj n_path)).
    apply Hnot. apply list_elem_of_filter in Hel as [? _]. done.
Qed.

Lemma age_removes_only_candidates_witness :
  let w := demo_world (150 + us_per_day) ["y"] in
  wf_fs (fs w)
  ∧ Node ["data"; "c.log"] RegularFile 300 false
    ∈ fs (Housekeeper.housekeep_by_age d_data 1 true w).2
  ∧ Node ["data"; "sub"] Directory 0 false
    ∈ fs (Housekeeper.housekeep_by_age d_data 1 true w).2
  ∧ Node ["data"; "a.log"] RegularFile 100 false
    ∉ fs (Housekeeper.housekeep_by_age d_data 1 true w).2.
Proof.
  cbv zeta.
  assert (Hwf : wf_fs (fs (demo_world (150 + us_per_day) ["y"])))
    by (unfold wf_fs; apply (bool_decide_unpack _); vm_compute; exact I).
  pose proof (age_removes_only_candidates d_data 1 true
                (demo_world (150 + us_per_day) ["y"])) as (_ & _ & Hkeep).
  split_and!; [exact Hwf | | |].
  - apply (Hkeep Hwf); [in_list|]. vm_compute. intros [_ ?]. done.
  - apply (Hkeep Hwf); [in_list|]. intros [H _]. discriminate H.
  - assert (Hfs : fs (Housekeeper.housekeep_by_age d_data 1 true
                        (demo_world (150 + us_per_day) ["y"])).2
                  = [ Node ["data"] Directory 0 false;
                      Node ["data"; "sub"] Directory 0 false;
                      Node ["data"; "sub"; "b.log"] RegularFile 200 true;
                      Node ["data"; "c.log"] RegularFile 300 false ])
      by (vm_compute; reflexivity).
    rewrite Hfs. intros H. rewrite !elem_of_cons in H.
    destruct H as [?|[?|[?|[?|H]]]]; try done. by apply elem_of_nil in H.
Defined.

Lemma count_partition d keep w :
  discovered d w ≡ₚ retained_by_count d keep w ++ eligible_by_count d keep w.
Proof.
  unfold retained_by_count, eligible_by_count.
  by rewrite slice_split, sort_desc_perm.
Qed.

Lemma eligible_by_count_discovered d keep w x :
  x ∈ eligible_by_count d keep w → x ∈ discovered d w.
Proof. intros Hx. rewrite (count_partition d keep w). apply elem_of_app. by right. Qed.

Lemma retained_by_count_discovered d keep w x :
  x ∈ retained_by_count d keep w → x ∈ discovered d w.
Proof. intros Hx. rewrite (count_partition d keep w). apply elem_of_app. by left. Qed.

(** Under unique paths no path is both kept and a candidate. *)
Lemma count_partition_disjoint d keep w x :
  wf_fs (fs w) →
  x ∈ retained_by_count d keep w → x.1 ∉ (eligible_by_count d keep w).*1.
Proof.
  intros Hwf Hx. pose proof (discovered_NoDup d w Hwf) as Hnd.
  rewrite (count_partition d keep w), fmap_app in Hnd.
  apply NoDup_app in Hnd as (_ & Hdisj & _).
  apply Hdisj. by apply list_elem_of_fmap_2.
Qed.

(** X2: whatever the answers and failures, [housekeep_by_count] creates
    and changes nothing and removes nothing but its candidates: every node
    that does not lie below the directory stays, and in a file system with
    unique paths so do every directory and every file among the
    [keep_count] it retains. *)
Theorem count_removes_only_candidates (d : path) (keep : Z) (confirm : bool)
    (w : world) :
  let out := Housekeeper.housekeep_by_count d keep confirm w in
  removes_only (eligible_by_count d keep w).*1 w out
  ∧ (∀ n, n ∈ fs w → ¬ below d (n_path n) → n ∈ fs out.2)
  ∧ (wf_fs (fs w) → ∀ n, n ∈ fs w → n_kind n = Directory → n ∈ fs out.2)
  ∧ (wf_fs (fs w) →
     ∀ n, n ∈ fs w → (n_path n, st_mtime n) ∈ retained_by_count d keep w →
          n ∈ fs out.2).
Proof.
  cbv zeta.
  assert (Hro : removes_only (eligible_by_count d keep w).*1 w
                  (Housekeeper.housekeep_by_count d keep confirm w)).
  { apply outcome_removes_only.
    destruct (by_count_outcome d keep confirm w) as [(? & _) | (_ & ? & _)]; auto. }
  assert (Hfile : ∀ p, p ∈ (eligible_by_count d keep w).*1 →
            ∃ m, n_path m = p ∧ is_file m ∧ m ∈ OS.entries d (fs w)).
  { intros p Hp. apply list_elem_of_fmap in Hp as (x & -> & Hx).
    apply eligible_by_count_discovered, elem_of_discovered in Hx
      as (m & -> & ? & ?). by exists m. }
  split_and!; [exact Hro | | |].
  - intros n Hn Hb. apply Hro; [done|]. intros Hp.
    apply Hfile in Hp as (m & Hm & _ & Hel).
    apply entries_strictly_below in Hel. by rewrite Hm in Hel.
  - intros Hwf n Hn Hdir. apply Hro; [done|]. intros Hp.
    apply Hfile in Hp as (m & Hm & Hf & Hel).
    apply entries_below in Hel as [Hel _].
    assert (m = n) as -> by (by eapply (NoDup_fmap_inj n_path)).
    unfold is_file in Hf. congruence.
  - intros Hwf n Hn Hkept. apply Hro; [done|].
    exact (count_partition_disjoint d keep w _ Hwf Hkept).
Qed.

Lemma count_removes_only_candidates_witness :
  let w := demo_world 0 ["y"] in
  wf_fs (fs w)
  ∧ (["data"; "c.log"], 300) ∈ retained_by_count d_data 1 w
  ∧ Node ["data"; "c.log"] RegularFile 300 false
    ∈ fs (Housekeeper.housekeep_by_count d_data 1 true w).2.
Proof.
  cbv zeta.
  assert (Hwf : wf_fs (fs (demo_world 0 ["y"])))
    by (unfold wf_fs; apply (bool_decide_unpack _); vm_compute; exact I).
  assert (Hk : (["data"; "c.log"], 300) ∈ retained_by_count d_data 1 (demo_world 0 ["y"]))
    by (vm_compute; left).
  pose proof (count_removes_only_candidates d_data 1 true (demo_world 0 ["y"]))
    as (_ & _ & _ & Hkeep).
  split_and!; [exact Hwf | exact Hk |].
  apply (Hkeep Hwf (Node ["data"; "c.log"] RegularFile 300 false)); [in_list | exact Hk].
Defined.

(** ** The returned count *)

(** X3: in a file system with unique paths, the number either method
    returns is the number of nodes that left the file system; it is never
    negative and never exceeds the number of candidates. *)
Theorem returned_count_is_files_gone (d : path) (days keep : Z) (confirm : bool)
    (w : world) :
  wf_fs (fs w) →
  counts_files_gone (Py.len (eligible_by_age d days w)) w
    (Housekeeper.housekeep_by_age d days confirm w)
  ∧ counts_files_gone (Py.len (eligible_by_count d keep w)) w
      (Housekeeper.housekeep_by_count d keep confirm w).
Proof.
  intros Hwf. split.
  - replace (Py.len (eligible_by_age d days w))
      with (Py.len (n_path <$> eligible_by_age d days w))
      by (unfold Py.len; by rewrite length_fmap).
    apply outcome_counts; [done|].
    destruct (by_age_outcome d days confirm w) as [(? & _ & ?) | (? & ? & _)]; auto.
  - replace (Py.len (eligible_by_count d keep w))
      with (Py.len (eligible_by_count d keep w).*1)
      by (unfold Py.len; by rewrite length_fmap).
    apply outcome_counts; [done|].
    destruct (by_count_outcome d keep confirm w) as [(? & _ & ?) | (? & ? & _)]; auto.
Qed.

Lemma returned_count_is_files_gone_witness :
  let w := demo_world (1000 + us_per_day) [] in
  wf_fs (fs w)
  ∧ (Housekeeper.housekeep_by_age d_data 1 false w).1 = Return 2
  ∧ Py.len (fs (Housekeeper.housekeep_by_age d_data 1 false w).2) + 2 = Py.len (fs w).
Proof.
  cbv zeta.
  assert (Hwf : wf_fs (fs (demo_world (1000 + us_per_day) [])))
    by (unfold wf_fs; apply (bool_decide_unpack _); vm_compute; exact I).
  pose proof (returned_count_is_files_gone d_data 1 0 false
                (demo_world (1000 + us_per_day) []) Hwf) as [Ha _].
  split_and!; [exact Hwf | reflexivity | exact (proj2 (Ha 2 eq_refl))].
Defined.

(** ** Confirmation, further *)

Lemma outcomes_agree files w (out1 out2 : result Z * world) :
  (out1.1 = Return (loop_run files (fs w)).2 ∧ fs out1.2 = (loop_run files (fs w)).1.2
   ∧ ∃ pre, log out1.2 = log w ++ pre ++ (loop_run files (fs w)).1.1 ∧ removes pre = []) →
  (out2.1 = Return (loop_run files (fs w)).2 ∧ fs out2.2 = (loop_run files (fs w)).1.2
   ∧ ∃ pre, log out2.2 = log w ++ pre ++ (loop_run files (fs w)).1.1 ∧ removes pre = []) →
  same_deletions w out1 out2.
Proof.
  intros (Hr1 & Hf1 & pre1 & Hl1 & Hp1) (Hr2 & Hf2 & pre2 & Hl2 & Hp2).
  unfold same_deletions. rewrite Hr1, Hr2, Hf1, Hf2. split_and!; try done.
  eexists _, _. split_and!; [exact Hl1 | exact Hl2 |].
  by rewrite !removes_app, Hp1, Hp2.
Qed.

(** X4: an answer whose lower-case form is "y" makes a confirmed call
    delete exactly what the unconfirmed call deletes: same value returned,
    same file system left, same [os.remove] calls with the same outcomes. *)
Theorem yes_deletes_as_unconfirmed (d : path) (days keep : Z) (w : world)
    (r : string) (rest : list string) :
  stdin w = r :: rest →
  Py.lower r = "y" →
  same_deletions w (Housekeeper.housekeep_by_age d days true w)
                   (Housekeeper.housekeep_by_age d days false w)
  ∧ same_deletions w (Housekeeper.housekeep_by_count d keep true w)
                     (Housekeeper.housekeep_by_count d keep false w).
Proof.
  intros Hin Hr.
  assert (Hyes : proceeds true w) by (right; eauto).
  assert (Hno : proceeds false w) by (by left).
  destruct (find_node d (fs w)) as [nd|] eqn:Hd.
  - assert (Hs : is_Some (find_node d (fs w))) by (by rewrite Hd).
    split; eapply outcomes_agree;
      eauto using by_age_deletes, by_count_deletes.
  - rewrite !by_age_missing, !by_count_missing by done.
    split; (split_and!; [done | done |]);
      exists [Exists d false], [Exists d false]; done.
Qed.

Lemma yes_deletes_as_unconfirmed_witness :
  let w := demo_world (1000 + us_per_day) ["Y"] in
  (stdin w = ["Y"] ∧ Py.lower "Y" = "y")
  ∧ (Housekeeper.housekeep_by_age d_data 1 true w).1
    = (Housekeeper.housekeep_by_age d_data 1 false w).1
  ∧ (Housekeeper.housekeep_by_age d_data 1 true w).1 = Return 2.
Proof.
  cbv zeta.
  pose proof (yes_deletes_as_unconfirmed d_data 1 0 (demo_world (1000 + us_per_day) ["Y"])
                "Y" [] eq_refl eq_refl) as [(Ha & _) _].
  split_and!; [reflexivity | reflexivity | exact Ha | reflexivity].
Defined.

(** X5: with [confirm = True], candidates present and standard input at
    its end, the question cannot be answered: [EOFError] reaches the
    caller and nothing is removed.  [cleanup_directory], which always
    confirms, behaves the same. *)
Theorem closed_stdin_aborts (d : path) (days keep : Z) (other : option Z) (w : world) :
  is_Some (find_node d (fs w)) →
  stdin w = [] →
  (eligible_by_age d days w ≠ [] →
   aborted_on_eof w (Housekeeper.housekeep_by_age d days true w)
   ∧ aborted_on_eof w (cleanup_directory d (Some days) other w))
  ∧ (keep < Py.len (discovered d w) →
     aborted_on_eof w (Housekeeper.housekeep_by_count d keep true w)
     ∧ aborted_on_eof w (cleanup_directory d None (Some keep) w)).
Proof.
  intros Hd Hin. split; intros He.
  - assert (Ha : aborted_on_eof w (Housekeeper.housekeep_by_age d days true w)); [|done].
    rewrite by_age_asks, answer_spec by done. simpl stdin. rewrite Hin.
    unfold aborted_on_eof. simpl. split; [by eexists|]. split; [done|].
    rewrite !removes_app, removes_age_preview. simpl. by rewrite !app_nil_r.
  - assert (Ha : aborted_on_eof w (Housekeeper.housekeep_by_count d keep true w)); [|done].
    rewrite by_count_asks, answer_spec by done. simpl stdin. rewrite Hin.
    unfold aborted_on_eof. simpl. split; [by eexists|]. split; [done|].
    rewrite !removes_app. simpl. by rewrite !app_nil_r.
Qed.

Lemma closed_stdin_aborts_witness :
  let w := demo_world (1000 + us_per_day) [] in
  (is_Some (find_node d_data (fs w)) ∧ stdin w = []
   ∧ eligible_by_age d_data 1 w ≠ [])
  ∧ aborted_on_eof w (cleanup_directory d_data (Some 1) None w).
Proof.
  cbv zeta.
  assert (H1 : is_Some (find_node d_data (fs (demo_world (1000 + us_per_day) []))))
    by (vm_compute; eauto).
  assert (H2 : eligible_by_age d_data 1 (demo_world (1000 + us_per_day) []) ≠ [])
    by (vm_compute; discriminate).
  pose proof (closed_stdin_aborts d_data 1 0 None
                (demo_world (1000 + us_per_day) []) H1 eq_refl) as [Ha _].
  split_and!; [exact H1 | reflexivity | exact H2 | exact (proj2 (Ha H2))].
Defined.

Lemma prompts_age_preview days files : prompts (age_preview days files) = [].
Proof.
  unfold age_preview. simpl. rewrite prompts_app.
  assert (∀ lines, prompts (Print <$> lines) = []) as ->
    by (induction lines; simpl; done).
  by destruct (5 <? Py.len files).
Qed.

Lemma prompts_loop_run files : ∀ l, prompts (loop_run files l).1.1 = [].
Proof.
  induction files as [|p rest IH]; intros l; simpl; [done|].
  destruct (remove_error p l); simpl; apply IH.
Qed.

(** X6: without confirmation neither method asks a question or reads
    standard input, in any state of the world; with confirmation at most
    one question is asked and at most one line read. *)
Theorem input_is_read_at_most_once (d : path) (days keep : Z) (confirm : bool)
    (w : world) :
  (confirm = false →
   silent w (Housekeeper.housekeep_by_age d days confirm w)
   ∧ silent w (Housekeeper.housekeep_by_count d keep confirm w))
  ∧ asks_at_most_once w (Housekeeper.housekeep_by_age d days confirm w)
  ∧ asks_at_most_once w (Housekeeper.housekeep_by_count d keep confirm w).
Proof.
  assert (Hage : ∀ c, (c = false → silent w (Housekeeper.housekeep_by_age d days c w))
                      ∧ asks_at_most_once w (Housekeeper.housekeep_by_age d days c w)).
  { intros c. unfold asks_at_most_once, silent.
    destruct (find_node d (fs w)) as [nd|] eqn:Hd.
    2: { rewrite by_age_missing by done. simpl. rewrite prompts_app. simpl.
         rewrite app_nil_r. auto. }
    assert (Hs : is_Some (find_node d (fs w))) by (by rewrite Hd).
    destruct (decide (eligible_by_age d days w = [])) as [He|He].
    { rewrite by_age_nothing by done. simpl. rewrite !prompts_app. simpl.
      rewrite !app_nil_r. auto. }
    destruct c.
    - split; [done|]. rewrite by_age_asks, answer_spec by done. simpl stdin.
      pose proof (prompts_age_preview days (n_path <$> eligible_by_age d days w)) as Hpv.
      right. destruct (stdin w) as [|r rest] eqn:Hin.
      + unfold emit. cbn [fst snd stdin log asking_age scanned_age emit].
        rewrite !prompts_app, Hpv, Hin. simpl. by rewrite !app_nil_r.
      + cbv zeta. destruct (decide (Py.lower r = "y")).
        * unfold emit. cbn [fst snd stdin log asking_age scanned_age emit fs clock].
          rewrite !delete_loop_run. cbn [fst snd stdin log fs clock].
          rewrite !prompts_app, prompts_loop_run, Hpv. simpl. by rewrite !app_nil_r.
        * unfold emit. cbn [fst snd stdin log asking_age scanned_age emit fs clock].
          rewrite !prompts_app, Hpv. simpl. by rewrite !app_nil_r.
    - rewrite by_age_unconfirmed, delete_loop_run by done.
      cbn [fst snd stdin log scanned_age emit].
      rewrite !prompts_app, prompts_loop_run. simpl. rewrite !app_nil_r. auto. }
  assert (Hcount : ∀ c, (c = false → silent w (Housekeeper.housekeep_by_count d keep c w))
                        ∧ asks_at_most_once w (Housekeeper.housekeep_by_count d keep c w)).
  { intros c. unfold asks_at_most_once, silent.
    destruct (find_node d (fs w)) as [nd|] eqn:Hd.
    2: { rewrite by_count_missing by done. simpl. rewrite prompts_app. simpl.
         rewrite app_nil_r. auto. }
    assert (Hs : is_Some (find_node d (fs w))) by (by rewrite Hd).
    destruct (Z.le_gt_cases (Py.len (discovered d w)) keep) as [He|He].
    { rewrite by_count_nothing by done. simpl. rewrite !prompts_app. simpl.
      rewrite !app_nil_r. auto. }
    destruct c.
    - split; [done|]. rewrite by_count_asks, answer_spec by (done || lia). simpl stdin.
      right. destruct (stdin w) as [|r rest] eqn:Hin.
      + simpl. rewrite !prompts_app, Hin. simpl. by rewrite !app_nil_r.
      + cbv zeta. destruct (decide (Py.lower r = "y")).
        * unfold emit. cbn [fst snd stdin log asking_count scanned_count emit fs clock].
          rewrite !delete_loop_run. cbn [fst snd stdin log fs clock].
          rewrite !prompts_app, prompts_loop_run. simpl. by rewrite !app_nil_r.
        * simpl. rewrite !prompts_app. simpl. by rewrite !app_nil_r.
    - rewrite by_count_unconfirmed, delete_loop_run by (done || lia).
      cbn [fst snd stdin log scanned_count emit].
      rewrite !prompts_app, prompts_loop_run. simpl. rewrite !app_nil_r. auto. }
  split_and!; [intros ->; split; [by apply Hage | by apply Hcount]
              | apply Hage | apply Hcount].
Qed.

Lemma input_is_read_at_most_once_witness :
  let w := demo_world (1000 + us_per_day) ["y"; "y"] in
  silent w (Housekeeper.housekeep_by_age d_data 1 false w)
  ∧ stdin (Housekeeper.housekeep_by_age d_data 1 true w).2 = ["y"].
Proof.
  cbv zeta.
  pose proof (input_is_read_at_most_once d_data 1 0 false
                (demo_world (1000 + us_per_day) ["y"; "y"])) as (Hs & _).
  split; [exact (proj1 (Hs eq_refl)) | reflexivity].
Defined.

(** ** Reporting of failures *)

(** X7: in the deletion phase of either method, every failed [os.remove]
    is followed at once by one printed line "Error deleting <path>: <error>"
    naming that file, every successful one by nothing, and the loop goes
    through the candidates in order; no [os.remove] precedes the loop. *)
Theorem failures_are_reported (d : path) (days keep : Z) (confirm : bool) (w : world) :
  is_Some (find_node d (fs w)) →
  proceeds confirm w →
  ends_with_loop (n_path <$> eligible_by_age d days w) w
    (Housekeeper.housekeep_by_age d days confirm w)
  ∧ ends_with_loop (eligible_by_count d keep w).*1 w
      (Housekeeper.housekeep_by_count d keep confirm w).
Proof.
  intros Hd Hgo. split.
  - destruct (by_age_deletes d days confirm w Hd Hgo) as (_ & _ & pre & Hlog & Hpre).
    exists pre, (loop_run (n_path <$> eligible_by_age d days w) (fs w)).1.1.
    split_and!; [done | done | apply loop_run_trace].
  - destruct (by_count_deletes d keep confirm w Hd Hgo) as (_ & _ & pre & Hlog & Hpre).
    exists pre, (loop_run (eligible_by_count d keep w).*1 (fs w)).1.1.
    split_and!; [done | done | apply loop_run_trace].
Qed.

Lemma failures_are_reported_witness :
  let w := demo_world (1000 + us_per_day) [] in
  (is_Some (find_node d_data (fs w)) ∧ proceeds false w)
  ∧ ends_with_loop [["data"; "a.log"]; ["data"; "sub"; "b.log"]; ["data"; "c.log"]] w
      (Housekeeper.housekeep_by_age d_data 1 false w)
  ∧ printed (log (Housekeeper.housekeep_by_age d_data 1 false w).2)
    = ["Error deleting /data/sub/b.log: [Errno 13] Permission denied: '/data/sub/b.log'"].
Proof.
  cbv zeta.
  assert (H1 : is_Some (find_node d_data (fs (demo_world (1000 + us_per_day) []))))
    by (vm_compute; eauto).
  assert (H2 : proceeds false (demo_world (1000 + us_per_day) [])) by (by left).
  pose proof (failures_are_reported d_data 1 0 false
                (demo_world (1000 + us_per_day) []) H1 H2) as [Ha _].
  split_and!; [exact H1 | exact H2 | exact Ha | reflexivity].
Defined.

(** ** The age threshold *)

Lemma older_than_mono c1 c2 l :
  c2 <= c1 → Housekeeper.older_than c2 l `sublist_of` Housekeeper.older_than c1 l.
Proof.
  intros Hc. unfold Housekeeper.older_than.
  rewrite <- (list_filter_filter_l (λ n, is_file n ∧ st_mtime n < c2)
                                   (λ n, is_file n ∧ st_mtime n < c1))
    by (intros n [? ?]; split; [done | lia]).
  apply sublist_filter.
Qed.

Lemma day_order_steps w :
  keeps_day_order w →
  ∀ k, 0 <= k → ∀ t, timestamp w (t - k * us_per_day) <= timestamp w t.
Proof.
  intros Hw. apply (natlike_ind (λ k, ∀ t, timestamp w (t - k * us_per_day)
                                           <= timestamp w t)).
  - intros t. replace (t - 0 * us_per_day) with t by lia. lia.
  - intros k Hk IH t.
    replace (t - Z.succ k * us_per_day) with ((t - k * us_per_day) - us_per_day) by lia.
    specialize (Hw (t - k * us_per_day)). specialize (IH t). lia.
Qed.

(** X8: on a host whose conversion keeps the order of wall-clock
    readings one day apart, a larger [days_old] never selects more: the
    candidates for the larger number are among those for the smaller, in
    the same order, and so are the files an unconfirmed call tries to
    remove. *)
Theorem longer_age_selects_fewer (d : path) (days1 days2 : Z) (w : world) :
  keeps_day_order w →
  days1 <= days2 →
  eligible_by_age d days2 w `sublist_of` eligible_by_age d days1 w
  ∧ ∃ evs1 evs2,
      log (Housekeeper.housekeep_by_age d days1 false w).2 = log w ++ evs1
      ∧ log (Housekeeper.housekeep_by_age d days2 false w).2 = log w ++ evs2
      ∧ (removes evs2).*1 `sublist_of` (removes evs1).*1.
Proof.
  intros Hw Hdays.
  assert (Hsub : eligible_by_age d days2 w `sublist_of` eligible_by_age d days1 w).
  { apply older_than_mono. unfold cutoff.
    pose proof (day_order_steps w Hw (days2 - days1) ltac:(lia)
                  (clock w - days1 * us_per_day)) as Hle.
    replace (clock w - days1 * us_per_day - (days2 - days1) * us_per_day)
      with (clock w - days2 * us_per_day) in Hle by lia.
    exact Hle. }
  split; [exact Hsub|].
  destruct (find_node d (fs w)) as [nd|] eqn:Hd.
  - assert (Hs : is_Some (find_node d (fs w))) by (by rewrite Hd).
    destruct (by_age_attempts d days1 false w Hs) as (evs1 & Hl1 & Hp1 & _); [by left|].
    destruct (by_age_attempts d days2 false w Hs) as (evs2 & Hl2 & Hp2 & _); [by left|].
    exists evs1, evs2. split_and!; [done | done |].
    rewrite Hp1, Hp2. by apply fmap_sublist.
  - rewrite !by_age_missing by done.
    exists [Exists d false], [Exists d false]. done.
Qed.

Lemma longer_age_selects_fewer_witness :
  let w := demo_world (1000 + us_per_day) [] in
  keeps_day_order w
  ∧ 1 <= 2
  ∧ length (eligible_by_age d_data 1 w) = 3%nat
  ∧ eligible_by_age d_data 2 w `sublist_of` eligible_by_age d_data 1 w.
Proof.
  cbv zeta.
  assert (Hw : keeps_day_order (demo_world (1000 + us_per_day) [])).
  { intros t. unfold demo_world, utc, us_per_day. cbn [timestamp]. lia. }
  assert (H : 1 <= 2) by lia.
  pose proof (longer_age_selects_fewer d_data 1 2 (demo_world (1000 + us_per_day) [])
                Hw H) as [Hsub _].
  split_and!; [exact Hw | exact H | reflexivity | exact Hsub].
Defined.

(** The condition on the host is needed.  With the zone set to
    [AAA12BBB-14,M3.5.0,M10.5.0] the wall clock jumps 26 hours ahead on
    1 April 2024; at noon on 2 April the reading of two days before is
    converted to a later time stamp than the reading of one day before,
    and a file that [days_old = 1] leaves alone is selected with
    [days_old = 2]. *)
Example longer_age_on_a_wide_zone :
  ¬ keeps_day_order wide_zone_world
  ∧ cutoff 1 wide_zone_world < cutoff 2 wide_zone_world
  ∧ eligible_by_age d_data 1 wide_zone_world = []
  ∧ length (eligible_by_age d_data 2 wide_zone_world) = 1%nat
  ∧ (Housekeeper.housekeep_by_age d_data 1 false wide_zone_world).1 = Return 0
  ∧ (Housekeeper.housekeep_by_age d_data 2 false wide_zone_world).1 = Return 1.
Proof.
  split_and!.
  - intros H. specialize (H (1711972800 * 1000000)). vm_compute in H. by apply H.
  - vm_compute. reflexivity.
  - vm_compute. reflexivity.
  - vm_compute. reflexivity.
  - vm_compute. reflexivity.
  - vm_compute. reflexivity.
Qed.

(** ** The dispatcher, further *)

(** X9: unlike the call without a policy, [cleanup_directory] with
    [days_old] or [keep_count] given raises [FileNotFoundError] when the
    directory does not exist, having done nothing but the existence check. *)
Theorem cleanup_directory_missing (d : path) (days keep : option Z) (w : world) :
  find_node d (fs w) = None →
  is_Some days ∨ is_Some keep →
  fails_untouched d w (cleanup_directory d days keep w).
Proof.
  intros Hd Hpol.
  destruct days as [days|]; simpl.
  - rewrite by_age_missing by done. eexists. split_and!; done.
  - destruct keep as [keep|]; simpl.
    + rewrite by_count_missing by done. eexists. split_and!; done.
    + destruct Hpol as [[? ?] | [? ?]]; done.
Qed.

Lemma cleanup_directory_missing_witness :
  find_node ["nowhere"] (fs (demo_world 0 [])) = None
  ∧ fails_untouched ["nowhere"] (demo_world 0 [])
      (cleanup_directory ["nowhere"] None (Some 3) (demo_world 0 [])).
Proof.
  assert (H : find_node ["nowhere"] (fs (demo_world 0 [])) = None) by reflexivity.
  split; [exact H|].
  apply (cleanup_directory_missing ["nowhere"] None (Some 3) (demo_world 0 []) H).
  right. by eexists.
Defined.

(** ** The count policy without side conditions on the times *)

Lemma len_slice_from {A} (k : Z) (l : list A) :
  Py.len (Py.slice_from k l) =
    if 0 <=? k then Z.max 0 (Py.len l - k) else Z.min (- k) (Py.len l).
Proof.
  unfold Py.slice_from, Py.len. destruct (Z.leb_spec 0 k); rewrite length_drop; lia.
Qed.

Lemma len_slice_to {A} (k : Z) (l : list A) :
  Py.len (Py.slice_to k l) =
    if 0 <=? k then Z.min k (Py.len l) else Z.max 0 (Py.len l + k).
Proof.
  unfold Py.slice_to, Py.len. destruct (Z.leb_spec 0 k); rewrite length_take; lia.
Qed.

(** An unconfirmed [housekeep_by_count] whose candidates can all be
    removed, for any [keep_count] below the number of files. *)
Lemma count_policy_any (d : path) (keep : Z) (w : world) :
  is_Some (find_node d (fs w)) →
  wf_fs (fs w) →
  (∀ n, n ∈ fs w → n_path n ∈ (eligible_by_count d keep w).*1 → n_locked n = false) →
  keep < Py.len (discovered d w) →
  let out := Housekeeper.housekeep_by_count d keep false w in
  out.1 = Return (Py.len (eligible_by_count d keep w))
  ∧ fs out.2 = filter (λ n, n_path n ∉ (eligible_by_count d keep w).*1) (fs w)
  ∧ (∀ x y, x ∈ eligible_by_count d keep w → y ∈ retained_by_count d keep w →
            x.2 <= y.2)
  ∧ discovered d out.2 ≡ₚ retained_by_count d keep w
  ∧ is_Some (find_node d (fs out.2))
  ∧ wf_fs (fs out.2).
Proof.
  intros Hd Hwf Hunl Hlt. cbv zeta.
  pose proof (count_partition d keep w) as Hpart.
  pose proof (discovered_NoDup d w Hwf) as Hnd.
  rewrite Hpart, fmap_app in Hnd. apply NoDup_app in Hnd as (Hndk & Hdisj & Hndd).
  assert (Hfound : ∀ p, p ∈ (eligible_by_count d keep w).*1 →
            ∃ n, find_node p (fs (scanned_count d w)) = Some n
                 ∧ is_file n ∧ n_locked n = false).
  { intros p Hp. pose proof Hp as Hp'.
    apply list_elem_of_fmap in Hp as (x & -> & Hx).
    apply eligible_by_count_discovered, elem_of_discovered in Hx
      as (n & -> & Hfile & Hn).
    apply entries_below in Hn as [Hn _].
    exists n. split_and!; [by apply find_node_NoDup | done | by apply Hunl]. }
  assert (Hnotd : ∀ n, n_path n = d → n_path n ∉ (eligible_by_count d keep w).*1).
  { intros n Hn Hp. apply list_elem_of_fmap in Hp as (x & Hx1 & Hx).
    apply eligible_by_count_discovered, elem_of_discovered in Hx as (m & -> & _ & Hm).
    apply entries_below in Hm as [_ Hm]. simpl in Hx1. congruence. }
  assert (Hwf' : wf_fs (filter (λ n, n_path n ∉ (eligible_by_count d keep w).*1) (fs w))).
  { eapply sublist_NoDup; [exact Hwf|]. apply fmap_sublist, sublist_filter. }
  rewrite by_count_unconfirmed, delete_loop_all_succeed by done.
  cbn [fst snd fs]. split_and!.
  - f_equal. unfold Py.len. rewrite length_fmap. lia.
  - reflexivity.
  - intros x y Hx Hy.
    pose proof (sort_desc_sorted snd (discovered d w)) as Hsorted.
    rewrite <- (slice_split keep) in Hsorted.
    exact (StronglySorted_app_1_elem_of _ _ _ _ _ Hsorted Hy Hx).
  - apply NoDup_Permutation.
    + apply (NoDup_fmap_1 fst). by apply discovered_NoDup.
    + by apply (NoDup_fmap_1 fst).
    + intros x. unfold discovered at 1. cbn [fs].
      rewrite entries_filter by exact Hnotd.
      unfold Housekeeper.files_with_mtime. rewrite list_elem_of_fmap. split.
      * intros (n & -> & Hn).
        apply list_elem_of_filter in Hn as [Hfile Hn].
        apply list_elem_of_filter in Hn as [Hq Hn].
        assert (Hx : (n_path n, st_mtime n) ∈ discovered d w)
          by (apply elem_of_discovered; eauto).
        rewrite Hpart in Hx. apply elem_of_app in Hx as [Hx | Hx]; [done|].
        destruct Hq. by apply (list_elem_of_fmap_2 fst) in Hx.
      * intros Hx.
        pose proof (retained_by_count_discovered _ _ _ _ Hx) as Hx'.
        apply elem_of_discovered in Hx' as (n & -> & Hfile & Hn).
        exists n. rewrite !list_elem_of_filter. split_and!; try done.
        apply (Hdisj (n_path n)). by apply (list_elem_of_fmap_2 fst) in Hx.
  - rewrite find_node_filter by exact Hnotd. exact Hd.
  - exact Hwf'.
Qed.

(** X10: the count policy holds without any condition on the
    modification times.  With [0 <= keep_count < N] and removable
    candidates, an unconfirmed [housekeep_by_count] returns
    [N - keep_count], leaves exactly [keep_count] files below the directory,
    and no file it removes is newer than a file it keeps; with
    [keep_count = 0] no file is left below the directory. *)
Theorem count_policy_with_ties (d : path) (keep : Z) (w : world) :
  is_Some (find_node d (fs w)) →
  wf_fs (fs w) →
  (∀ n, n ∈ fs w → n_path n ∈ (eligible_by_count d keep w).*1 → n_locked n = false) →
  0 <= keep < Py.len (discovered d w) →
  let out := Housekeeper.housekeep_by_count d keep false w in
  out.1 = Return (Py.len (discovered d w) - keep)
  ∧ (∀ x y, x ∈ eligible_by_count d keep w → y ∈ retained_by_count d keep w →
            x.2 <= y.2)
  ∧ discovered d out.2 ≡ₚ retained_by_count d keep w
  ∧ Py.len (discovered d out.2) = keep
  ∧ (keep = 0 → discovered d out.2 = []).
Proof.
  intros Hd Hwf Hunl [Hk0 HkN]. cbv zeta.
  destruct (count_policy_any d keep w Hd Hwf Hunl HkN) as (Hr & _ & Hord & Hkept & _).
  assert (Hlen : Py.len (discovered d (Housekeeper.housekeep_by_count d keep false w).2)
                 = keep).
  { unfold Py.len at 1. rewrite Hkept. fold (Py.len (retained_by_count d keep w)).
    unfold retained_by_count. rewrite len_slice_to, len_sort_desc.
    destruct (Z.leb_spec 0 keep); lia. }
  split_and!; try done.
  - rewrite Hr. f_equal. unfold eligible_by_count.
    rewrite len_slice_from, len_sort_desc. destruct (Z.leb_spec 0 keep); lia.
  - intros ->. unfold Py.len in Hlen.
    by destruct (discovered d (Housekeeper.housekeep_by_count d 0 false w).2).
Qed.

Lemma count_policy_with_ties_witness :
  let w := World aging_fs 0 utc [] [] in
  (is_Some (find_node d_data (fs w)) ∧ wf_fs (fs w) ∧ 0 <= 1 < Py.len (discovered d_data w))
  ∧ (Housekeeper.housekeep_by_count d_data 1 false w).1 = Return 2
  ∧ discovered d_data (Housekeeper.housekeep_by_count d_data 1 false w).2
    = [(["data"; "new1.log"], 100)].
Proof.
  cbv zeta.
  assert (H1 : is_Some (find_node d_data (fs (World aging_fs 0 utc [] []))))
    by (vm_compute; eauto).
  assert (H2 : wf_fs (fs (World aging_fs 0 utc [] [])))
    by (unfold wf_fs; apply (bool_decide_unpack _); vm_compute; exact I).
  assert (H3 : ∀ n, n ∈ fs (World aging_fs 0 utc [] []) →
                 n_path n ∈ (eligible_by_count d_data 1 (World aging_fs 0 utc [] [])).*1 →
                 n_locked n = false).
  { intros n Hn _. simpl in Hn. unfold aging_fs in Hn.
    repeat (apply elem_of_cons in Hn as [-> | Hn]; [reflexivity|]).
    by apply elem_of_nil in Hn. }
  assert (H4 : 0 <= 1 < Py.len (discovered d_data (World aging_fs 0 utc [] [])))
    by (vm_compute; split; [discriminate | reflexivity]).
  pose proof (count_policy_with_ties d_data 1 (World aging_fs 0 utc [] []) H1 H2 H3 H4)
    as (Hr & _).
  split_and!; [exact H1 | exact H2 | apply H4 | apply H4 | exact Hr | reflexivity].
Defined.

(** X11: a negative [keep_count] is not rejected.  The early return is
    never taken; Python's slice [files[keep_count:]] then selects the
    [-keep_count] oldest files, all of them when there are fewer: with
    removable candidates an unconfirmed call returns
    [min (-keep_count) N], keeps the other files, and removes none that is
    newer than one it keeps.  With [confirm = True] the question is asked
    even in a directory without files. *)
Theorem negative_keep_count_removes_oldest (d : path) (keep : Z) (w : world) :
  is_Some (find_node d (fs w)) →
  keep < 0 →
  Input "Proceed? (y/N): " (head (stdin w))
  ∈ log (Housekeeper.housekeep_by_count d keep true w).2
  ∧ (wf_fs (fs w) →
     (∀ n, n ∈ fs w → n_path n ∈ (eligible_by_count d keep w).*1 → n_locked n = false) →
     let out := Housekeeper.housekeep_by_count d keep false w in
     out.1 = Return (Z.min (- keep) (Py.len (discovered d w)))
     ∧ (∀ x y, x ∈ eligible_by_count d keep w → y ∈ retained_by_count d keep w →
               x.2 <= y.2)
     ∧ discovered d out.2 ≡ₚ retained_by_count d keep w
     ∧ Py.len (discovered d out.2) = Z.max 0 (Py.len (discovered d w) + keep)).
Proof.
  intros Hd Hneg.
  assert (Hlt : keep < Py.len (discovered d w)) by (unfold Py.len; lia).
  split.
  - rewrite by_count_asks by done.
    destruct (answer_asks (eligible_by_count d keep w).*1 (asking_count d keep w))
      as (evs & ->).
    apply elem_of_app. right. left.
  - intros Hwf Hunl. cbv zeta.
    destruct (count_policy_any d keep w Hd Hwf Hunl Hlt) as (Hr & _ & Hord & Hkept & _).
    split_and!; try done.
    + rewrite Hr. f_equal. unfold eligible_by_count.
      rewrite len_slice_from, len_sort_desc. by destruct (Z.leb_spec 0 keep); [lia|].
    + unfold Py.len at 1. rewrite Hkept. fold (Py.len (retained_by_count d keep w)).
      unfold retained_by_count. rewrite len_slice_to, len_sort_desc.
      by destruct (Z.leb_spec 0 keep); [lia|].
Qed.

Lemma negative_keep_count_removes_oldest_witness :
  let w := World aging_fs 0 utc [] [] in
  (is_Some (find_node d_data (fs w)) ∧ -5 < 0 ∧ wf_fs (fs w))
  ∧ (Housekeeper.housekeep_by_count d_data (-5) false w).1 = Return 3
  ∧ discovered d_data (Housekeeper.housekeep_by_count d_data (-5) false w).2 = [].
Proof.
  cbv zeta.
  assert (H1 : is_Some (find_node d_data (fs (World aging_fs 0 utc [] []))))
    by (vm_compute; eauto).
  assert (H2 : wf_fs (fs (World aging_fs 0 utc [] [])))
    by (unfold wf_fs; apply (bool_decide_unpack _); vm_compute; exact I).
  assert (H3 : ∀ n, n ∈ fs (World aging_fs 0 utc [] []) →
                 n_path n ∈ (eligible_by_count d_data (-5) (World aging_fs 0 utc [] [])).*1 →
                 n_locked n = false).
  { intros n Hn _. simpl in Hn. unfold aging_fs in Hn.
    repeat (apply elem_of_cons in Hn as [-> | Hn]; [reflexivity|]).
    by apply elem_of_nil in Hn. }
  assert (H4 : -5 < 0) by lia.
  pose proof (negative_keep_count_removes_oldest d_data (-5) (World aging_fs 0 utc [] [])
                H1 H4) as [_ Hrun].
  destruct (Hrun H2 H3) as (Hr & _).
  split_and!; [exact H1 | exact H4 | exact H2 | exact Hr | reflexivity].
Defined.

(** X12: [housekeep_by_count] is idempotent.  After an unconfirmed call
    with a non-negative [keep_count] whose candidates could all be removed,
    a second call with the same [keep_count], confirmed or not, finds at
    most [keep_count] files: it returns 0 without asking and without
    calling [os.remove]. *)
Theorem count_policy_idempotent (d : path) (keep : Z) (confirm : bool) (w : world) :
  is_Some (find_node d (fs w)) →
  wf_fs (fs w) →
  (∀ n, n ∈ fs w → n_path n ∈ (eligible_by_count d keep w).*1 → n_locked n = false) →
  0 <= keep →
  let out := Housekeeper.housekeep_by_count d keep false w in
  quiet out.2 (Housekeeper.housekeep_by_count d keep confirm out.2).
Proof.
  intros Hd Hwf Hunl Hk0. cbv zeta.
  assert (Hquiet : ∀ w', is_Some (find_node d (fs w')) →
            Py.len (discovered d w') <= keep →
            quiet w' (Housekeeper.housekeep_by_count d keep confirm w')).
  { intros w' Hd' Hle. rewrite by_count_nothing by done. unfold quiet. simpl.
    rewrite !prompts_app, !removes_app. simpl. by rewrite !app_nil_r. }
  destruct (Z.le_gt_cases (Py.len (discovered d w)) keep) as [Hle|Hgt].
  - rewrite (by_count_nothing d keep false w) by done. cbn [snd].
    apply Hquiet; [exact Hd | exact Hle].
  - assert (Hlt : keep < Py.len (discovered d w)) by lia.
    destruct (count_policy_any d keep w Hd Hwf Hunl Hlt) as (_ & _ & _ & Hkept & Hd' & _).
    apply Hquiet; [exact Hd'|].
    unfold Py.len at 1. rewrite Hkept. fold (Py.len (retained_by_count d keep w)).
    unfold retained_by_count. rewrite len_slice_to, len_sort_desc.
    destruct (Z.leb_spec 0 keep); lia.
Qed.

Lemma count_policy_idempotent_witness :
  let w := World aging_fs 0 utc ["y"] [] in
  (is_Some (find_node d_data (fs w)) ∧ wf_fs (fs w) ∧ 0 <= 1)
  ∧ (Housekeeper.housekeep_by_count d_data 1 false w).1 = Return 2
  ∧ quiet (Housekeeper.housekeep_by_count d_data 1 false w).2
      (Housekeeper.housekeep_by_count d_data 1 true
         (Housekeeper.housekeep_by_count d_data 1 false w).2).
Proof.
  cbv zeta.
  assert (H1 : is_Some (find_node d_data (fs (World aging_fs 0 utc ["y"] []))))
    by (vm_compute; eauto).
  assert (H2 : wf_fs (fs (World aging_fs 0 utc ["y"] [])))
    by (unfold wf_fs; apply (bool_decide_unpack _); vm_compute; exact I).
  assert (H3 : ∀ n, n ∈ fs (World aging_fs 0 utc ["y"] []) →
                 n_path n ∈ (eligible_by_count d_data 1 (World aging_fs 0 utc ["y"] [])).*1 →
                 n_locked n = false).
  { intros n Hn _. simpl in Hn. unfold aging_fs in Hn.
    repeat (apply elem_of_cons in Hn as [-> | Hn]; [reflexivity|]).
    by apply elem_of_nil in Hn. }
  assert (H4 : 0 <= 1) by lia.
  pose proof (count_policy_idempotent d_data 1 true (World aging_fs 0 utc ["y"] [])
                H1 H2 H3 H4) as Hq.
  split_and!; [exact H1 | exact H2 | exact H4 | reflexivity | exact Hq].
Defined.

(** ** Files with the same modification time *)

Section Stability.
Context {A : Type} (key : A → Z).

Lemma insert_desc_stable v x l :
  filter (λ a, key a = v) (Py.insert_desc key x l)
  = filter (λ a, key a = v) (x :: l).
Proof.
  induction l as [|y l IH]; simpl; [done|].
  destruct (Z.leb_spec (key y) (key x)) as [Hle|Hgt]; [done|].
  rewrite (filter_cons _ y), IH, !(filter_cons _ x), (filter_cons _ y).
  destruct (decide (key x = v)), (decide (key y = v)); try done. lia.
Qed.

(** The sort keeps elements of equal key in their original order. *)
Lemma sort_desc_stable v l :
  filter (λ a, key a = v) (Py.sort_desc key l) = filter (λ a, key a = v) l.
Proof.
  induction l as [|x l IH]; simpl; [done|].
  by rewrite insert_desc_stable, !filter_cons, IH.
Qed.
End Stability.

(** X13: ties are broken by enumeration order.  The files of any one
    modification time, listed as kept then removed, are in the order in
    which the directory walk found them: among files of equal time
    [housekeep_by_count] keeps the ones enumerated first. *)
Theorem ties_keep_first_enumerated (d : path) (keep t : Z) (w : world) :
  filter (λ x, x.2 = t) (retained_by_count d keep w)
  ++ filter (λ x, x.2 = t) (eligible_by_count d keep w)
  = filter (λ x, x.2 = t) (discovered d w)
  ∧ (is_Some (find_node d (fs w)) →
     attempts_all (eligible_by_count d keep w).*1 w
       (Housekeeper.housekeep_by_count d keep false w)).
Proof.
  split.
  - unfold retained_by_count, eligible_by_count.
    by rewrite <- filter_app, slice_split, sort_desc_stable.
  - intros Hd. apply by_count_attempts; [done | by left].
Qed.

Lemma ties_keep_first_enumerated_witness :
  let w := World aging_fs 0 utc [] [] in
  is_Some (find_node d_data (fs w))
  ∧ retained_by_count d_data 1 w = [(["data"; "new1.log"], 100)]
  ∧ attempts_all [["data"; "new2.log"]; ["data"; "old.log"]] w
      (Housekeeper.housekeep_by_count d_data 1 false w).
Proof.
  cbv zeta.
  assert (H1 : is_Some (find_node d_data (fs (World aging_fs 0 utc [] []))))
    by (vm_compute; eauto).
  pose proof (ties_keep_first_enumerated d_data 1 100 (World aging_fs 0 utc [] []))
    as [_ Hrun].
  split_and!; [exact H1 | reflexivity | exact (Hrun H1)].
Defined.

(** * py_utils.email_helper *)

Ltac smtp_run :=
  unfold send_quick_email, EmailHelper.setup_smtp, EmailHelper.send_email,
    Smtp.try_except, Smtp.try_finally, Smtp.bind, Smtp.SMTP, Smtp.SMTP_SSL,
    Smtp.login, Smtp.sendmail, Smtp.quit, Smtp.as_string, Smtp.operation,
    Smtp.ret, Smtp.raise, Smtp.record;
  cbn [Smtp.server Smtp.calls Smtp.connect_error Smtp.login_error
       Smtp.sendmail_error Smtp.quit_error Smtp.mime_error fst snd].

Ltac smtp_cases n :=
  destruct n as [[[ce|] [le|] [se|] [qe|] me] cs].

(** ** Opening the connection *)

(** X14: [setup_smtp] opens exactly one connection, over SSL exactly when
    [use_tls] is set, and calls [login] only on a plain connection and
    only when both the user name and the password are non-empty strings:
    with [use_tls = True] the credentials are never used, and a user name
    without a password is ignored. *)
Theorem login_needs_plain_and_both_credentials (host : string) (port : Z)
    (username password : option string) (use_tls : bool) (n : Smtp.net) :
  let out := EmailHelper.setup_smtp host port username password use_tls n in
  let attempted := negb use_tls && truthy username && truthy password in
  let connected := bool_decide (Smtp.connect_error (Smtp.server n) = None) in
  Smtp.calls out.2
  = Smtp.calls n ++ Smtp.Connect host port use_tls connected
      :: (if connected && attempted
          then [Smtp.Login (default "" username) (default "" password)
                  (bool_decide (Smtp.login_error (Smtp.server n) = None))]
          else [])
  ∧ (use_tls = true → logins (Smtp.calls out.2) = logins (Smtp.calls n))
  ∧ (out.1 = Smtp.Ok (Smtp.Connection host port use_tls)
     ↔ Smtp.connect_error (Smtp.server n) = None
       ∧ (attempted = true → Smtp.login_error (Smtp.server n) = None)).
Proof.
  cbv zeta. smtp_run.
  smtp_cases n; destruct use_tls, (truthy username), (truthy password);
    simpl; unfold logins; rewrite ?omap_app; simpl; rewrite ?app_nil_r.
  all: rewrite <- ?app_assoc.
  all: split_and!; try done.
  all: try (split; [done | by intros [? ?]]).
  all: try (split; [done | intros [_ H]; by specialize (H eq_refl)]).
  all: try (split; [done | intros [H _]; done]).
Qed.

Lemma login_needs_plain_and_both_credentials_witness :
  let n := Smtp.Net sound_server [] in
  logins (Smtp.calls (EmailHelper.setup_smtp "smtp.example.com" 465
                        (Some "user") (Some "secret") true n).2) = []
  ∧ logins (Smtp.calls (EmailHelper.setup_smtp "smtp.example.com" 25
                          (Some "user") (Some "secret") false n).2)
    = [("user", "secret")]
  ∧ logins (Smtp.calls (EmailHelper.setup_smtp "smtp.example.com" 25
                          (Some "user") None false n).2) = [].
Proof.
  cbv zeta.
  pose proof (login_needs_plain_and_both_credentials "smtp.example.com" 465
                (Some "user") (Some "secret") true (Smtp.Net sound_server []))
    as (_ & Htls & _).
  split_and!; [exact (Htls eq_refl) | reflexivity | reflexivity].
Defined.

(** ** Failures *)

(** X15: every failure inside [setup_smtp] or [send_email] reaches the
    caller as a plain [Exception] whose text is the fixed prefix followed
    by the text of the original error; the class of the original error is
    lost.  In [send_email] the original error is that of the [email]
    package when it refuses the message, and that of [sendmail] otherwise.
    [send_email] never returns [False]: it returns [True] or raises. *)
Theorem failures_are_rewrapped (host : string) (port : Z)
    (username password : option string) (use_tls : bool)
    (c : Smtp.connection) (from_addr to_addr subject body : string)
    (html_body : option string) (n : Smtp.net) :
  (∀ e, (EmailHelper.setup_smtp host port username password use_tls n).1 = Smtp.Err e →
        Smtp.err_cls e = Smtp.PlainException
        ∧ ∃ msg, Smtp.err_str e = "Failed to setup SMTP connection: " +:+ msg
                 ∧ (Smtp.connect_error (Smtp.server n) = Some msg
                    ∨ Smtp.login_error (Smtp.server n) = Some msg))
  ∧ (∀ e, (EmailHelper.send_email c from_addr to_addr subject body html_body n).1
          = Smtp.Err e →
          Smtp.err_cls e = Smtp.PlainException
          ∧ ∃ msg, Smtp.err_str e = "Failed to send email: " +:+ msg
                   ∧ (Smtp.mime_error (Smtp.server n)
                        (EmailHelper.build_message from_addr to_addr subject body
                           html_body) = Some msg
                      ∨ (Smtp.mime_error (Smtp.server n)
                           (EmailHelper.build_message from_addr to_addr subject body
                              html_body) = None
                         ∧ Smtp.sendmail_error (Smtp.server n) = Some msg)))
  ∧ (∀ r, (EmailHelper.send_email c from_addr to_addr subject body html_body n).1
          = Smtp.Ok r →
          r = true
          ∧ Smtp.mime_error (Smtp.server n)
              (EmailHelper.build_message from_addr to_addr subject body html_body)
            = None
          ∧ Smtp.sendmail_error (Smtp.server n) = None).
Proof.
  smtp_run. smtp_cases n.
  all: cbv zeta; cbn [Smtp.server Smtp.mime_error].
  all: destruct (me (EmailHelper.build_message from_addr to_addr subject body html_body))
         as [m|] eqn:Hme.
  all: destruct use_tls, (truthy username), (truthy password); simpl.
  all: split_and!; intros ? [= <-]; simpl; eauto 8.
Qed.

Lemma failures_are_rewrapped_witness :
  let n := Smtp.Net (Smtp.Behaviour None None None None strict_mime) [] in
  (EmailHelper.send_email (Smtp.Connection "smtp.example.com" 25 false)
     "a@example.com" "b@example.com" two_lines "text" None n).1
  = Smtp.Err (Smtp.Error Smtp.PlainException
                "Failed to send email: folded header contains newline: 'Subject: Hi\nthere\n'")
  ∧ Smtp.calls
      (EmailHelper.send_email (Smtp.Connection "smtp.example.com" 25 false)
         "a@example.com" "b@example.com" two_lines "text" None n).2 = []
  ∧ Smtp.err_cls (Smtp.Error Smtp.PlainException
                    "Failed to send email: folded header contains newline: 'Subject: Hi\nthere\n'")
    = Smtp.PlainException.
Proof.
  cbv zeta.
  assert (H : (EmailHelper.send_email (Smtp.Connection "smtp.example.com" 25 false)
                 "a@example.com" "b@example.com" two_lines "text" None
                 (Smtp.Net (Smtp.Behaviour None None None None strict_mime) [])).1
              = Smtp.Err (Smtp.Error Smtp.PlainException
                            "Failed to send email: folded header contains newline: 'Subject: Hi\nthere\n'"))
    by reflexivity.
  pose proof (failures_are_rewrapped "" 0 None None false
                (Smtp.Connection "smtp.example.com" 25 false)
                "a@example.com" "b@example.com" two_lines "text" None
                (Smtp.Net (Smtp.Behaviour None None None None strict_mime) []))
    as (_ & Hsend & _).
  split_and!; [exact H | reflexivity | exact (proj1 (Hsend _ H))].
Defined.

(** ** The message *)

(** X16: [send_email] calls [sendmail] at most once.  When the [email]
    package accepts the message, it calls it exactly once, with the
    sender and recipient it was given and a message that carries the
    three headers and the plain body as its first part; the HTML part
    follows exactly when [html_body] is a non-empty string ([None] and
    the empty string give a message with the plain part alone).  When the
    package refuses the message, nothing is sent and the call raises. *)
Theorem one_message_with_optional_html (c : Smtp.connection)
    (from_addr to_addr subject body : string) (html_body : option string)
    (n : Smtp.net) :
  let out := EmailHelper.send_email c from_addr to_addr subject body html_body n in
  ∃ msg,
    (Smtp.mime_error (Smtp.server n) msg = None →
     Smtp.calls out.2
     = Smtp.calls n ++ [Smtp.Sendmail from_addr to_addr msg
                          (bool_decide (Smtp.sendmail_error (Smtp.server n) = None))])
    ∧ (∀ e, Smtp.mime_error (Smtp.server n) msg = Some e →
            Smtp.calls out.2 = Smtp.calls n
            ∧ out.1 = Smtp.Err (Smtp.Error Smtp.PlainException
                                  ("Failed to send email: " +:+ e)))
    ∧ Smtp.m_subject msg = subject ∧ Smtp.m_from msg = from_addr
    ∧ Smtp.m_to msg = to_addr
    ∧ (∀ h, html_body = Some h → h ≠ "" →
            Smtp.m_parts msg = [("plain", body); ("html", h)])
    ∧ (html_body = None ∨ html_body = Some "" →
       Smtp.m_parts msg = [("plain", body)]).
Proof.
  cbv zeta.
  exists (EmailHelper.build_message from_addr to_addr subject body html_body).
  split_and!; try done.
  - smtp_run. intros ->. smtp_cases n; reflexivity.
  - smtp_run. intros e ->. destruct n as [srv cs]. by destruct srv.
  - intros h -> Hh. unfold EmailHelper.build_message. simpl.
    by destruct h.
  - intros [-> | ->]; reflexivity.
Qed.

Lemma one_message_with_optional_html_witness :
  let n := Smtp.Net sound_server [] in
  sent (Smtp.calls (EmailHelper.send_email (Smtp.Connection "h" 25 false)
                      "a@example.com" "b@example.com" "Hi" "text" (Some "") n).2)
  = [(Smtp.Message "Hi" "a@example.com" "b@example.com" [("plain", "text")], true)].
Proof.
  cbv zeta.
  destruct (one_message_with_optional_html (Smtp.Connection "h" 25 false)
              "a@example.com" "b@example.com" "Hi" "text" (Some "")
              (Smtp.Net sound_server []))
    as (msg & Hcalls & _ & Hs & Hf & Ht & _ & Hplain).
  rewrite Hcalls by reflexivity. specialize (Hplain (or_intror eq_refl)).
  destruct msg as [s f t parts]. simpl in *. by subst.
Defined.

(** ** send_quick_email *)

(** X17: [send_quick_email] quits exactly the connection it obtained.
    When [setup_smtp] returns, [quit] is called once, as the last call,
    whether sending worked or not; before it [sendmail] is called once,
    or not at all when the [email] package refuses the message.  When
    [setup_smtp] raises, nothing is sent and [quit] is never called: a
    connection that was opened but whose [login] failed is left open. *)
Theorem quick_email_quits_what_it_obtained (host from_addr to_addr subject body : string)
    (port : Z) (username password : option string) (use_tls : bool)
    (html_body : option string) (n : Smtp.net) :
  let out := send_quick_email host from_addr to_addr subject body port
               username password use_tls html_body n in
  let setup := EmailHelper.setup_smtp host port username password use_tls n in
  let msg := EmailHelper.build_message from_addr to_addr subject body html_body in
  ∃ cs, Smtp.calls out.2 = Smtp.calls n ++ cs
        ∧ (∀ c, setup.1 = Smtp.Ok c →
                ∃ pre ok, cs = pre ++ [Smtp.Quit ok]
                          ∧ quits pre = []
                          ∧ length (sent pre)
                            = match Smtp.mime_error (Smtp.server n) msg with
                              | Some _ => 0%nat
                              | None => 1%nat
                              end)
        ∧ (∀ e, setup.1 = Smtp.Err e →
                out.1 = Smtp.Err e ∧ quits cs = [] ∧ sent cs = []
                ∧ connects cs
                  = [bool_decide (Smtp.connect_error (Smtp.server n) = None)]).
Proof.
  cbv zeta. smtp_run. smtp_cases n.
  all: destruct use_tls, (truthy username), (truthy password); simpl.
  all: destruct (me (EmailHelper.build_message from_addr to_addr subject body html_body))
         as [m|] eqn:Hme; simpl.
  all: eexists; split; [rewrite <- ?app_assoc; simpl; reflexivity|].
  all: split; intros ? [= <-]; try done.
  all: try (by eexists [_], _).
  all: try (by eexists [_; _], _).
  all: try (by eexists [_; _; _], _).
Qed.

Lemma quick_email_quits_what_it_obtained_witness :
  let n := Smtp.Net (Smtp.Behaviour None None None None strict_mime) [] in
  let out := send_quick_email "smtp.example.com" "a@example.com" "b@example.com"
               two_lines "text" 25 None None false None n in
  Smtp.calls out.2
  = [Smtp.Connect "smtp.example.com" 25 false true; Smtp.Quit true]
  ∧ ∃ pre ok, Smtp.calls out.2 = pre ++ [Smtp.Quit ok] ∧ sent pre = [].
Proof.
  cbv zeta.
  destruct (quick_email_quits_what_it_obtained "smtp.example.com" "a@example.com"
              "b@example.com" two_lines "text" 25 None None false None
              (Smtp.Net (Smtp.Behaviour None None None None strict_mime) []))
    as (cs & Hcalls & Hok & _).
  destruct (Hok _ eq_refl) as (pre & ok & Hcs & _ & Hlen).
  split; [reflexivity|]. exists pre, ok. rewrite Hcalls, Hcs. split; [reflexivity|].
  change (length (sent pre) = 0%nat) in Hlen. by destruct (sent pre).
Defined.

(** X18: [send_quick_email] returns [True] exactly when the connection,
    the login (if one is attempted), the building of the message, the
    sending and the [quit] all work; it never returns [False].  When the
    message was sent but [quit] then fails, the caller gets the error of
    [quit], unwrapped, although the mail has gone out.  When the [email]
    package refuses the message, the connection is opened and quit, and
    the call raises without having sent anything. *)
Theorem quick_email_succeeds_iff_all_work (host from_addr to_addr subject body : string)
    (port : Z) (username password : option string) (use_tls : bool)
    (html_body : option string) (n : Smtp.net) :
  let out := send_quick_email host from_addr to_addr subject body port
               username password use_tls html_body n in
  let attempted := negb use_tls && truthy username && truthy password in
  let connected := Smtp.connect_error (Smtp.server n) = None
                   ∧ (attempted = true → Smtp.login_error (Smtp.server n) = None) in
  let msg := EmailHelper.build_message from_addr to_addr subject body html_body in
  (out.1 = Smtp.Ok true
   ↔ connected ∧ Smtp.mime_error (Smtp.server n) msg = None
     ∧ Smtp.sendmail_error (Smtp.server n) = None
     ∧ Smtp.quit_error (Smtp.server n) = None)
  ∧ (∀ r, out.1 = Smtp.Ok r → r = true)
  ∧ (∀ q, connected → Smtp.mime_error (Smtp.server n) msg = None →
          Smtp.sendmail_error (Smtp.server n) = None →
          Smtp.quit_error (Smtp.server n) = Some q →
          out.1 = Smtp.Err (Smtp.Error Smtp.LibraryError q)
          ∧ sent (Smtp.calls out.2) = sent (Smtp.calls n) ++ [(msg, true)])
  ∧ (∀ e, connected → Smtp.mime_error (Smtp.server n) msg = Some e →
          Smtp.quit_error (Smtp.server n) = None →
          out.1 = Smtp.Err (Smtp.Error Smtp.PlainException
                              ("Failed to send email: " +:+ e))
          ∧ sent (Smtp.calls out.2) = sent (Smtp.calls n)
          ∧ quits (Smtp.calls out.2) = quits (Smtp.calls n) ++ [true]).
Proof.
  cbv zeta. smtp_run. smtp_cases n.
  all: destruct use_tls, (truthy username), (truthy password); simpl.
  all: destruct (me (EmailHelper.build_message from_addr to_addr subject body html_body))
         as [m|] eqn:Hme; simpl.
  all: unfold sent, quits; rewrite ?omap_app; simpl; rewrite ?app_nil_r.
  all: split_and!.
  all: try (split; [done | by intros [[? ?] [? [? ?]]]]).
  all: try (split; [done | intros [[_ H] _]; by specialize (H eq_refl)]).
  all: try (by intros ? [= <-]).
  all: try (intros ? [? ?] ? ? [= <-]; done).
  all: try (intros ? [? ?] ? [= <-]; done).
  all: try (intros ? [_ H] ? ? ?; by specialize (H eq_refl)).
  all: try (intros ? [_ H] ? ?; by specialize (H eq_refl)).
  all: try (intros ? [? ?] ? ? ?; done).
  all: try (intros ? [? ?] [= <-] ?; done).
  all: try (intros ? [? ?] ? ?; done).
  all: try (split; [done | intros [[? ?] [? [? ?]]]; done]).
Qed.

Lemma quick_email_succeeds_iff_all_work_witness :
  let n := Smtp.Net (Smtp.Behaviour None None None None strict_mime) [] in
  let out := send_quick_email "smtp.example.com" "a@example.com" "b@example.com"
               two_lines "text" 25 None None false None n in
  out.1 = Smtp.Err (Smtp.Error Smtp.PlainException
                      "Failed to send email: folded header contains newline: 'Subject: Hi\nthere\n'")
  ∧ sent (Smtp.calls out.2) = []
  ∧ quits (Smtp.calls out.2) = [true].
Proof.
  cbv zeta.
  pose proof (quick_email_succeeds_iff_all_work "smtp.example.com" "a@example.com"
                "b@example.com" two_lines "text" 25 None None false None
                (Smtp.Net (Smtp.Behaviour None None None None strict_mime) []))
    as (_ & _ & _ & Hmime).
  apply (Hmime "folded header contains newline: 'Subject: Hi\nthere\n'");
    [split; [reflexivity | discriminate] | reflexivity..].
Defined.

(** * py_utils.logger *)

Lemma lrun_bind {A B} (m : Logging.L A) (k : A → Logging.L B) s a s' :
  m s = (Logging.Done a, s') → Logging.bind m k s = k a s'.
Proof. intros H. unfold Logging.bind. by rewrite H. Qed.

Lemma lrun_bind_raised {A B} (m : Logging.L A) (k : A → Logging.L B) s e s' :
  m s = (Logging.Raised e, s') → Logging.bind m k s = (Logging.Raised e, s').
Proof. intros H. unfold Logging.bind. by rewrite H. Qed.

(** ** Removing the handlers *)

Lemma remove_first_ids i acc :
  i ∈ Logging.h_id <$> acc →
  Logging.h_id <$> acc ≡ₚ i :: (Logging.h_id <$> Logging.remove_first i acc).
Proof.
  induction acc as [|h acc IH]; simpl; [by intros ?%elem_of_nil|].
  intros Hi. destruct (decide (Logging.h_id h = i)) as [->|Hne]; [done|].
  apply elem_of_cons in Hi as [?|Hi]; [congruence|].
  simpl. rewrite (IH Hi) at 1. apply Permutation_swap.
Qed.

(** Removing every handler of a list from that list leaves nothing,
    whatever the identities are. *)
Lemma strip_all hs : ∀ acc,
  Logging.h_id <$> acc ≡ₚ Logging.h_id <$> hs → strip hs acc = [].
Proof.
  unfold strip. induction hs as [|h hs IH]; intros acc Hp; simpl.
  - apply Permutation_nil_r in Hp. by destruct acc.
  - apply IH. simpl in Hp.
    assert (Hin : Logging.h_id h ∈ Logging.h_id <$> acc) by (rewrite Hp; left).
    rewrite (remove_first_ids _ _ Hin) in Hp.
    by apply (inj (cons (Logging.h_id h))) in Hp.
Qed.

Lemma with_registry_twice f g s :
  Logging.with_registry f (Logging.with_registry g s) = Logging.with_registry (f ∘ g) s.
Proof. by destruct s. Qed.

Lemma remove_each_run k hs : ∀ s,
  Logger.remove_each k hs s =
    (Logging.Done (),
     Logging.with_registry
       (alter (λ l, Logging.LoggerState (Logging.l_level l) (strip hs (Logging.l_handlers l))) k)
       s).
Proof.
  induction hs as [|h hs IH]; intros s.
  - simpl. unfold Logging.ret. f_equal. destruct s as [reg ? ? ? ? ? ?].
    unfold Logging.with_registry. simpl. f_equal.
    symmetry. apply alter_id. by intros [? ?].
  - cbn [Logger.remove_each]. erewrite lrun_bind by reflexivity.
    rewrite IH, with_registry_twice. f_equal.
    destruct s as [reg ? ? ? ? ? ?]. unfold Logging.with_registry. simpl. f_equal.
    by rewrite alter_alter_eq.
Qed.

(** ** What [setup_logger] does, by cases *)

Lemma setup_logger_cases name level log_file fmt s :
  let out := Logger.setup_logger name level log_file fmt s in
  let k := Logging.key name in
  let f := default "" log_file in
  let dir := OsPath.dirname f in
  let need_dir := negb (bool_decide (dir = "")) && negb (Logging.present s dir) in
  (∀ j, j ≠ k → Logging.registry out.2 !! j = Logging.registry s !! j)
  ∧ level_of k out.2 = Some level
  ∧ (∀ p, Logging.present s p = true → Logging.present out.2 p = true)
  ∧ (if negb (Logging.accepts_format s fmt) then
       out.1 = Logging.Raised (Logging.ValueError fmt)
       ∧ handler_shapes k out.2 = Some []
       ∧ ∀ p, Logging.present out.2 p = Logging.present s p
     else if negb (truthy log_file) then
       out.1 = Logging.Done k
       ∧ handler_shapes k out.2 = Some [(None, Some fmt)]
       ∧ ∀ p, Logging.present out.2 p = Logging.present s p
     else if need_dir && Logging.denied s dir then
       out.1 = Logging.Raised (Logging.OSError dir)
       ∧ handler_shapes k out.2 = Some [(None, Some fmt)]
     else if Logging.denied s f then
       out.1 = Logging.Raised (Logging.OSError f)
       ∧ handler_shapes k out.2 = Some [(None, Some fmt)]
     else
       out.1 = Logging.Done k
       ∧ handler_shapes k out.2 = Some [(None, Some fmt); (Some f, Some fmt)]
       ∧ Logging.present out.2 f = true
       ∧ (dir ≠ "" → Logging.present out.2 dir = true)).
Proof.
  cbv zeta. unfold Logger.setup_logger.
  do 3 (erewrite lrun_bind by reflexivity).
  erewrite lrun_bind by apply remove_each_run.
  match goal with
  | |- context [Logging.bind (Logging.Formatter fmt) _ ?st] => set (s1 := st)
  end.
  assert (H1k : Logging.registry s1 !! Logging.key name
                = Some (Logging.LoggerState level [])).
  { unfold s1, Logging.with_registry. cbn [Logging.registry].
    destruct (Logging.registry s !! Logging.key name) as [l|] eqn:Hl; cbn [Logging.registry].
    - rewrite !lookup_alter_eq, Hl. simpl. by rewrite strip_all.
    - rewrite !lookup_alter_eq, lookup_insert_eq. simpl. reflexivity. }
  assert (H1o : ∀ j, j ≠ Logging.key name →
                     Logging.registry s1 !! j = Logging.registry s !! j).
  { intros j Hj. unfold s1, Logging.with_registry. cbn [Logging.registry].
    rewrite !lookup_alter_ne by done.
    destruct (Logging.registry s !! Logging.key name); cbn [Logging.registry].
    - done.
    - unfold Logging.with_registry. cbn [Logging.registry]. by rewrite lookup_insert_ne. }
  assert (H1e : Logging.present s1 = Logging.present s
                ∧ Logging.denied s1 = Logging.denied s
                ∧ Logging.accepts_format s1 = Logging.accepts_format s).
  { unfold s1, Logging.with_registry. cbn.
    destruct (Logging.registry s !! Logging.key name); done. }
  destruct H1e as (Hp & Hd & Ha).
  clearbody s1.
  destruct s1 as [reg nid pres den acc cw st].
  cbn [Logging.registry Logging.present Logging.denied Logging.accepts_format]
    in H1k, H1o, Hp, Hd, Ha.
  subst pres den acc.
  assert (Hfresh1 : bool_decide (nid ∈ Logging.h_id <$> @nil Logging.handler) = false)
    by (apply bool_decide_eq_false_2, not_elem_of_nil).
  assert (Hfresh3 : bool_decide (Datatypes.S nid ∈ [nid]) = false).
  { apply bool_decide_eq_false_2. rewrite list_elem_of_singleton. lia. }
  assert (Hfresh2 : ∀ h, bool_decide (Datatypes.S nid ∈ Logging.h_id
                            <$> [Logging.Handler nid None h]) = false).
  { intros h. apply bool_decide_eq_false_2. simpl. rewrite elem_of_cons.
    intros [? | ?%elem_of_nil]; [lia | done]. }
  unfold Logging.bind, Logging.Formatter, Logging.StreamHandler, Logging.new_handler,
    Logging.addHandler, Logging.path_exists, Logging.makedirs, Logging.FileHandler,
    Logging.setFormatter, Logging.ret, Logging.with_registry, Logging.with_present,
    level_of, handler_shapes.
  cbn [Logging.registry Logging.present Logging.denied Logging.accepts_format
       Logging.next_id Logging.h_id Logging.h_stream Logging.h_formatter fst snd].
  destruct (Logging.accepts_format s fmt) eqn:Hacc; cbn [negb fst snd Logging.registry Logging.present].
  2: { rewrite H1k. simpl. split_and!; auto. }
  destruct (truthy log_file) eqn:Htr; cbn [negb fst snd Logging.registry Logging.present].
  2: { rewrite lookup_alter_eq, H1k. simpl.
       split_and!; auto. intros j Hj. rewrite lookup_alter_ne by done. auto. }
  generalize (default "" log_file). intros f.
  generalize (OsPath.dirname f). intros dir.
  destruct (bool_decide (dir = "")) eqn:Hdir;
    destruct (Logging.present s dir) eqn:Hpres;
    destruct (Logging.denied s dir) eqn:Hden;
    destruct (Logging.denied s f) eqn:Hdenf;
    cbn [negb andb fst snd Logging.registry Logging.present Logging.denied
         Logging.next_id];
    rewrite ?Hden, ?Hdenf;
    cbn [negb andb fst snd Logging.registry Logging.present Logging.denied
         Logging.next_id].
  all: split_and!; simpl; rewrite ?Hden, ?Hdenf; simpl;
    try solve [intros j Hj; repeat (rewrite lookup_alter_ne by done); auto];
    try solve [intros p Hpp; rewrite ?Hpp, ?orb_true_r; reflexivity];
    repeat rewrite lookup_alter_eq;
    rewrite ?H1k; simpl; rewrite ?Hfresh3; simpl;
    try done;
    try solve [rewrite bool_decide_eq_true_2 by done; reflexivity];
    try solve [intros Hne; apply bool_decide_eq_true in Hdir; done];
    try solve [intros _; rewrite ?Hpres, ?orb_true_r; reflexivity];
    try solve [intros _; rewrite (bool_decide_eq_true_2 (dir = dir)) by done;
               rewrite ?orb_true_r; reflexivity].
Qed.

(** ** Paths *)

Lemma append_nonempty_r (a b : string) : b ≠ "" → a +:+ b ≠ "".
Proof. destruct a; simpl; [done | discriminate]. Qed.

Lemma has_slash_app a b : has_slash (a +:+ b) = has_slash a || has_slash b.
Proof. induction a as [|x a IH]; simpl; [done | by rewrite IH, orb_assoc]. Qed.

Lemma ends_with_slash_app a b :
  b ≠ "" → OsPath.ends_with_slash (a +:+ b) = OsPath.ends_with_slash b.
Proof.
  intros Hb. induction a as [|x a IH]; [done |].
  change (String x a +:+ b) with (String x (a +:+ b)).
  pose proof (append_nonempty_r a b Hb) as Hne.
  simpl. destruct (a +:+ b) eqn:E; [done | exact IH].
Qed.

Lemma all_slashes_app a b :
  OsPath.all_slashes (a +:+ b) = OsPath.all_slashes a && OsPath.all_slashes b.
Proof. induction a as [|x a IH]; simpl; [done | by rewrite IH, andb_assoc]. Qed.

Lemma all_slashes_ends a :
  a ≠ "" → OsPath.ends_with_slash a = false → OsPath.all_slashes a = false.
Proof.
  induction a as [|x a IH]; [done |]. intros _ He.
  destruct a as [|y a]; simpl in *.
  - by rewrite He.
  - rewrite IH by done. apply andb_false_r.
Qed.

Lemma head_no_slash c : has_slash c = false → OsPath.head_upto_slash c = "".
Proof.
  induction c as [|x c IH]; simpl; [done |].
  intros [Hx Hc]%orb_false_elim. by rewrite IH, Hx.
Qed.

Lemma head_upto_last_slash p c :
  has_slash c = false → OsPath.head_upto_slash (p +:+ "/" +:+ c) = p +:+ "/".
Proof.
  intros Hc. induction p as [|x p IH].
  - simpl. by rewrite head_no_slash.
  - change (String x p +:+ "/" +:+ c) with (String x (p +:+ "/" +:+ c)).
    change (String x p +:+ "/") with (String x (p +:+ "/")).
    cbn [OsPath.head_upto_slash]. rewrite IH.
    pose proof (append_nonempty_r p "/") as Hne.
    destruct (p +:+ "/"); [by destruct Hne | done].
Qed.

Lemma rstrip_cons x p :
  OsPath.rstrip_slashes (String x p) =
    match OsPath.rstrip_slashes p with
    | EmptyString => if OsPath.is_slash x then "" else String x ""
    | r => String x r
    end.
Proof. reflexivity. Qed.

Lemma rstrip_keeps p :
  OsPath.ends_with_slash p = false → OsPath.rstrip_slashes p = p.
Proof.
  induction p as [|x p IH]; [done |]. intros He.
  destruct p as [|y p].
  - simpl in *. by rewrite He.
  - rewrite rstrip_cons, IH by exact He. done.
Qed.

Lemma rstrip_one_slash p : OsPath.rstrip_slashes (p +:+ "/") = OsPath.rstrip_slashes p.
Proof.
  induction p as [|x p IH]; [done |].
  change (String x p +:+ "/") with (String x (p +:+ "/")).
  by rewrite !rstrip_cons, IH.
Qed.

Lemma starts_no_slash c : has_slash c = false → OsPath.starts_with_slash c = false.
Proof. destruct c; simpl; [done |]. by intros [? ?]%orb_false_elim. Qed.

(** [dirname] undoes the last [join] step. *)
Lemma dirname_join2 d c :
  d ≠ "" → OsPath.ends_with_slash d = false → has_slash c = false →
  OsPath.dirname (OsPath.join2 d c) = d.
Proof.
  intros Hd He Hc. unfold OsPath.join2, OsPath.dirname.
  rewrite (starts_no_slash c Hc), He.
  rewrite (bool_decide_eq_false_2 (d = "")) by done. cbn [orb].
  rewrite (head_upto_last_slash d c Hc).
  rewrite (bool_decide_eq_false_2 (d +:+ "/" = "")) by (by apply append_nonempty_r).
  rewrite all_slashes_app, (all_slashes_ends d Hd He). cbn [negb andb].
  by rewrite rstrip_one_slash, rstrip_keeps.
Qed.

Lemma join2_logs base :
  OsPath.join2 base "logs" ≠ "" ∧ OsPath.ends_with_slash (OsPath.join2 base "logs") = false.
Proof.
  unfold OsPath.join2. change (OsPath.starts_with_slash "logs") with false.
  cbv iota.
  destruct (bool_decide (base = "") || OsPath.ends_with_slash base); split.
  - by apply append_nonempty_r.
  - by rewrite ends_with_slash_app.
  - by apply append_nonempty_r.
  - by rewrite ends_with_slash_app.
Qed.

Lemma default_name_no_slash s :
  has_slash (Logging.stamp s) = false → has_slash (default_name s) = false.
Proof.
  intros H. unfold default_name. rewrite !has_slash_app, H. by vm_compute.
Qed.

Lemma join_nonempty a b c : c ≠ "" → OsPath.join a b c ≠ "".
Proof.
  intros Hc. unfold OsPath.join. generalize (OsPath.join2 a b). intros d.
  unfold OsPath.join2.
  destruct (OsPath.starts_with_slash c); [done |].
  destruct (bool_decide (d = "") || OsPath.ends_with_slash d).
  - by apply append_nonempty_r.
  - apply append_nonempty_r. by apply append_nonempty_r.
Qed.

Lemma truthy_some f : truthy (Some f) = negb (bool_decide (f = "")).
Proof. by destruct f. Qed.

Lemma truthy_default lf : truthy lf = true → lf = Some (default "" lf).
Proof. by destruct lf. Qed.

Lemma get_logger_run name log_file s :
  get_logger name log_file s =
    Logger.setup_logger name INFO
      (Some (default (OsPath.join (Logging.cwd s) "logs" (default_name s)) log_file))
      default_format s.
Proof. by destruct log_file. Qed.

Lemma default_path_truthy s :
  truthy (Some (OsPath.join (Logging.cwd s) "logs" (default_name s))) = true.
Proof.
  rewrite truthy_some. rewrite bool_decide_eq_false_2; [done |].
  by apply join_nonempty.
Qed.

(** ** [Logger.setup_logger] *)

(** X19 (src/py_utils/logger.py, [Logger.setup_logger]): when the call
    returns, it returns the logger registered under the given name (the
    root logger for the empty name), that logger has the given level, and
    its handlers are exactly the ones of this call - the console handler,
    followed by the file handler when [log_file] is a non-empty string -
    each with the given format, whatever handlers the logger had before;
    the other loggers are as they were.  So configuring a logger again
    does not pile up handlers. *)
Theorem setup_logger_replaces_handlers name level log_file fmt s k :
  (Logger.setup_logger name level log_file fmt s).1 = Logging.Done k →
  k = Logging.key name
  ∧ level_of k (Logger.setup_logger name level log_file fmt s).2 = Some level
  ∧ handler_shapes k (Logger.setup_logger name level log_file fmt s).2
    = Some (installed log_file fmt)
  ∧ ∀ j, j ≠ k →
      Logging.registry (Logger.setup_logger name level log_file fmt s).2 !! j
      = Logging.registry s !! j.
Proof.
  pose proof (setup_logger_cases name level log_file fmt s) as H. cbv zeta in H.
  destruct H as (Ho & Hl & _ & Hc). intros Hd. unfold installed.
  destruct (Logging.accepts_format s fmt); cbn [negb] in Hc.
  2: { destruct Hc as (Hr & _). rewrite Hr in Hd. discriminate. }
  destruct (truthy log_file) eqn:Ht; cbn [negb] in Hc.
  2: { destruct Hc as (Hr & Hs & _). rewrite Hr in Hd. injection Hd as <-. done. }
  destruct (_ && Logging.denied s _) in Hc.
  { destruct Hc as (Hr & _). rewrite Hr in Hd. discriminate. }
  destruct (Logging.denied s _) in Hc.
  { destruct Hc as (Hr & _). rewrite Hr in Hd. discriminate. }
  destruct Hc as (Hr & Hs & _). rewrite Hr in Hd. injection Hd as <-.
  rewrite Hs. rewrite (truthy_default log_file Ht) at 3. done.
Qed.

Lemma setup_logger_replaces_handlers_witness :
  (Logger.setup_logger "app" 10 (Some "logs/app.log") "%(message)s" demo_sys).1
    = Logging.Done "app"
  ∧ handler_shapes "app" demo_sys
    = Some [(None, Some "%(message)s"); (Some "old.log", Some "%(message)s")]
  ∧ handler_shapes "app"
      (Logger.setup_logger "app" 10 (Some "logs/app.log") "%(message)s" demo_sys).2
    = Some [(None, Some "%(message)s"); (Some "logs/app.log", Some "%(message)s")].
Proof.
  assert (Hd : (Logger.setup_logger "app" 10 (Some "logs/app.log") "%(message)s" demo_sys).1
               = Logging.Done "app") by (vm_compute; reflexivity).
  split; [exact Hd |]. split; [vm_compute; reflexivity |].
  exact (proj1 (proj2 (proj2
    (setup_logger_replaces_handlers "app" 10 (Some "logs/app.log") "%(message)s"
       demo_sys "app" Hd)))).
Defined.

(** X20 (src/py_utils/logger.py, [Logger.setup_logger]): a failing call
    is not undone.  When the call raises, the level has already been set
    and the handlers the logger had are gone: the logger is left without
    any handler when the format string was refused, and with the new
    console handler alone when the directory of the log file could not be
    created or the log file could not be opened. *)
Theorem setup_logger_failure_keeps_changes name level log_file fmt s e :
  (Logger.setup_logger name level log_file fmt s).1 = Logging.Raised e →
  level_of (Logging.key name) (Logger.setup_logger name level log_file fmt s).2
    = Some level
  ∧ match e with
    | Logging.ValueError _ =>
        Logging.accepts_format s fmt = false
        ∧ handler_shapes (Logging.key name)
            (Logger.setup_logger name level log_file fmt s).2 = Some []
    | Logging.OSError p =>
        Logging.denied s p = true
        ∧ (Some p = log_file ∨ Some p = OsPath.dirname <$> log_file)
        ∧ handler_shapes (Logging.key name)
            (Logger.setup_logger name level log_file fmt s).2
          = Some [(None, Some fmt)]
    end.
Proof.
  pose proof (setup_logger_cases name level log_file fmt s) as H. cbv zeta in H.
  destruct H as (_ & Hl & _ & Hc). intros Hd. split; [exact Hl |].
  destruct (Logging.accepts_format s fmt); cbn [negb] in Hc.
  2: { destruct Hc as (Hr & Hs & _). rewrite Hr in Hd. injection Hd as <-. done. }
  destruct (truthy log_file) eqn:Ht; cbn [negb] in Hc.
  2: { destruct Hc as (Hr & _). rewrite Hr in Hd. discriminate. }
  apply truthy_default in Ht.
  destruct (_ && Logging.denied s _) eqn:Hmk in Hc.
  { destruct Hc as (Hr & Hs). rewrite Hr in Hd. injection Hd as <-.
    apply andb_true_iff in Hmk as [_ Hden].
    split_and!; [done | | done]. right. rewrite Ht at 2. done. }
  destruct (Logging.denied s (default "" log_file)) eqn:Hden in Hc.
  { destruct Hc as (Hr & Hs). rewrite Hr in Hd. injection Hd as <-.
    split_and!; [done | | done]. left. by rewrite <- Ht. }
  destruct Hc as (Hr & _). rewrite Hr in Hd. discriminate.
Qed.

Lemma setup_logger_failure_keeps_changes_witness :
  handler_shapes "app" demo_sys
    = Some [(None, Some "%(message)s"); (Some "old.log", Some "%(message)s")]
  ∧ (Logger.setup_logger "app" 20 (Some "/root/secret/app.log") "%(message)s" demo_sys).1
    = Logging.Raised (Logging.OSError "/root/secret")
  ∧ level_of "app"
      (Logger.setup_logger "app" 20 (Some "/root/secret/app.log") "%(message)s" demo_sys).2
    = Some 20
  ∧ handler_shapes "app"
      (Logger.setup_logger "app" 20 (Some "/root/secret/app.log") "%(message)s" demo_sys).2
    = Some [(None, Some "%(message)s")].
Proof.
  assert (Hd : (Logger.setup_logger "app" 20 (Some "/root/secret/app.log") "%(message)s"
                  demo_sys).1 = Logging.Raised (Logging.OSError "/root/secret"))
    by (vm_compute; reflexivity).
  pose proof (setup_logger_failure_keeps_changes "app" 20 (Some "/root/secret/app.log")
                "%(message)s" demo_sys _ Hd) as (Hl & _ & _ & Hs).
  split; [vm_compute; reflexivity |]. split; [exact Hd |]. split; [exact Hl | exact Hs].
Defined.

(** X21 (src/py_utils/logger.py, [Logger.setup_logger]): the call never
    removes a path; without a log file ([None] or the empty string) it
    leaves the file system as it is; and when it returns for a non-empty
    [log_file], that file exists afterwards, and so does its directory
    when the path has one. *)
Theorem setup_logger_paths name level log_file fmt s :
  (∀ p, Logging.present s p = true →
        Logging.present (Logger.setup_logger name level log_file fmt s).2 p = true)
  ∧ (truthy log_file = false →
     ∀ p, Logging.present (Logger.setup_logger name level log_file fmt s).2 p
          = Logging.present s p)
  ∧ (∀ k f, (Logger.setup_logger name level log_file fmt s).1 = Logging.Done k →
       log_file = Some f → f ≠ "" →
       Logging.present (Logger.setup_logger name level log_file fmt s).2 f = true
       ∧ (OsPath.dirname f ≠ "" →
          Logging.present (Logger.setup_logger name level log_file fmt s).2
            (OsPath.dirname f) = true)).
Proof.
  pose proof (setup_logger_cases name level log_file fmt s) as H. cbv zeta in H.
  destruct H as (_ & _ & Hm & Hc). split; [exact Hm |]. split.
  - intros Ht. rewrite Ht in Hc. cbn [negb] in Hc.
    destruct (Logging.accepts_format s fmt); cbn [negb] in Hc; by destruct Hc as (_ & _ & ?).
  - intros k f Hd -> Hf.
    assert (Ht : truthy (Some f) = true).
    { rewrite truthy_some. by rewrite bool_decide_eq_false_2. }
    rewrite Ht in Hc. cbn [negb from_option id] in Hc.
    destruct (Logging.accepts_format s fmt); cbn [negb] in Hc.
    2: { destruct Hc as (Hr & _). rewrite Hr in Hd. discriminate. }
    destruct (_ && Logging.denied s _) in Hc.
    { destruct Hc as (Hr & _). rewrite Hr in Hd. discriminate. }
    destruct (Logging.denied s _) in Hc.
    { destruct Hc as (Hr & _). rewrite Hr in Hd. discriminate. }
    by destruct Hc as (_ & _ & ? & ?).
Qed.

Lemma setup_logger_paths_witness :
  Logging.present demo_sys "logs/app.log" = false
  ∧ Logging.present demo_sys "logs" = false
  ∧ Logging.present
      (Logger.setup_logger "app" 10 (Some "logs/app.log") "%(message)s" demo_sys).2
      "logs/app.log" = true
  ∧ Logging.present
      (Logger.setup_logger "app" 10 (Some "logs/app.log") "%(message)s" demo_sys).2
      "logs" = true.
Proof.
  split; [reflexivity |]. split; [reflexivity |].
  destruct (setup_logger_paths "app" 10 (Some "logs/app.log") "%(message)s" demo_sys)
    as (_ & _ & H).
  destruct (H "app" "logs/app.log") as [Hf Hdir];
    [vm_compute; reflexivity | reflexivity | discriminate |].
  split; [exact Hf |]. apply Hdir. vm_compute. discriminate.
Defined.

(** ** [Logger.get_default_log_file] and [get_logger] *)

(** X22 (src/py_utils/logger.py, [Logger.get_default_log_file]): the call
    changes nothing and does not raise; as long as the date stamp has no
    path separator, the file it names lies directly in the directory
    [logs] of the base directory (the working directory when none is
    given), under the name [app_<stamp>.log]. *)
Theorem default_log_file_in_logs_dir base_dir s :
  has_slash (Logging.stamp s) = false →
  ∃ path,
    Logger.get_default_log_file base_dir s = (Logging.Done path, s)
    ∧ OsPath.dirname path = OsPath.join2 (default (Logging.cwd s) base_dir) "logs"
    ∧ path = OsPath.join2 (OsPath.dirname path) (default_name s).
Proof.
  intros Hs.
  exists (OsPath.join (default (Logging.cwd s) base_dir) "logs" (default_name s)).
  split; [by destruct base_dir |].
  unfold OsPath.join.
  destruct (join2_logs (default (Logging.cwd s) base_dir)) as [Hne He].
  rewrite dirname_join2 by auto using default_name_no_slash. done.
Qed.

Lemma default_log_file_in_logs_dir_witness :
  ∃ path,
    Logger.get_default_log_file None demo_sys = (Logging.Done path, demo_sys)
    ∧ OsPath.dirname path = OsPath.join2 (default (Logging.cwd demo_sys) None) "logs"
    ∧ path = OsPath.join2 (OsPath.dirname path) (default_name demo_sys).
Proof. apply (default_log_file_in_logs_dir None demo_sys). reflexivity. Defined.

(** X23 (src/py_utils/logger.py, [get_logger]): when the call returns,
    the logger of that name is at level [INFO] and has the console
    handler and, unless [log_file] is the empty string, a file handler,
    both with the default format.  In particular a call without
    [log_file] never gives a console-only logger: it logs to
    [<cwd>/logs/app_<stamp>.log]. *)
Theorem get_logger_handlers name log_file s k :
  (get_logger name log_file s).1 = Logging.Done k →
  k = Logging.key name
  ∧ level_of k (get_logger name log_file s).2 = Some INFO
  ∧ handler_shapes k (get_logger name log_file s).2 =
      Some ((None, Some default_format)
            :: if bool_decide (log_file = Some "") then []
               else [(Some (default (OsPath.join (Logging.cwd s) "logs" (default_name s))
                              log_file),
                      Some default_format)]).
Proof.
  rewrite get_logger_run.
  set (f := default _ log_file).
  assert (Ht : truthy (Some f) = negb (bool_decide (log_file = Some ""))).
  { unfold f. destruct log_file as [g|]; cbn [from_option id].
    - rewrite truthy_some. apply (f_equal negb), bool_decide_ext.
      split; congruence.
    - by rewrite default_path_truthy, bool_decide_eq_false_2. }
  pose proof (setup_logger_cases name INFO (Some f) default_format s) as H.
  cbv zeta in H. destruct H as (_ & Hl & _ & Hc). intros Hd.
  rewrite Ht in Hc. cbn [from_option id] in Hc.
  destruct (Logging.accepts_format s default_format); cbn [negb] in Hc.
  2: { destruct Hc as (Hr & _). rewrite Hr in Hd. discriminate. }
  destruct (bool_decide (log_file = Some "")); cbn [negb] in Hc.
  { destruct Hc as (Hr & Hs & _). rewrite Hr in Hd. injection Hd as <-. done. }
  destruct (_ && Logging.denied s _) in Hc.
  { destruct Hc as (Hr & _). rewrite Hr in Hd. discriminate. }
  destruct (Logging.denied s _) in Hc.
  { destruct Hc as (Hr & _). rewrite Hr in Hd. discriminate. }
  destruct Hc as (Hr & Hs & _). rewrite Hr in Hd. injection Hd as <-. done.
Qed.

Lemma get_logger_handlers_witness :
  handler_shapes "other" (get_logger "other" None demo_sys).2 =
    Some [(None, Some default_format);
          (Some "/srv/app/logs/app_20240131.log", Some default_format)].
Proof.
  assert (Hd : (get_logger "other" None demo_sys).1 = Logging.Done "other")
    by (vm_compute; reflexivity).
  exact (proj2 (proj2 (get_logger_handlers "other" None demo_sys "other" Hd))).
Defined.

(** X24 (src/py_utils/logger.py, [get_logger] with
    [Logger.get_default_log_file] and [Logger.setup_logger]): when a call
    without [log_file] returns, the directory [logs] of the working
    directory and the log file of the day in it exist, whether or not
    they did before (the date stamp has no path separator). *)
Theorem get_logger_default_creates_logs_dir name s k :
  has_slash (Logging.stamp s) = false →
  (get_logger name None s).1 = Logging.Done k →
  Logging.present (get_logger name None s).2 (OsPath.join2 (Logging.cwd s) "logs") = true
  ∧ Logging.present (get_logger name None s).2
      (OsPath.join2 (OsPath.join2 (Logging.cwd s) "logs") (default_name s)) = true.
Proof.
  intros Hst. rewrite get_logger_run. cbn [from_option id]. intros Hd.
  pose proof (setup_logger_cases name INFO
                (Some (OsPath.join (Logging.cwd s) "logs" (default_name s)))
                default_format s) as H.
  cbv zeta in H. destruct H as (_ & _ & _ & Hc).
  rewrite default_path_truthy in Hc. cbn [negb from_option id] in Hc.
  destruct (Logging.accepts_format s default_format); cbn [negb] in Hc.
  2: { destruct Hc as (Hr & _). rewrite Hr in Hd. discriminate. }
  destruct (_ && Logging.denied s _) in Hc.
  { destruct Hc as (Hr & _). rewrite Hr in Hd. discriminate. }
  destruct (Logging.denied s _) in Hc.
  { destruct Hc as (Hr & _). rewrite Hr in Hd. discriminate. }
  destruct Hc as (_ & _ & Hf & Hdir).
  destruct (join2_logs (Logging.cwd s)) as [Hne He].
  unfold OsPath.join in Hdir.
  rewrite dirname_join2 in Hdir by auto using default_name_no_slash.
  split; [by apply Hdir | exact Hf].
Qed.

Lemma get_logger_default_creates_logs_dir_witness :
  Logging.present demo_sys "/srv/app/logs" = false
  ∧ Logging.present (get_logger "svc" None demo_sys).2 "/srv/app/logs" = true
  ∧ Logging.present (get_logger "svc" None demo_sys).2
      "/srv/app/logs/app_20240131.log" = true.
Proof.
  split; [reflexivity |].
  apply (get_logger_default_creates_logs_dir "svc" demo_sys "svc").
  - reflexivity.
  - vm_compute. reflexivity.
Defined.
